(** * Nimbus API: subscription lifecycle handlers

    A shallow embedding of the serverless request handlers of the
    repository (cancel-subscription, process-refund, verify-license and
    stripe-webhook) together with an in-memory model of the payment
    provider they call, and the properties of the lifecycle and refund
    decision logic proved over it.  The remaining handlers
    (confirm-subscription, retrieve-session, send-email, the refund
    handler without notifications, the earlier license check, the
    chat-completion proxy, create-checkout and create-payment-intent)
    follow, with the properties of their error handling and side effects.

    Conventions.
    - JavaScript numbers that the handlers compute with are integers
      (epoch seconds and milliseconds, minor currency units) or quotients
      of integers; they are modelled in [Z] and [Q].  The only comparison
      made on a quotient is against the integer 7.
    - An [async] handler is a computation in the monad [M]: it threads the
      provider's state, appends every outbound call to a log, and either
      returns a value or raises an [Error] (a rejected promise or a thrown
      exception).  [try_catch] is the [try { } catch { }] statement.
    - [new Date()] is the argument [now], in milliseconds since the epoch.
    - [req.body] is [undefined], [null], or the properties that the
      handlers read from it; destructuring the first two raises, inside the
      [try] block of the handler.
    - The license check applies the string methods [toLowerCase] and
      [trim] to the key, which is the caller's text: the two methods are
      parameters of that handler, so that what is proved of it holds
      whatever the characters of the key.  The samples instantiate them on
      ASCII text.  [toUpperCase] is applied to the provider's currency
      codes only, which are ASCII letters.
    - The provider's client library is modelled by the operations on
      [World] below; [stripe.webhooks.constructEvent] is a parameter of the
      webhook handler.  Console output is recorded for the webhook handler
      only, whose dispatch consists of little else. *)

From Stdlib Require Import ZArith QArith Qround List String Ascii Bool Lia DecimalString.
Import ListNotations.

Open Scope string_scope.
Open Scope Z_scope.

(** ** JSON values and HTTP responses *)

#[warnings="-register-all"]
Inductive Json : Type :=
| JNull
| JBool (b : bool)
| JNum (q : Q)
| JStr (s : string)
| JIsoDate (ms : Z)   (* the string [new Date(ms).toISOString()] *)
| JObj (fields : list (string * Json)).

(** [res.status(code).json(body)], or [res.status(code).end()] when the
    body is [None]. *)
Record Response : Type := mkResponse {
  res_status : Z;
  res_body : option Json
}.

Definition json (code : Z) (fields : list (string * Json)) : Response :=
  mkResponse code (Some (JObj fields)).

Fixpoint field (k : string) (fields : list (string * Json)) : option Json :=
  match fields with
  | [] => None
  | (k', v) :: rest => if String.eqb k k' then Some v else field k rest
  end.

(** Property [k] of a response body, [None] when absent. *)
Definition res_field (k : string) (r : Response) : option Json :=
  match res_body r with
  | Some (JObj fields) => field k fields
  | _ => None
  end.

Definition num (z : Z) : Json := JNum (inject_Z z).

(** ** Provider records *)

Record Subscription : Type := mkSubscription {
  sub_id : string;
  sub_customer : string;
  sub_status : string;
  sub_created : Z;                 (* epoch seconds *)
  sub_current_period_end : Z;      (* epoch seconds *)
  sub_cancel_at_period_end : bool;
  sub_trial_end : option Z
}.

Record Customer : Type := mkCustomer {
  cus_id : string;
  cus_email : string
}.

Record Invoice : Type := mkInvoice {
  inv_subscription : string;
  inv_status : string;
  inv_charge : option string
}.

Record Charge : Type := mkCharge {
  ch_id : string;
  ch_amount : Z;                   (* minor currency units *)
  ch_currency : string
}.

Record Refund : Type := mkRefund {
  re_id : string;
  re_charge : string;
  re_amount : Z;
  re_currency : string;
  re_reason : string
}.

Record Error : Type := mkError {
  err_name : string;
  message : string
}.

(** Subjects of the administrative e-mails posted to [/api/send-email];
    the HTML part of the message is not modelled. *)
Inductive Subject : Type :=
| SubjCancelledAndRefunded (refundAmount : Q)
| SubjReactivated
| SubjCancellationRequest
| SubjTrialCancellation
| SubjRefundRequest (amount : Q).

(** Outbound calls, in the order the handlers issue them. *)
Inductive Call : Type :=
| SubscriptionsRetrieve (id : string)
| SubscriptionsList (customer : string) (limit : nat)
| SubscriptionsUpdate (id : string) (cancel_at_period_end : bool)
| SubscriptionsCancel (id : string)
| CustomersList (email : string) (limit : nat)
| InvoicesList (subscription : string) (limit : nat) (status : option string)
| RefundsCreate (charge : string) (reason : string)
| FetchSendEmail (subject : Subject)
| ConsoleLog (text : string)
| ConsoleError (text : string).

(** ** The provider's state

    [faulty] tells on which calls the provider (or the network) fails;
    [calls] is the log of calls issued so far, oldest first. *)
Record World : Type := mkWorld {
  subscriptions : list Subscription;
  customers : list Customer;
  invoices : list Invoice;
  charges : list Charge;
  refunds : list Refund;
  faulty : Call -> bool;
  calls : list Call
}.

Definition set_subscriptions (l : list Subscription) (w : World) : World :=
  mkWorld l (customers w) (invoices w) (charges w) (refunds w) (faulty w) (calls w).

Definition set_refunds (l : list Refund) (w : World) : World :=
  mkWorld (subscriptions w) (customers w) (invoices w) (charges w) l (faulty w) (calls w).

Definition set_calls (l : list Call) (w : World) : World :=
  mkWorld (subscriptions w) (customers w) (invoices w) (charges w) (refunds w) (faulty w) l.

(** ** The handler monad *)

Definition M (A : Type) : Type := World -> (Error + A) * World.

Definition ret {A} (a : A) : M A := fun w => (inr a, w).

Definition throw {A} (e : Error) : M A := fun w => (inl e, w).

Definition bind {A B} (m : M A) (k : A -> M B) : M B :=
  fun w =>
    match m w with
    | (inr a, w') => k a w'
    | (inl e, w') => (inl e, w')
    end.

Definition try_catch {A} (m : M A) (handler : Error -> M A) : M A :=
  fun w =>
    match m w with
    | (inl e, w') => handler e w'
    | r => r
    end.

Notation "x <- m ;; k" := (bind m (fun x => k))
  (at level 61, m at next level, right associativity).
Notation "m ;;; k" := (bind m (fun _ => k))
  (at level 61, right associativity).

(** The state once the call [c] has been appended to the log. *)
Definition logged (c : Call) (w : World) : World :=
  set_calls (calls w ++ [c]) w.

Definition record (c : Call) : M unit :=
  fun w => (inr tt, logged c w).

Definition connection_error : Error :=
  mkError "StripeConnectionError" "An error occurred with our connection to Stripe".

(** A provider call: logged, then failing when the provider is faulty on it. *)
Definition request {A} (c : Call) (served : M A) : M A :=
  record c ;;;
  fun w =>
    if faulty w c
    then (inl connection_error, w)
    else served w.

(** ** The provider's operations *)

Definition no_such (what id : string) : Error :=
  mkError "StripeInvalidRequestError" ("No such " ++ what ++ ": " ++ id).

Definition subscriptions_retrieve (id : string) : M Subscription :=
  request (SubscriptionsRetrieve id) (fun w =>
    match find (fun s => String.eqb (sub_id s) id) (subscriptions w) with
    | Some s => (inr s, w)
    | None => (inl (no_such "subscription" id), w)
    end).

Definition customers_list (email : string) (limit : nat) : M (list Customer) :=
  request (CustomersList email limit) (fun w =>
    (inr (firstn limit (filter (fun c => String.eqb (cus_email c) email) (customers w))), w)).

Definition subscriptions_list (customer : string) (limit : nat) : M (list Subscription) :=
  request (SubscriptionsList customer limit) (fun w =>
    (inr (firstn limit (filter (fun s => String.eqb (sub_customer s) customer) (subscriptions w))), w)).

Definition invoice_matches (subscription : string) (status : option string) (i : Invoice) : bool :=
  String.eqb (inv_subscription i) subscription
  && match status with
     | Some st => String.eqb (inv_status i) st
     | None => true
     end.

Definition invoices_list (subscription : string) (limit : nat) (status : option string)
  : M (list Invoice) :=
  request (InvoicesList subscription limit status) (fun w =>
    (inr (firstn limit (filter (invoice_matches subscription status) (invoices w))), w)).

(** A refund of the whole charge; a charge is refunded at most once. *)
Definition refunds_create (charge reason : string) : M Refund :=
  request (RefundsCreate charge reason) (fun w =>
    match find (fun c => String.eqb (ch_id c) charge) (charges w) with
    | None => (inl (no_such "charge" charge), w)
    | Some c =>
        if existsb (fun r => String.eqb (re_charge r) charge) (refunds w)
        then (inl (mkError "StripeInvalidRequestError"
                     ("Charge " ++ charge ++ " has already been refunded.")), w)
        else
          let r := mkRefund ("re_" ++ charge) charge (ch_amount c) (ch_currency c) reason in
          (inr r, set_refunds (refunds w ++ [r]) w)
    end).

Definition with_status (st : string) (s : Subscription) : Subscription :=
  mkSubscription (sub_id s) (sub_customer s) st (sub_created s)
    (sub_current_period_end s) (sub_cancel_at_period_end s) (sub_trial_end s).

Definition with_cancel_at_period_end (b : bool) (s : Subscription) : Subscription :=
  mkSubscription (sub_id s) (sub_customer s) (sub_status s) (sub_created s)
    (sub_current_period_end s) b (sub_trial_end s).

(** Rewrites the first stored subscription with identifier [id]. *)
Fixpoint modify (id : string) (f : Subscription -> Subscription) (l : list Subscription)
  : list Subscription :=
  match l with
  | [] => []
  | s :: rest => if String.eqb (sub_id s) id then f s :: rest else s :: modify id f rest
  end.

Definition subscriptions_write (c : Call) (id : string) (f : Subscription -> Subscription)
  : M Subscription :=
  request c (fun w =>
    match find (fun s => String.eqb (sub_id s) id) (subscriptions w) with
    | Some s => (inr (f s), set_subscriptions (modify id f (subscriptions w)) w)
    | None => (inl (no_such "subscription" id), w)
    end).

Definition subscriptions_cancel (id : string) : M Subscription :=
  subscriptions_write (SubscriptionsCancel id) id (with_status "canceled").

Definition subscriptions_update (id : string) (cancel_at_period_end : bool) : M Subscription :=
  subscriptions_write (SubscriptionsUpdate id cancel_at_period_end) id
    (with_cancel_at_period_end cancel_at_period_end).

(** [fetch(.../api/send-email)]: the outcome of the post never reaches the
    handler's control flow (a [.catch] on the promise, or an enclosing
    [try]), so only the call is recorded. *)
Definition fetch_send_email (subject : Subject) : M unit :=
  record (FetchSendEmail subject).

(** ** Requests and configuration *)

(** [req.body] when there is nothing to destructure: [undefined] for a
    request that carries no body, [null] for the JSON text [null]. *)
Inductive Nullish : Type :=
  | Undefined
  | Null.

(** The properties the handlers read from a [req.body] that can be
    destructured ([None] for an absent property; [licenseKey] is [None]
    also when it is not a string). *)
Record Body : Type := mkBody {
  body_subscriptionId : option string;
  body_email : option string;
  body_reason : option string;
  body_action : option string;
  body_autoRefund : bool;
  body_licenseKey : option string
}.

(** [req]: the method, the signature header and raw payload the webhook
    handler reads, and [req.body] as the other handlers find it. *)
Record Request : Type := mkRequest {
  method : string;
  stripe_signature : option string;
  raw_body : string;
  body : Nullish + Body
}.

(** The variables bound by [const { subscriptionId, ... } = req.body]. *)
Definition subscriptionId (req : Request) : option string :=
  match body req with
  | inr b => body_subscriptionId b
  | inl _ => None
  end.

Definition email (req : Request) : option string :=
  match body req with
  | inr b => body_email b
  | inl _ => None
  end.

Definition reason (req : Request) : option string :=
  match body req with
  | inr b => body_reason b
  | inl _ => None
  end.

Definition action (req : Request) : option string :=
  match body req with
  | inr b => body_action b
  | inl _ => None
  end.

Definition autoRefund (req : Request) : bool :=
  match body req with
  | inr b => body_autoRefund b
  | inl _ => false
  end.

Definition licenseKey (req : Request) : option string :=
  match body req with
  | inr b => body_licenseKey b
  | inl _ => None
  end.

(** The TypeError that destructuring [undefined] or [null] raises; the
    message names the first property of the pattern. *)
Definition cannot_destructure (property : string) (nothing : Nullish) : Error :=
  mkError "TypeError"
    ("Cannot destructure property '" ++ property ++ "' of 'req.body' as it is "
     ++ match nothing with
        | Undefined => "undefined"
        | Null => "null"
        end ++ ".").

(** [const { property, ... } = req.body], the statement that opens the
    [try] block of a handler. *)
Definition destructure (property : string) (req : Request) : M unit :=
  match body req with
  | inr _ => ret tt
  | inl nothing => throw (cannot_destructure property nothing)
  end.

(** [process.env] *)
Record Env : Type := mkEnv {
  FORCE_TEST_MODE : option string;
  TEST_STRIPE_SECRET_KEY : option string;
  STRIPE_SECRET_KEY : option string;
  STRIPE_WEBHOOK_SECRET : option string
}.

(** Truthiness of an optional string: absent and empty are falsy. *)
Definition truthy (o : option string) : bool :=
  match o with
  | None => false
  | Some s => negb (String.eqb s "")
  end.

Definition str (o : option string) : string :=
  match o with
  | Some s => s
  | None => ""
  end.

Definition is_str (o : option string) (s : string) : bool :=
  match o with
  | Some s' => String.eqb s' s
  | None => false
  end.

(** [const forceTestMode = process.env.FORCE_TEST_MODE === 'true';
    const stripeSecretKey = forceTestMode ? TEST_STRIPE_SECRET_KEY : STRIPE_SECRET_KEY] *)
Definition forceTestMode (env : Env) : bool := is_str (FORCE_TEST_MODE env) "true".

Definition stripeSecretKey (env : Env) : option string :=
  if forceTestMode env then TEST_STRIPE_SECRET_KEY env else STRIPE_SECRET_KEY env.

(** ** Refund window *)

(** [(now - new Date(subscription.created * 1000)) / (1000 * 60 * 60 * 24)] *)
Definition daysSincePurchase (subscription : Subscription) (now : Z) : Q :=
  (inject_Z (now - sub_created subscription * 1000)
   / inject_Z (1000 * 60 * 60 * 24))%Q.

(** [daysSincePurchase <= 7], the guard of the cancel handler. *)
Definition withinRefundWindow (subscription : Subscription) (now : Z) : bool :=
  Qle_bool (daysSincePurchase subscription now) 7.

(** [daysSincePurchase > 7], the guard of the refund handler. *)
Definition refundWindowExpired (subscription : Subscription) (now : Z) : bool :=
  negb (Qle_bool (daysSincePurchase subscription now) 7).

(** ** Locating the subscription (cancel and refund handlers)

    The block under [// Find the subscription]: an early response, or the
    subscription.  The two handlers differ in one message only. *)
Definition find_subscription (noSubscription : string) (req : Request)
  : M (Response + Subscription) :=
  if truthy (subscriptionId req) then
    try_catch
      (subscription <- subscriptions_retrieve (str (subscriptionId req)) ;;
       ret (inr subscription))
      (fun _ => ret (inl (json 404 [("error", JStr "Subscription not found")])))
  else
    customers <- customers_list (str (email req)) 1 ;;
    match customers with
    | [] => ret (inl (json 404 [("error", JStr "Customer not found")]))
    | customer :: _ =>
        subscriptions <- subscriptions_list (cus_id customer) 1 ;;
        match subscriptions with
        | [] => ret (inl (json 404 [("error", JStr noSubscription)]))
        | subscription :: _ => ret (inr subscription)
        end
    end.

(** ** cancel-subscription *)

Module Cancel.

(** The body of the [try] under [// Within 7 days - process refund]:
    [Some r] when it returns the response [r], [None] when it completes
    without returning. *)
Definition refund_and_cancel (subscription : Subscription) : M (option Response) :=
  invoices <- invoices_list (sub_id subscription) 1 (Some "paid") ;;
  match invoices with
  | invoice :: _ =>
      if truthy (inv_charge invoice) then
        refund <- refunds_create (str (inv_charge invoice)) "requested_by_customer" ;;
        let refundAmount := (inject_Z (re_amount refund) / 100)%Q in
        subscriptions_cancel (sub_id subscription) ;;;
        fetch_send_email (SubjCancelledAndRefunded refundAmount) ;;;
        ret (Some (json 200
          [("success", JBool true);
           ("refunded", JBool true);
           ("refundAmount", JNum refundAmount);
           ("message", JStr "Subscription cancelled and refunded successfully");
           ("subscriptionId", JStr (sub_id subscription))]))
      else ret None
  | [] => ret None
  end.

(** The [if (autoRefund && action !== 'reactivate')] block; [None] when
    control falls through to the statements after it. *)
Definition auto_refund (req : Request) (subscription : Subscription) (now : Z)
  : M (option Response) :=
  if autoRefund req && negb (is_str (action req) "reactivate") then
    if withinRefundWindow subscription now then
      try_catch (refund_and_cancel subscription) (fun refundError => ret None)
    else ret None
  else ret None.

(** The update that follows, with its notification and response. *)
Definition period_end_or_reactivate (req : Request) (subscription : Subscription)
  : M Response :=
  let reactivate := is_str (action req) "reactivate" in
  cancelledSubscription <-
    (if reactivate
     then subscriptions_update (sub_id subscription) false
     else subscriptions_update (sub_id subscription) true) ;;
  fetch_send_email (if reactivate then SubjReactivated else SubjCancellationRequest) ;;;
  ret (json 200
    [("success", JBool true);
     ("message", JStr (if reactivate
                       then "Subscription reactivated successfully"
                       else "Subscription will be cancelled at the end of the current period"));
     ("subscriptionId", JStr (sub_id cancelledSubscription));
     ("cancelAtPeriodEnd", JBool (sub_cancel_at_period_end cancelledSubscription));
     ("currentPeriodEnd", num (sub_current_period_end cancelledSubscription))]).

Definition handler (env : Env) (now : Z) (req : Request) : M Response :=
  if String.eqb (method req) "OPTIONS" then ret (mkResponse 200 None)
  else if negb (String.eqb (method req) "POST")
  then ret (json 405 [("error", JStr "Method not allowed")])
  else
    try_catch
      (destructure "subscriptionId" req ;;;
       if negb (truthy (subscriptionId req)) && negb (truthy (email req))
       then ret (json 400 [("error", JStr "Subscription ID or email required")])
       else if negb (truthy (stripeSecretKey env))
       then ret (json 500 [("error", JStr "Server configuration error")])
       else
         found <- find_subscription "No subscription found" req ;;
         match found with
         | inl response => ret response
         | inr subscription =>
             refunded <- auto_refund req subscription now ;;
             match refunded with
             | Some response => ret response
             | None => period_end_or_reactivate req subscription
             end
         end)
      (fun error =>
         ret (json 500 [("error", JStr "Internal server error");
                        ("details", JStr (message error))])).

End Cancel.

(** ** process-refund *)

Module ProcessRefund.

(** [`${Math.floor(daysSincePurchase)}`] *)
Definition floor_days (subscription : Subscription) (now : Z) : string :=
  NilZero.string_of_int (Z.to_int (Qfloor (daysSincePurchase subscription now))).

Definition upper_ascii (c : ascii) : ascii :=
  let n := nat_of_ascii c in
  if ((97 <=? n) && (n <=? 122))%nat then ascii_of_nat (n - 32) else c.

(** [String.prototype.toUpperCase], on ASCII letters. *)
Fixpoint toUpperCase (s : string) : string :=
  match s with
  | EmptyString => EmptyString
  | String c rest => String (upper_ascii c) (toUpperCase rest)
  end.

(** The statements after the subscription is found, up to the end of the
    [try] block. *)
Definition refund_or_cancel (subscription : Subscription) (now : Z) : M Response :=
  if refundWindowExpired subscription now then
    ret (json 400
      [("error", JStr "Refund window expired");
       ("details", JStr ("Refunds are only available within 7 days of purchase. "
                         ++ "Your subscription was created "
                         ++ floor_days subscription now ++ " days ago."))])
  else
    invoices <- invoices_list (sub_id subscription) 1 None ;;
    match invoices with
    | [] => ret (json 404 [("error", JStr "No payment found for this subscription")])
    | invoice :: _ =>
        if String.eqb (sub_status subscription) "trialing" then
          subscriptions_cancel (sub_id subscription) ;;;
          fetch_send_email SubjTrialCancellation ;;;
          ret (json 200
            [("success", JBool true);
             ("message", JStr "Trial subscription cancelled");
             ("subscriptionId", JStr (sub_id subscription));
             ("cancelled", JBool true)])
        else if negb (truthy (inv_charge invoice)) then
          ret (json 404 [("error", JStr "No charge found to refund")])
        else
          refund <- refunds_create (str (inv_charge invoice)) "requested_by_customer" ;;
          subscriptions_cancel (sub_id subscription) ;;;
          fetch_send_email (SubjRefundRequest (inject_Z (re_amount refund) / 100)%Q) ;;;
          ret (json 200
            [("success", JBool true);
             ("message", JStr "Refund processed successfully");
             ("refundId", JStr (re_id refund));
             ("subscriptionId", JStr (sub_id subscription));
             ("amount", JNum (inject_Z (re_amount refund) / 100)%Q);
             ("currency", JStr (toUpperCase (re_currency refund)))])
    end.

Definition handler (env : Env) (now : Z) (req : Request) : M Response :=
  if String.eqb (method req) "OPTIONS" then ret (mkResponse 200 None)
  else if negb (String.eqb (method req) "POST")
  then ret (json 405 [("error", JStr "Method not allowed")])
  else
    try_catch
      (destructure "subscriptionId" req ;;;
       if negb (truthy (subscriptionId req)) && negb (truthy (email req))
       then ret (json 400 [("error", JStr "Subscription ID or email required")])
       else if negb (truthy (stripeSecretKey env))
       then ret (json 500 [("error", JStr "Server configuration error")])
       else
         found <- find_subscription "No subscription found for this customer" req ;;
         match found with
         | inl response => ret response
         | inr subscription => refund_or_cancel subscription now
         end)
      (fun error =>
         ret (json 500 [("error", JStr "Internal server error");
                        ("details", JStr (message error))])).

End ProcessRefund.

(** ** verify-license *)

Module VerifyLicense.

(** [sub.status === 'active' || sub.status === 'trialing'] *)
Definition active_or_trialing (sub : Subscription) : bool :=
  String.eqb (sub_status sub) "active" || String.eqb (sub_status sub) "trialing".

(** [for (const customer of customers.data) { ... break; }]: the value of
    [subscription] after the loop. *)
Fixpoint first_active (customers : list Customer) : M (option Subscription) :=
  match customers with
  | [] => ret None
  | customer :: rest =>
      subscriptions <- subscriptions_list (cus_id customer) 10 ;;
      match find active_or_trialing subscriptions with
      | Some activeSub => ret (Some activeSub)
      | None => first_active rest
      end
  end.

Section Handler.

(** [String.prototype.toLowerCase] and [String.prototype.trim], the
    methods of the language that the handler applies to the key. *)
Variables toLowerCase trim : string -> string.

(** The inner [try { retrieve } catch (e) { search by email }]. *)
Definition locate (licenseKey : string) : M (option Subscription) :=
  try_catch
    (subscription <- subscriptions_retrieve licenseKey ;;
     ret (Some subscription))
    (fun e =>
       customers <- customers_list (trim (toLowerCase licenseKey)) 10 ;;
       first_active customers).

(** Reading an identifier that no enclosing block, function or module
    declares and that the global object does not hold. *)
Definition undeclared (x : string) : M Json :=
  throw (mkError "ReferenceError" (x ++ " is not defined")).

Definition json_truthy (v : Json) : bool :=
  match v with
  | JNull => false
  | JBool b => b
  | JNum q => negb (Qeq_bool q 0)
  | JStr s => negb (String.eqb s "")
  | JIsoDate _ => true
  | JObj _ => true
  end.

(** The object literal of the [// License is valid] response.  Its
    properties are evaluated in order; [customerEmail] and
    [normalizedLicenseKey] are declared nowhere in the file. *)
Definition valid_response (subscription : Subscription) : M Response :=
  let expiryDate := sub_current_period_end subscription * 1000 in
  customerEmail <- undeclared "customerEmail" ;;
  email <- (if json_truthy customerEmail then ret customerEmail
            else undeclared "normalizedLicenseKey") ;;
  ret (json 200
    [("valid", JBool true);
     ("subscriptionId", JStr (sub_id subscription));
     ("customerId", JStr (sub_customer subscription));
     ("status", JStr (sub_status subscription));
     ("expiryDate", JIsoDate expiryDate);
     ("currentPeriodEnd", num (sub_current_period_end subscription));
     ("cancelAtPeriodEnd", JBool (sub_cancel_at_period_end subscription));
     ("email", email);
     ("created", num (sub_created subscription));
     ("trialEnd", match sub_trial_end subscription with
                  | Some t => if t =? 0 then JNull else num t
                  | None => JNull
                  end)]).

Definition handler (env : Env) (now : Z) (req : Request) : M Response :=
  if negb (String.eqb (method req) "POST")
  then ret (json 405 [("error", JStr "Method not allowed")])
  else
    try_catch
      (destructure "licenseKey" req ;;;
       if negb (truthy (licenseKey req))
       then ret (json 400 [("error", JStr "License key required")])
       else if negb (truthy (stripeSecretKey env))
       then ret (json 500 [("error", JStr "Server configuration error")])
       else
         try_catch
           (located <- locate (str (licenseKey req)) ;;
            match located with
            | None =>
                ret (json 404
                  [("valid", JBool false);
                   ("error", JStr "License key not found or subscription not active")])
            | Some subscription =>
                if negb (String.eqb (sub_status subscription) "active")
                   && negb (String.eqb (sub_status subscription) "trialing")
                then
                  ret (json 200
                    [("valid", JBool false);
                     ("error", JStr "Subscription is not active");
                     ("status", JStr (sub_status subscription))])
                else
                  let expiryDate := sub_current_period_end subscription * 1000 in
                  if expiryDate <? now then
                    ret (json 200
                      [("valid", JBool false);
                       ("error", JStr "Subscription has expired");
                       ("expiryDate", JIsoDate expiryDate)])
                  else valid_response subscription
            end)
           (fun stripeError =>
              ret (json 500
                [("valid", JBool false);
                 ("error", JStr "Error verifying license key")])))
      (fun error => ret (json 500 [("error", JStr "Internal server error")])).

End Handler.

End VerifyLicense.

(** ** stripe-webhook *)

Module Webhook.

(** [event.data.object], with the properties the handler reads. *)
Record EventObject : Type := mkEventObject {
  obj_id : string;
  obj_status : string;
  obj_mode : option string;
  obj_subscription : option string
}.

Record Event : Type := mkEvent {
  ev_type : string;
  ev_object : EventObject
}.

Section Handler.

(** [stripe.webhooks.constructEvent(payload, header, secret)]: the parsed
    event, or the error raised when the signature does not verify. *)
Variable constructEvent : string -> option string -> string -> Error + Event.

(** The [switch (event.type)] statement. *)
Definition dispatch (event : Event) : M unit :=
  if String.eqb (ev_type event) "checkout.session.completed" then
    let session := ev_object event in
    if is_str (obj_mode session) "subscription" && truthy (obj_subscription session) then
      try_catch
        (subscription <- subscriptions_retrieve (str (obj_subscription session)) ;;
         record (ConsoleLog "Subscription created:"))
        (fun error => record (ConsoleError "Error retrieving subscription:"))
    else ret tt
  else if String.eqb (ev_type event) "customer.subscription.updated"
          || String.eqb (ev_type event) "customer.subscription.deleted" then
    record (ConsoleLog "Subscription updated/deleted:")
  else
    record (ConsoleLog ("Unhandled event type " ++ ev_type event)).

Definition handler (env : Env) (req : Request) : M Response :=
  if negb (String.eqb (method req) "POST")
  then ret (json 405 [("error", JStr "Method not allowed")])
  else
    let stripeSecretKey := STRIPE_SECRET_KEY env in
    let webhookSecret := STRIPE_WEBHOOK_SECRET env in
    if negb (truthy stripeSecretKey) || negb (truthy webhookSecret) then
      record (ConsoleError "Stripe configuration missing") ;;;
      ret (json 500 [("error", JStr "Server configuration error")])
    else
      let sig := stripe_signature req in
      match constructEvent (raw_body req) sig (str webhookSecret) with
      | inl err =>
          record (ConsoleError "Webhook signature verification failed:") ;;;
          ret (json 400 [("error", JStr ("Webhook Error: " ++ message err))])
      | inr event =>
          dispatch event ;;;
          ret (json 200 [("received", JBool true)])
      end.

End Handler.

End Webhook.

(** ** confirm-subscription *)

Module ConfirmSubscription.

Definition handler (env : Env) (req : Request) : M Response :=
  if negb (String.eqb (method req) "POST")
  then ret (json 405 [("error", JStr "Method not allowed")])
  else
    try_catch
      (destructure "subscriptionId" req ;;;
       if negb (truthy (subscriptionId req))
       then ret (json 400 [("error", JStr "Subscription ID required")])
       else if negb (truthy (STRIPE_SECRET_KEY env))
       then ret (json 500 [("error", JStr "Server configuration error")])
       else
         subscription <- subscriptions_retrieve (str (subscriptionId req)) ;;
         if negb (String.eqb (sub_status subscription) "active")
            && negb (String.eqb (sub_status subscription) "trialing")
         then
           ret (json 200
             [("valid", JBool false);
              ("error", JStr "Subscription is not active");
              ("status", JStr (sub_status subscription))])
         else
           let expiryDate := sub_current_period_end subscription * 1000 in
           ret (json 200
             [("valid", JBool true);
              ("subscriptionId", JStr (sub_id subscription));
              ("customerId", JStr (sub_customer subscription));
              ("status", JStr (sub_status subscription));
              ("expiryDate", JIsoDate expiryDate);
              ("currentPeriodEnd", num (sub_current_period_end subscription))]))
      (fun error => ret (json 500 [("error", JStr "Internal server error")])).

End ConfirmSubscription.

(** ** Test keys first

    [const useTestMode = !!process.env.TEST_STRIPE_SECRET_KEY;
     const stripeSecretKey = useTestMode ? TEST_STRIPE_SECRET_KEY : STRIPE_SECRET_KEY],
    the selection of the session handler and of the refund handler without
    notifications. *)
Definition useTestMode (env : Env) : bool := truthy (TEST_STRIPE_SECRET_KEY env).

Definition testFirstSecretKey (env : Env) : option string :=
  if useTestMode env then TEST_STRIPE_SECRET_KEY env else STRIPE_SECRET_KEY env.

(** ** retrieve-session *)

Module RetrieveSession.

(** A checkout session, with the properties the handler reads:
    [subscription] is null, an id, or the expanded subscription;
    [customer_details] is null or carries an e-mail address or null. *)
Record Session : Type := mkSession {
  ses_subscription : option (string + Subscription);
  ses_customer_email : option string;
  ses_customer_details : option (option string)
}.

(** [session.customer_email || session.customer_details?.email], as the
    properties it contributes to the response: none when the value is
    undefined. *)
Definition email_property (session : Session) : list (string * Json) :=
  if truthy (ses_customer_email session)
  then [("email", JStr (str (ses_customer_email session)))]
  else
    match ses_customer_details session with
    | None => []
    | Some None => [("email", JNull)]
    | Some (Some e) => [("email", JStr e)]
    end.

(** The statements from [// Check subscription status] on. *)
Definition verdict (session : Session) (subscription : Subscription) : Response :=
  if negb (String.eqb (sub_status subscription) "active")
     && negb (String.eqb (sub_status subscription) "trialing")
  then
    json 200
      [("valid", JBool false);
       ("error", JStr ("Subscription is not active. Status: " ++ sub_status subscription));
       ("subscriptionId", JStr (sub_id subscription));
       ("status", JStr (sub_status subscription))]
  else
    let expiryDate := sub_current_period_end subscription * 1000 in
    json 200
      ([("valid", JBool true);
        ("subscriptionId", JStr (sub_id subscription));
        ("customerId", JStr (sub_customer subscription));
        ("status", JStr (sub_status subscription));
        ("expiryDate", JIsoDate expiryDate);
        ("currentPeriodEnd", num (sub_current_period_end subscription))]
       ++ email_property session).

Section Handler.

(** [stripe.checkout.sessions.retrieve(sessionId, { expand: ['subscription'] })]:
    the session, or the error raised. *)
Variable sessions_retrieve : string -> Error + Session.

(** [sessionId] is the variable bound by [const { sessionId } = req.body],
    for a body that can be destructured. *)
Definition handler (env : Env) (req : Request) (sessionId : option string) : M Response :=
  if String.eqb (method req) "OPTIONS" then ret (mkResponse 200 None)
  else if negb (String.eqb (method req) "POST")
  then ret (json 405 [("error", JStr "Method not allowed")])
  else
    try_catch
      (if negb (truthy sessionId)
       then ret (json 400 [("error", JStr "Session ID required")])
       else if negb (truthy (testFirstSecretKey env))
       then ret (json 500 [("error", JStr "Server configuration error")])
       else
         match sessions_retrieve (str sessionId) with
         | inl error => throw error
         | inr session =>
             match ses_subscription session with
             | None => ret (json 400 [("error", JStr "No subscription found in session")])
             | Some (inl subscriptionId) =>
                 if String.eqb subscriptionId ""
                 then ret (json 400 [("error", JStr "No subscription found in session")])
                 else
                   subscription <- subscriptions_retrieve subscriptionId ;;
                   ret (verdict session subscription)
             | Some (inr subscription) => ret (verdict session subscription)
             end
         end)
      (fun error =>
         ret (json 500 [("error", JStr "Internal server error");
                        ("details", JStr (message error))])).

End Handler.

End RetrieveSession.

(** ** process-refund, without notifications

    The second refund handler of the file: the test key first, and no
    e-mail. *)

Module ProcessRefundSilent.

Definition refund_or_cancel (subscription : Subscription) (now : Z) : M Response :=
  if refundWindowExpired subscription now then
    ret (json 400
      [("error", JStr "Refund window expired");
       ("details", JStr ("Refunds are only available within 7 days of purchase. "
                         ++ "Your subscription was created "
                         ++ ProcessRefund.floor_days subscription now ++ " days ago."))])
  else
    invoices <- invoices_list (sub_id subscription) 1 None ;;
    match invoices with
    | [] => ret (json 404 [("error", JStr "No payment found for this subscription")])
    | invoice :: _ =>
        if String.eqb (sub_status subscription) "trialing" then
          subscriptions_cancel (sub_id subscription) ;;;
          ret (json 200
            [("success", JBool true);
             ("message", JStr "Trial subscription cancelled");
             ("subscriptionId", JStr (sub_id subscription));
             ("cancelled", JBool true)])
        else if negb (truthy (inv_charge invoice)) then
          ret (json 404 [("error", JStr "No charge found to refund")])
        else
          refund <- refunds_create (str (inv_charge invoice)) "requested_by_customer" ;;
          subscriptions_cancel (sub_id subscription) ;;;
          ret (json 200
            [("success", JBool true);
             ("message", JStr "Refund processed successfully");
             ("refundId", JStr (re_id refund));
             ("subscriptionId", JStr (sub_id subscription));
             ("amount", JNum (inject_Z (re_amount refund) / 100)%Q);
             ("currency", JStr (ProcessRefund.toUpperCase (re_currency refund)))])
    end.

Definition handler (env : Env) (now : Z) (req : Request) : M Response :=
  if String.eqb (method req) "OPTIONS" then ret (mkResponse 200 None)
  else if negb (String.eqb (method req) "POST")
  then ret (json 405 [("error", JStr "Method not allowed")])
  else
    try_catch
      (destructure "subscriptionId" req ;;;
       if negb (truthy (subscriptionId req)) && negb (truthy (email req))
       then ret (json 400 [("error", JStr "Subscription ID or email required")])
       else if negb (truthy (testFirstSecretKey env))
       then ret (json 500 [("error", JStr "Server configuration error")])
       else
         found <- find_subscription "No subscription found for this customer" req ;;
         match found with
         | inl response => ret response
         | inr subscription => refund_or_cancel subscription now
         end)
      (fun error =>
         ret (json 500 [("error", JStr "Internal server error");
                        ("details", JStr (message error))])).

End ProcessRefundSilent.

(** ** send-email *)

Module SendEmail.

(** The properties the handler reads from a [req.body] that can be
    destructured. *)
Record EmailBody : Type := mkEmailBody {
  body_to : option string;
  body_subject : option string;
  body_html : option string;
  body_text : option string
}.

(** [method] and [req.body]. *)
Record EmailRequest : Type := mkEmailRequest {
  em_method : string;
  em_body : Nullish + EmailBody
}.

(** The variables bound by [const { to, subject, html, text } = req.body]. *)
Definition to (req : EmailRequest) : option string :=
  match em_body req with
  | inr b => body_to b
  | inl _ => None
  end.

Definition subject (req : EmailRequest) : option string :=
  match em_body req with
  | inr b => body_subject b
  | inl _ => None
  end.

Definition html (req : EmailRequest) : option string :=
  match em_body req with
  | inr b => body_html b
  | inl _ => None
  end.

Definition text (req : EmailRequest) : option string :=
  match em_body req with
  | inr b => body_text b
  | inl _ => None
  end.

(** The JSON body posted to the mail service. *)
Record Payload : Type := mkPayload {
  pl_from : string;
  pl_to : list string;
  pl_subject : string;
  pl_html : option string;
  pl_text : option string
}.

(** What the handler reads of the service's response: [response.ok],
    [response.status], and the outcomes of [response.text()] and
    [response.json()]. *)
Record FetchResponse : Type := mkFetchResponse {
  ok : bool;
  status : Z;
  text_body : Error + string;
  json_body : Error + Json
}.

Fixpoint has_gt (s : string) : bool :=
  match s with
  | EmptyString => false
  | String c rest => Ascii.eqb c ">" || has_gt rest
  end.

(** [s.replace(/<[^>]*>/g, '')], read from left to right: a ["<"] that a
    [">"] follows opens a match, which the first [">"] closes; [inside]
    tells that a match is open. *)
Fixpoint strip (inside : bool) (s : string) : string :=
  match s with
  | EmptyString => EmptyString
  | String c rest =>
      if inside then
        if Ascii.eqb c ">" then strip false rest else strip true rest
      else if Ascii.eqb c "<" && has_gt rest then strip true rest
      else String c (strip false rest)
  end.

Definition strip_tags (s : string) : string := strip false s.

(** [a || b] on optional strings. *)
Definition or_else (a b : option string) : option string :=
  if truthy a then a else b.

(** [{ from, to: [to], subject, html: html || text,
       text: text || html?.replace(/<[^>]*>/g, '') }] *)
Definition payload (req : EmailRequest) : Payload :=
  mkPayload "Nimbus <nimbus@resend.dev>" [str (to req)] (str (subject req))
    (or_else (html req) (text req))
    (or_else (text req) (option_map strip_tags (html req))).

Definition string_of_Z (z : Z) : string := NilZero.string_of_int (Z.to_int z).

Section Handler.

(** [fetch('https://api.resend.com/emails', ...)] with the bearer key and
    the payload: the response, or the error of a failed request. *)
Variable fetch : string -> Payload -> Error + FetchResponse.

(** The statements of the [try] block after the key is known to be set. *)
Definition send (resendApiKey : string) (req : EmailRequest) : Error + Response :=
  match fetch resendApiKey (payload req) with
  | inl error => inl error
  | inr response =>
      if negb (ok response) then
        match text_body response with
        | inl error => inl error
        | inr errorData =>
            inl (mkError "Error" ("Resend API error: " ++ string_of_Z (status response)))
        end
      else
        match json_body response with
        | inl error => inl error
        | inr JNull =>
            inl (mkError "TypeError" "Cannot read properties of null (reading 'id')")
        | inr result =>
            inr (json 200
              ([("success", JBool true);
                ("message", JStr "Email sent successfully")]
               ++ match result with
                  | JObj fields =>
                      match field "id" fields with
                      | Some id => [("emailId", id)]
                      | None => []
                      end
                  | _ => []
                  end))
        end
  end.

(** The [try] block; [resendApiKey] is [process.env.RESEND_API_KEY]. *)
Definition attempt (resendApiKey : option string) (req : EmailRequest) : Error + Response :=
  match em_body req with
  | inl nothing => inl (cannot_destructure "to" nothing)
  | inr _ =>
      if negb (truthy (to req)) || negb (truthy (subject req))
      then inr (json 400 [("error", JStr "To and subject required")])
      else if negb (truthy resendApiKey)
      then inr (json 200
             [("success", JBool true);
              ("message",
               JStr "Email logged (RESEND_API_KEY not configured - add to Vercel env vars)")])
      else send (str resendApiKey) req
  end.

Definition handler (resendApiKey : option string) (req : EmailRequest) : Response :=
  if String.eqb (em_method req) "OPTIONS" then mkResponse 200 None
  else if negb (String.eqb (em_method req) "POST")
  then json 405 [("error", JStr "Method not allowed")]
  else
    match attempt resendApiKey req with
    | inr response => response
    | inl error =>
        json 500 [("error", JStr "Internal server error");
                  ("details", JStr (message error))]
    end.

End Handler.

End SendEmail.

(** ** verify-license, earlier revision

    The handler of the second unnamed source file: the live key only, the
    key taken as an e-mail address as it is, one customer and one active
    subscription at most. *)

Module VerifyLicenseEarlier.

(** [stripe.subscriptions.list({ customer, status: 'active', limit })];
    the log records the call without its status filter. *)
Definition subscriptions_list_active (customer : string) (limit : nat)
  : M (list Subscription) :=
  request (SubscriptionsList customer limit) (fun w =>
    (inr (firstn limit
            (filter (fun s => String.eqb (sub_customer s) customer
                              && String.eqb (sub_status s) "active")
               (subscriptions w))), w)).

Definition locate (licenseKey : string) : M (option Subscription) :=
  try_catch
    (subscription <- subscriptions_retrieve licenseKey ;;
     ret (Some subscription))
    (fun e =>
       customers <- customers_list licenseKey 1 ;;
       match customers with
       | customer :: _ =>
           subscriptions <- subscriptions_list_active (cus_id customer) 1 ;;
           match subscriptions with
           | subscription :: _ => ret (Some subscription)
           | [] => ret None
           end
       | [] => ret None
       end).

Definition handler (env : Env) (now : Z) (req : Request) : M Response :=
  if negb (String.eqb (method req) "POST")
  then ret (json 405 [("error", JStr "Method not allowed")])
  else
    try_catch
      (destructure "licenseKey" req ;;;
       if negb (truthy (licenseKey req))
       then ret (json 400 [("error", JStr "License key required")])
       else if negb (truthy (STRIPE_SECRET_KEY env))
       then ret (json 500 [("error", JStr "Server configuration error")])
       else
         try_catch
           (located <- locate (str (licenseKey req)) ;;
            match located with
            | None =>
                ret (json 404
                  [("valid", JBool false);
                   ("error", JStr "License key not found or subscription not active")])
            | Some subscription =>
                if negb (String.eqb (sub_status subscription) "active")
                   && negb (String.eqb (sub_status subscription) "trialing")
                then
                  ret (json 200
                    [("valid", JBool false);
                     ("error", JStr "Subscription is not active");
                     ("status", JStr (sub_status subscription))])
                else
                  let expiryDate := sub_current_period_end subscription * 1000 in
                  if expiryDate <? now then
                    ret (json 200
                      [("valid", JBool false);
                       ("error", JStr "Subscription has expired");
                       ("expiryDate", JIsoDate expiryDate)])
                  else
                    ret (json 200
                      [("valid", JBool true);
                       ("subscriptionId", JStr (sub_id subscription));
                       ("customerId", JStr (sub_customer subscription));
                       ("status", JStr (sub_status subscription));
                       ("expiryDate", JIsoDate expiryDate);
                       ("currentPeriodEnd", num (sub_current_period_end subscription))])
            end)
           (fun stripeError =>
              ret (json 500
                [("valid", JBool false);
                 ("error", JStr "Error verifying license key")])))
      (fun error => ret (json 500 [("error", JStr "Internal server error")])).

End VerifyLicenseEarlier.

(** ** The purchase handlers

    create-checkout and create-payment-intent call operations of the
    provider that create customers, prices, subscriptions and checkout
    sessions.  The provider is a record of answers here, one function per
    operation, and a handler returns its response together with the
    operations it called, in order. *)

Module Purchase.

(** The configuration passed to [stripe.checkout.sessions.create]. *)
Record SessionConfig : Type := mkSessionConfig {
  cfg_mode : string;
  cfg_currency : string;
  cfg_unit_amount : Z;
  cfg_interval : string;
  cfg_trial_period_days : Z;
  cfg_success_url : string;
  cfg_cancel_url : string;
  cfg_userEmail : string;
  cfg_customer : option string;
  cfg_customer_email : option string
}.

Record CheckoutSession : Type := mkCheckoutSession {
  cs_id : string;
  cs_url : option string
}.

(** A created subscription: its id, and [latest_invoice.payment_intent
    .client_secret], where the invoice or its payment intent may be null. *)
Record CreatedSubscription : Type := mkCreatedSubscription {
  created_id : string;
  created_client_secret : option (option string)
}.

Inductive ApiCall : Type :=
| ListCustomers (email : string)
| CreateCustomer (email : option string) (extension : bool)
| RetrievePrice (id : string)
| CreatePrice
| CreateSubscription (customer price : string)
| CreateSession (config : SessionConfig).

Record Api : Type := mkApi {
  list_customers : string -> Error + list Customer;
  create_customer : option string -> bool -> Error + Customer;
  retrieve_price : string -> Error + string;
  create_price : Error + string;
  create_subscription : string -> string -> Error + CreatedSubscription;
  create_session : SessionConfig -> Error + CheckoutSession
}.

(** A computation that may raise, with the operations called so far. *)
Definition W (A : Type) : Type := (Error + A) * list ApiCall.

Definition ret {A} (a : A) : W A := (inr a, []).

Definition throw {A} (e : Error) : W A := (inl e, []).

Definition bind {A B} (m : W A) (k : A -> W B) : W B :=
  match m with
  | (inr a, l) => let (r, l') := k a in (r, (l ++ l')%list)
  | (inl e, l) => (inl e, l)
  end.

Definition call {A} (c : ApiCall) (answer : Error + A) : W A := (answer, [c]).

(** [try { ... } catch (error) { return ... }] around a handler's body. *)
Definition caught (m : W Response) (handler : Error -> Response) : Response * list ApiCall :=
  match m with
  | (inr r, l) => (r, l)
  | (inl e, l) => (handler e, l)
  end.

Notation "x <~ m ;; k" := (bind m (fun x => k))
  (at level 61, m at next level, right associativity).

(** [process.env], for the keys these handlers read. *)
Record Keys : Type := mkKeys {
  SECRET_KEY : option string;
  PUBLISHABLE_KEY : option string;
  TEST_SECRET_KEY : option string;
  TEST_PUBLISHABLE_KEY : option string;
  PRICE_ID : option string
}.

Module CreateCheckout.

Definition successUrl : string :=
  "https://nimbus-api-ten.vercel.app/success.html?session_id={CHECKOUT_SESSION_ID}".

(** [customerId], undefined when no e-mail is given. *)
Definition customer_for (api : Api) (email : option string) : W (option string) :=
  if truthy email then
    customers <~ call (ListCustomers (str email)) (list_customers api (str email)) ;;
    match customers with
    | customer :: _ => ret (Some (cus_id customer))
    | [] =>
        customer <~ call (CreateCustomer email true) (create_customer api email true) ;;
        ret (Some (cus_id customer))
    end
  else ret None.

(** [sessionConfig], once [customer] or [customer_email] has been set. *)
Definition sessionConfig (returnUrl email customerId : option string) : SessionConfig :=
  mkSessionConfig "subscription" "gbp" 499 "year" 3
    (successUrl ++ "?session_id={CHECKOUT_SESSION_ID}&success=true")
    (if truthy returnUrl then str returnUrl else "https://chrome.google.com/webstore")
    (if truthy email then str email else "")
    (if truthy customerId then customerId else None)
    (if truthy customerId then None else if truthy email then email else None).

Definition handler (api : Api) (keys : Keys) (method : string)
  (returnUrl email : option string) : Response * list ApiCall :=
  if String.eqb method "OPTIONS" then (mkResponse 200 None, [])
  else if negb (String.eqb method "POST")
  then (json 405 [("error", JStr "Method not allowed")], [])
  else
    let useTestMode := truthy (TEST_SECRET_KEY keys) in
    let stripeSecretKey := if useTestMode then TEST_SECRET_KEY keys else SECRET_KEY keys in
    let stripePublishableKey :=
      if useTestMode then TEST_PUBLISHABLE_KEY keys else PUBLISHABLE_KEY keys in
    caught
      (if negb (truthy stripeSecretKey) || negb (truthy stripePublishableKey) then
         ret (json 500
           [("error", JStr "Server configuration error");
            ("details",
             JStr (if useTestMode
                   then "TEST_STRIPE_SECRET_KEY or TEST_STRIPE_PUBLISHABLE_KEY not set in Vercel environment variables"
                   else "STRIPE_SECRET_KEY or STRIPE_PUBLISHABLE_KEY not set in Vercel environment variables"))])
       else
         customerId <~ customer_for api email ;;
         let config := sessionConfig returnUrl email customerId in
         session <~ call (CreateSession config) (create_session api config) ;;
         ret (json 200
           [("sessionId", JStr (cs_id session));
            ("url", match cs_url session with Some u => JStr u | None => JNull end);
            ("publishableKey", JStr (str stripePublishableKey))]))
      (fun error =>
         json 500
           [("error", JStr "Internal server error");
            ("details", JStr (message error));
            ("type", JStr (if String.eqb (err_name error) "" then "UnknownError"
                           else err_name error))]).

End CreateCheckout.

Module CreatePaymentIntent.

Definition customer_for (api : Api) (email : option string) : W Customer :=
  if truthy email then
    existingCustomers <~ call (ListCustomers (str email)) (list_customers api (str email)) ;;
    match existingCustomers with
    | customer :: _ => ret customer
    | [] => call (CreateCustomer email false) (create_customer api email false)
    end
  else call (CreateCustomer None false) (create_customer api None false).

(** The id of [price]. *)
Definition price_for (api : Api) (priceId : option string) : W string :=
  if truthy priceId
  then call (RetrievePrice (str priceId)) (retrieve_price api (str priceId))
  else call CreatePrice (create_price api).

Definition handler (api : Api) (keys : Keys) (method : string) (email : option string)
  : Response * list ApiCall :=
  if negb (String.eqb method "POST")
  then (json 405 [("error", JStr "Method not allowed")], [])
  else
    caught
      (if negb (truthy (SECRET_KEY keys)) || negb (truthy (PUBLISHABLE_KEY keys)) then
         ret (json 500 [("error", JStr "Server configuration error")])
       else
         customer <~ customer_for api email ;;
         price <~ price_for api (PRICE_ID keys) ;;
         subscription <~ call (CreateSubscription (cus_id customer) price)
                           (create_subscription api (cus_id customer) price) ;;
         match created_client_secret subscription with
         | None =>
             throw (mkError "TypeError"
                      "Cannot read properties of null (reading 'payment_intent')")
         | Some None =>
             throw (mkError "TypeError"
                      "Cannot read properties of null (reading 'client_secret')")
         | Some (Some clientSecret) =>
             ret (json 200
               [("clientSecret", JStr clientSecret);
                ("subscriptionId", JStr (created_id subscription));
                ("customerId", JStr (cus_id customer));
                ("publishableKey", JStr (str (PUBLISHABLE_KEY keys)));
                ("priceId", JStr price)])
         end)
      (fun error =>
         json 500 [("error", JStr "Internal server error");
                   ("details", JStr (message error))]).

End CreatePaymentIntent.

End Purchase.

(** ** The chat-completion proxy *)

Module Chat.

(** [method] and the properties destructured from [req.body]; [messages]
    is [None] when absent or not an array. *)
Record ChatRequest : Type := mkChatRequest {
  chat_method : string;
  messages : option (list Json);
  model : option Json;
  temperature : option Json
}.

(** The JSON body posted upstream. *)
Record Completion : Type := mkCompletion {
  cp_model : Json;
  cp_messages : list Json;
  cp_temperature : Json
}.

Record Upstream : Type := mkUpstream {
  up_ok : bool;
  up_status : Z;
  up_json : Error + Json
}.

(** [{ model = 'gpt-4o-mini', temperature = 0.8 }]: the defaults stand in
    for absent properties. *)
Definition completion (req : ChatRequest) (messages : list Json) : Completion :=
  mkCompletion
    (match model req with Some m => m | None => JStr "gpt-4o-mini" end)
    messages
    (match temperature req with Some t => t | None => JNum (8 # 10) end).

(** [errorData.error?.message || 'OpenAI API error'] *)
Definition error_message (errorData : Json) : Error + Json :=
  match errorData with
  | JNull => inl (mkError "TypeError" "Cannot read properties of null (reading 'error')")
  | JObj fields =>
      match field "error" fields with
      | Some (JObj error) =>
          match field "message" error with
          | Some m => inr (if VerifyLicense.json_truthy m then m else JStr "OpenAI API error")
          | None => inr (JStr "OpenAI API error")
          end
      | _ => inr (JStr "OpenAI API error")
      end
  | _ => inr (JStr "OpenAI API error")
  end.

Section Handler.

(** [fetch('https://api.openai.com/v1/chat/completions', ...)] with the
    bearer key and the body. *)
Variable fetch : string -> Completion -> Error + Upstream.

(** [apiKey] is [process.env.OPENAI_API_KEY]. *)
Definition handler (apiKey : option string) (req : ChatRequest) : Response :=
  if negb (String.eqb (chat_method req) "POST")
  then json 405 [("error", JStr "Method not allowed")]
  else if negb (truthy apiKey)
  then json 500 [("error", JStr "Server configuration error")]
  else
    match messages req with
    | None => json 400 [("error", JStr "Invalid request: messages array required")]
    | Some messages =>
        match fetch (str apiKey) (completion req messages) with
        | inl error => json 500 [("error", JStr "Internal server error")]
        | inr response =>
            if negb (up_ok response) then
              let errorData :=
                match up_json response with
                | inr data => data
                | inl _ => JObj []
                end in
              if up_status response =? 401
              then json 401 [("error", JStr "Invalid API key")]
              else if up_status response =? 429
              then json 429 [("error", JStr "Rate limit exceeded")]
              else
                match error_message errorData with
                | inr m => json (up_status response) [("error", m)]
                | inl error => json 500 [("error", JStr "Internal server error")]
                end
            else
              match up_json response with
              | inr data => mkResponse 200 (Some data)
              | inl error => json 500 [("error", JStr "Internal server error")]
              end
        end
    end.

End Handler.

End Chat.

(** * Vocabulary of the properties *)

(** Everything but the log. *)
Definition store (w : World) : World := set_calls [] w.

(** Calls that only read the provider's state. *)
Definition is_read (c : Call) : bool :=
  match c with
  | SubscriptionsRetrieve _ | SubscriptionsList _ _
  | CustomersList _ _ | InvoicesList _ _ _ => true
  | _ => false
  end.

(** Writes that cancel: at once, or at the end of the period. *)
Definition is_cancellation (c : Call) : bool :=
  match c with
  | SubscriptionsCancel _ | SubscriptionsUpdate _ true => true
  | _ => false
  end.

Definition is_refund (c : Call) : bool :=
  match c with
  | RefundsCreate _ _ => true
  | _ => false
  end.

(** In a sequence of calls, every refund creation comes strictly before
    every cancellation write. *)
Definition refund_precedes_cancellation (issued : list Call) : Prop :=
  forall i j c r,
    nth_error issued i = Some c -> is_cancellation c = true ->
    nth_error issued j = Some r -> is_refund r = true ->
    (j < i)%nat.

(** The same, decided: no refund is created after the first cancellation
    write. *)
Fixpoint refund_first (issued : list Call) : bool :=
  match issued with
  | [] => true
  | c :: rest =>
      if is_cancellation c then negb (existsb is_refund rest) else refund_first rest
  end.

(** A request that passes the method, identifier and configuration
    checks of the cancel and refund handlers, and whose lookup yields
    [subscription], leaving the provider in state [w1]. *)
Definition located (env : Env) (req : Request) (w : World)
  (subscription : Subscription) (w1 : World) : Prop :=
  method req = "POST"
  /\ truthy (subscriptionId req) || truthy (email req) = true
  /\ truthy (stripeSecretKey env) = true
  /\ find_subscription "No subscription found" req w = (inr (inr subscription), w1).

(** The response of a period-end cancellation ([flag = true]) or of a
    reactivation ([flag = false]) that the provider answered with
    [updated]. *)
Definition updated_response (flag : bool) (updated : Subscription) : Response :=
  json 200
    [("success", JBool true);
     ("message", JStr (if flag
                       then "Subscription will be cancelled at the end of the current period"
                       else "Subscription reactivated successfully"));
     ("subscriptionId", JStr (sub_id updated));
     ("cancelAtPeriodEnd", JBool flag);
     ("currentPeriodEnd", num (sub_current_period_end updated))].

(** The provider's state after the update of [cancel_at_period_end] to
    [flag] and the notification that follows it. *)
Definition after_update (id : string) (flag : bool) (w : World) : World :=
  logged (FetchSendEmail (if flag then SubjCancellationRequest else SubjReactivated))
    (set_subscriptions
       (modify id (with_cancel_at_period_end flag) (subscriptions w))
       (logged (SubscriptionsUpdate id flag) w)).

(** The charge of the first invoice that [invoices.list] with
    [status: 'paid'] returns for the subscription, if it has one. *)
Definition latest_paid_charge (w : World) (id : string) : option string :=
  match filter (invoice_matches id (Some "paid")) (invoices w) with
  | invoice :: _ => if truthy (inv_charge invoice) then inv_charge invoice else None
  | [] => None
  end.

(** The provider's state after the immediate cancellation of a trial by
    the refund handler. *)
Definition after_trial_cancel (id : string) (w : World) : World :=
  logged (FetchSendEmail SubjTrialCancellation)
    (set_subscriptions
       (modify id (with_status "canceled") (subscriptions w))
       (logged (SubscriptionsCancel id) (logged (InvoicesList id 1 None) w))).

Definition is_console_error (c : Call) : bool :=
  match c with
  | ConsoleError _ => true
  | _ => false
  end.

(** The customers whose e-mail address is exactly [email], and the
    subscriptions of a customer, in the provider's order. *)
Definition customers_by_email (w : World) (email : string) : list Customer :=
  filter (fun c => String.eqb (cus_email c) email) (customers w).

Definition subscriptions_of (w : World) (customer : string) : list Subscription :=
  filter (fun s => String.eqb (sub_customer s) customer) (subscriptions w).

(** The subscriptions the license check goes through for a key taken as
    an e-mail address: those of the customers that match the key
    lowercased then trimmed, customer after customer, at most ten customers
    and ten subscriptions each. *)
Definition candidates (toLowerCase trim : string -> string) (w : World) (key : string)
  : list Subscription :=
  flat_map (fun c => firstn 10 (subscriptions_of w (cus_id c)))
    (firstn 10 (customers_by_email w (trim (toLowerCase key)))).

(** What the cancel and refund handlers find for an e-mail address: the
    first subscription of the first customer with exactly that address. *)
Definition first_listed (noSubscription : string) (w : World) (email : string)
  : Response + Subscription :=
  match customers_by_email w email with
  | [] => inl (json 404 [("error", JStr "Customer not found")])
  | customer :: _ =>
      match subscriptions_of w (cus_id customer) with
      | [] => inl (json 404 [("error", JStr noSubscription)])
      | subscription :: _ => inr subscription
      end
  end.

(** ** Sample data *)

Module Sample.

(** The two string methods on text of ASCII characters, which is what
    the sample requests carry: the letters A to Z are lowered; tab, line
    feed, vertical tab, form feed, carriage return and space are trimmed. *)
Definition lower_ascii (c : ascii) : ascii :=
  let n := nat_of_ascii c in
  if ((65 <=? n) && (n <=? 90))%nat then ascii_of_nat (n + 32) else c.

Fixpoint toLowerCase (s : string) : string :=
  match s with
  | EmptyString => EmptyString
  | String c rest => String (lower_ascii c) (toLowerCase rest)
  end.

Definition is_space (c : ascii) : bool :=
  let n := nat_of_ascii c in
  (((9 <=? n) && (n <=? 13)) || (n =? 32))%nat.

Fixpoint trimStart (s : string) : string :=
  match s with
  | String c rest => if is_space c then trimStart rest else s
  | EmptyString => EmptyString
  end.

Fixpoint trimEnd (s : string) : string :=
  match s with
  | EmptyString => EmptyString
  | String c rest =>
      match trimEnd rest with
      | EmptyString => if is_space c then EmptyString else String c EmptyString
      | rest' => String c rest'
      end
  end.

Definition trim (s : string) : string := trimEnd (trimStart s).

Definition env : Env := mkEnv None None (Some "sk_live_1") (Some "whsec_1").

Definition created : Z := 1700000000.

(** The instant [n] days after the sample subscription was created. *)
Definition day (n : Z) : Z := created * 1000 + n * 86400000.

Definition subscription (status : string) (pending : bool) : Subscription :=
  mkSubscription "sub_1" "cus_1" status created (created + 30 * 86400) pending None.

(** One customer with one subscription and one paid invoice. *)
Definition world (status : string) (pending : bool) (charge : option string)
  (faulty : Call -> bool) : World :=
  mkWorld [subscription status pending] [mkCustomer "cus_1" "a@b.c"]
    [mkInvoice "sub_1" "paid" charge] [mkCharge "ch_1" 499 "gbp"] [] faulty [].

Definition reliable : Call -> bool := fun _ => false.

(** A customer whose older subscription was cancelled and who holds an
    active one. *)
Definition resubscribed : World :=
  mkWorld
    [mkSubscription "sub_old" "cus_1" "canceled" created (created + 30 * 86400) false None;
     mkSubscription "sub_new" "cus_1" "active" created (created + 30 * 86400) false None]
    [mkCustomer "cus_1" "a@b.c"] [] [] [] reliable [].

(** A customer with ten subscriptions past due and, listed after them, an
    active one. *)
Definition renewed : World :=
  mkWorld
    (map (fun id => mkSubscription id "cus_1" "past_due" created
                      (created + 30 * 86400) false None)
       ["sub_0"; "sub_1"; "sub_2"; "sub_3"; "sub_4";
        "sub_5"; "sub_6"; "sub_7"; "sub_8"; "sub_9"]
     ++ [mkSubscription "sub_new" "cus_1" "active" created
           (created + 30 * 86400) false None])%list
    [mkCustomer "cus_1" "a@b.c"] [] [] [] reliable [].

(** Eleven customers with the same address; the one listed last holds an
    active subscription, the others hold none. *)
Definition crowded : World :=
  mkWorld
    [mkSubscription "sub_new" "cus_new" "active" created (created + 30 * 86400) false None]
    (map (fun id => mkCustomer id "a@b.c")
       ["cus_0"; "cus_1"; "cus_2"; "cus_3"; "cus_4";
        "cus_5"; "cus_6"; "cus_7"; "cus_8"; "cus_9"; "cus_new"])
    [] [] [] reliable [].

Definition refunds_fail : Call -> bool :=
  fun c => match c with RefundsCreate _ _ => true | _ => false end.

Definition rejects : string -> option string -> string -> Error + Webhook.Event :=
  fun _ _ _ =>
    inl (mkError "StripeSignatureVerificationError"
           "No signatures found matching the expected signature for payload.").

(** The state once ["sub_1"] has been retrieved. *)
Definition retrieved (w : World) : World := logged (SubscriptionsRetrieve "sub_1") w.

Definition by_id (action : option string) (autoRefund : bool) : Request :=
  mkRequest "POST" None "" (inr (mkBody (Some "sub_1") None None action autoRefund None)).

Definition by_email (email : string) : Request :=
  mkRequest "POST" None "" (inr (mkBody None (Some email) None None false None)).

(** A delivery to the webhook, with the signature header [signature]. *)
Definition signed (signature : string) : Request :=
  mkRequest "POST" (Some signature) "{}" (inr (mkBody None None None None false None)).

Definition license (key : string) : Request :=
  mkRequest "POST" None "" (inr (mkBody None None None None false (Some key))).

End Sample.

(** The immediate cancellation. *)
Definition is_immediate_cancel (c : Call) : bool :=
  match c with
  | SubscriptionsCancel _ => true
  | _ => false
  end.

(** The first invoice that [invoices.list], without a status filter,
    returns for the subscription. *)
Definition latest_invoice (w : World) (id : string) : option Invoice :=
  match filter (invoice_matches id None) (invoices w) with
  | invoice :: _ => Some invoice
  | [] => None
  end.

(** The refund the provider records for a charge. *)
Definition refund_of (c : Charge) : Refund :=
  mkRefund ("re_" ++ ch_id c) (ch_id c) (ch_amount c) (ch_currency c) "requested_by_customer".

(** A run that ends with a response whose status is one of [statuses]. *)
Definition answers (statuses : list Z) (run : (Error + Response) * World) : Prop :=
  exists r, fst run = inr r /\ In (res_status r) statuses.

(** The refunds recorded in [w'] are those of [w], or those and one more. *)
Definition at_most_one_more_refund (w w' : World) : Prop :=
  refunds w' = refunds w \/ exists r, refunds w' = (refunds w ++ [r])%list.

(** From [w] to [w'] no refund was recorded, no subscription changed its
    status, and neither a refund nor an immediate cancellation was asked
    of the provider. *)
Definition neither_refunded_nor_cancelled (w w' : World) : Prop :=
  refunds w' = refunds w
  /\ map sub_status (subscriptions w') = map sub_status (subscriptions w)
  /\ exists issued,
       calls w' = (calls w ++ issued)%list
       /\ existsb is_refund issued = false
       /\ existsb is_immediate_cancel issued = false.

Definition is_console_log (c : Call) : bool :=
  match c with
  | ConsoleLog _ => true
  | _ => false
  end.

(** From [w] to [w'] the provider was only read: its records are the same
    and the calls issued are retrievals and listings. *)
Definition only_read (w w' : World) : Prop :=
  store w' = store w
  /\ exists issued,
       calls w' = (calls w ++ issued)%list /\ forallb is_read issued = true.




(** A string with a tag: a ["<"] that a [">"] follows. *)
Fixpoint tagged (s : string) : bool :=
  match s with
  | EmptyString => false
  | String c rest => (Ascii.eqb c "<" && SendEmail.has_gt rest) || tagged rest
  end.

Fixpoint has_lt (s : string) : bool :=
  match s with
  | EmptyString => false
  | String c rest => Ascii.eqb c "<" || has_lt rest
  end.

(** [c] asks the provider to create a customer. *)
Definition creates_customer (c : Purchase.ApiCall) : bool :=
  match c with
  | Purchase.CreateCustomer _ _ => true
  | _ => false
  end.

Definition creates_price (c : Purchase.ApiCall) : bool :=
  match c with
  | Purchase.CreatePrice => true
  | _ => false
  end.

Definition lists_customers (c : Purchase.ApiCall) : bool :=
  match c with
  | Purchase.ListCustomers _ => true
  | _ => false
  end.

Definition creates_session (c : Purchase.ApiCall) : bool :=
  match c with
  | Purchase.CreateSession _ => true
  | _ => false
  end.

(** A provider that lists no customer and creates what it is asked to. *)
Definition fresh_provider : Purchase.Api :=
  Purchase.mkApi
    (fun _ => inr [])
    (fun email _ => inr (mkCustomer "cus_new" (str email)))
    (fun id => inr id)
    (inr "price_new")
    (fun _ _ => inr (Purchase.mkCreatedSubscription "sub_new" (Some (Some "pi_secret"))))
    (fun _ => inr (Purchase.mkCheckoutSession "cs_new" (Some "https://checkout.stripe.com/c/cs_new"))).

Definition live_keys : Purchase.Keys :=
  Purchase.mkKeys (Some "sk_live_1") (Some "pk_live_1") None None None.

(** * Properties *)

(** ** The provider *)

#[local] Arguments request {A} c served w : simpl never.

Lemma store_logged c w : store (logged c w) = store w.
Proof. reflexivity. Qed.

Lemma store_fields w w' :
  store w' = store w ->
  subscriptions w' = subscriptions w /\ customers w' = customers w
  /\ invoices w' = invoices w /\ charges w' = charges w
  /\ refunds w' = refunds w /\ faulty w' = faulty w.
Proof.
  intros H.
  repeat split.
  - exact (f_equal subscriptions H).
  - exact (f_equal customers H).
  - exact (f_equal invoices H).
  - exact (f_equal charges H).
  - exact (f_equal refunds H).
  - exact (f_equal faulty H).
Qed.

Lemma request_served {A} c (served : M A) w :
  faulty w c = false -> request c served w = served (logged c w).
Proof.
  intros H. unfold request, bind, record. cbn. now rewrite H.
Qed.

Lemma request_failed {A} c (served : M A) w :
  faulty w c = true -> request c served w = (inl connection_error, logged c w).
Proof.
  intros H. unfold request, bind, record. cbn. now rewrite H.
Qed.

(** ** The request body *)

(** On a body that can be destructured the statement binds the variables
    and nothing else happens; on [undefined] and [null] it raises. *)
Lemma destructured {A} property req (k : M A) :
  (exists b, body req = inr b) -> (destructure property req ;;; k) = k.
Proof. intros [b Hb]. unfold destructure. rewrite Hb. reflexivity. Qed.

Lemma not_destructured {A} property req nothing (k : M A) w :
  body req = inl nothing ->
  (destructure property req ;;; k) w = (inl (cannot_destructure property nothing), w).
Proof. intros Hb. unfold destructure, bind. rewrite Hb. reflexivity. Qed.

(** A request from which an identifier or a key has been read has a body. *)
Lemma identified req :
  truthy (subscriptionId req) || truthy (email req) = true -> exists b, body req = inr b.
Proof.
  unfold subscriptionId, email. destruct (body req) as [n|b]; [discriminate | now exists b].
Qed.

Lemma identified_by_id req :
  truthy (subscriptionId req) = true -> exists b, body req = inr b.
Proof.
  unfold subscriptionId. destruct (body req) as [n|b]; [discriminate | now exists b].
Qed.

Lemma keyed req :
  truthy (licenseKey req) = true -> exists b, body req = inr b.
Proof.
  unfold licenseKey. destruct (body req) as [n|b]; [discriminate | now exists b].
Qed.

Lemma find_by_id_In id (l : list Subscription) s :
  find (fun x => String.eqb (sub_id x) id) l = Some s -> In s l /\ sub_id s = id.
Proof.
  intros H. apply find_some in H. destruct H as [H1 H2].
  split; [assumption | now apply String.eqb_eq].
Qed.

Lemma In_find_by_id (l : list Subscription) s :
  In s l ->
  exists s', find (fun x => String.eqb (sub_id x) (sub_id s)) l = Some s'.
Proof.
  intros H.
  destruct (find (fun x => String.eqb (sub_id x) (sub_id s)) l) as [s'|] eqn:E.
  - now exists s'.
  - apply (find_none _ _ E) in H. cbn in H. now rewrite String.eqb_refl in H.
Qed.

Lemma In_firstn {A} n (l : list A) x : In x (firstn n l) -> In x l.
Proof.
  revert l. induction n as [|n IH]; intros [|a l]; cbn; try tauto.
  intros [H|H]; [now left | right; now apply IH].
Qed.

(** ** Locating a subscription reads only *)

Lemma find_subscription_found msg req w s w1 :
  find_subscription msg req w = (inr (inr s), w1) ->
  store w1 = store w /\ In s (subscriptions w)
  /\ exists l, calls w1 = (calls w ++ l)%list /\ forallb is_read l = true.
Proof.
  unfold find_subscription.
  destruct (truthy (subscriptionId req)).
  - unfold try_catch, bind, subscriptions_retrieve.
    destruct (faulty w (SubscriptionsRetrieve (str (subscriptionId req)))) eqn:F.
    + rewrite request_failed by assumption. cbn. discriminate.
    + rewrite request_served by assumption. cbn.
      destruct (find _ (subscriptions w)) as [s'|] eqn:E; cbn; [|discriminate].
      intros H. injection H as <- <-.
      apply find_by_id_In in E.
      repeat split; try tauto.
      now exists [SubscriptionsRetrieve (str (subscriptionId req))].
  - unfold bind, customers_list, subscriptions_list.
    destruct (faulty w (CustomersList (str (email req)) 1)) eqn:F.
    + rewrite request_failed by assumption. discriminate.
    + rewrite request_served by assumption. cbn.
      destruct (filter _ (customers w)) as [|c cs]; cbn; [discriminate|].
      destruct (faulty w (SubscriptionsList (cus_id c) 1)) eqn:F'.
      * rewrite request_failed by assumption. discriminate.
      * rewrite request_served by assumption. cbn.
        destruct (filter _ (subscriptions w)) as [|s' ss] eqn:E; cbn; [discriminate|].
        intros H. injection H as <- <-.
        repeat split.
        -- assert (I : In s' (s' :: ss)) by now left.
           rewrite <- E in I. now apply filter_In in I.
        -- exists [CustomersList (str (email req)) 1; SubscriptionsList (cus_id c) 1].
           cbn. now rewrite <- app_assoc.
Qed.

(** The success of the lookup does not depend on the message kept for
    its failure. *)
Lemma find_subscription_message msg msg' req w s w1 :
  find_subscription msg req w = (inr (inr s), w1) ->
  find_subscription msg' req w = (inr (inr s), w1).
Proof.
  unfold find_subscription.
  destruct (truthy (subscriptionId req)); [tauto|].
  unfold bind.
  destruct (customers_list _ _ w) as [[e|[|c cs]] w2]; try discriminate.
  destruct (subscriptions_list _ _ w2) as [[e|[|s' ss]] w3]; try discriminate.
  tauto.
Qed.

(** ** The refund window *)

Lemma daysSincePurchase_le_7 subscription now :
  (daysSincePurchase subscription now <= 7)%Q
  <-> now - sub_created subscription * 1000 <= 7 * 86400000.
Proof.
  unfold daysSincePurchase, Qle, Qdiv, Qmult, Qinv, inject_Z. cbn.
  lia.
Qed.

(** C1.  The refund-window decision compares the days elapsed since the
    subscription was created with 7, the boundary included: the cancel
    handler's guard holds exactly when [daysSincePurchase <= 7], the
    refund handler's rejection exactly when [7 < daysSincePurchase], the
    two are complementary, and [daysSincePurchase <= 7] means that at most
    seven days of milliseconds separate [now] from the creation instant. *)
Theorem refund_window_inclusive (subscription : Subscription) (now : Z) :
  (withinRefundWindow subscription now = true
   <-> (daysSincePurchase subscription now <= 7)%Q)
  /\ (refundWindowExpired subscription now = true
      <-> (7 < daysSincePurchase subscription now)%Q)
  /\ withinRefundWindow subscription now = negb (refundWindowExpired subscription now)
  /\ ((daysSincePurchase subscription now <= 7)%Q
      <-> now <= (sub_created subscription + 7 * 86400) * 1000).
Proof.
  unfold withinRefundWindow, refundWindowExpired.
  repeat split.
  - apply Qle_bool_iff.
  - apply Qle_bool_iff.
  - intros H. apply Qnot_le_lt. intros L.
    apply Qle_bool_iff in L. rewrite L in H. discriminate.
  - intros H.
    destruct (Qle_bool (daysSincePurchase subscription now) 7) eqn:E; [|reflexivity].
    apply Qle_bool_iff in E. exfalso. exact (Qlt_not_le _ _ H E).
  - now rewrite negb_involutive.
  - intros H. apply daysSincePurchase_le_7 in H. lia.
  - intros H. apply daysSincePurchase_le_7. lia.
Qed.

(** Exactly seven days after creation the subscription is still within
    the window; one millisecond later it is not. *)
Example refund_window_boundary :
  let subscription := mkSubscription "sub_1" "cus_1" "active" 1700000000 1702592000 false None in
  (daysSincePurchase subscription 1700604800000 == 7)%Q
  /\ withinRefundWindow subscription 1700604800000 = true
  /\ withinRefundWindow subscription 1700604800001 = false
  /\ refundWindowExpired subscription 1700604800000 = false
  /\ refundWindowExpired subscription 1700604800001 = true.
Proof. cbv. intuition congruence. Qed.

(** ** cancel-subscription: the period-end path *)

Lemma modify_status id flag l :
  map sub_status (modify id (with_cancel_at_period_end flag) l) = map sub_status l.
Proof.
  induction l as [|s l IH]; cbn; [reflexivity|].
  destruct (String.eqb (sub_id s) id); cbn; [reflexivity | now rewrite IH].
Qed.

Lemma cancel_handler_located env now req w s w1 :
  located env req w s w1 ->
  Cancel.handler env now req w =
  try_catch
    (refunded <- Cancel.auto_refund req s now ;;
     match refunded with
     | Some response => ret response
     | None => Cancel.period_end_or_reactivate req s
     end)
    (fun error =>
       ret (json 500 [("error", JStr "Internal server error");
                      ("details", JStr (message error))])) w1.
Proof.
  intros (Hm & Hid & Hkey & Hfind).
  unfold Cancel.handler. rewrite destructured by now apply identified.
  rewrite Hm, Hkey. cbn.
  rewrite <- negb_orb, Hid. cbn.
  unfold try_catch, bind at 1. now rewrite Hfind.
Qed.

Lemma period_end_or_reactivate_runs req s w stored :
  let flag := negb (is_str (action req) "reactivate") in
  find (fun x => String.eqb (sub_id x) (sub_id s)) (subscriptions w) = Some stored ->
  faulty w (SubscriptionsUpdate (sub_id s) flag) = false ->
  Cancel.period_end_or_reactivate req s w
  = (inr (updated_response flag stored), after_update (sub_id s) flag w).
Proof.
  intros flag Hfind Hok. subst flag.
  unfold Cancel.period_end_or_reactivate, subscriptions_update, subscriptions_write.
  destruct (is_str (action req) "reactivate"); cbn in Hok |- *;
    unfold bind at 1; rewrite request_served by assumption;
    cbn; rewrite Hfind; reflexivity.
Qed.

Lemma after_update_facts id flag w :
  refunds (after_update id flag w) = refunds w
  /\ map sub_status (subscriptions (after_update id flag w)) = map sub_status (subscriptions w)
  /\ calls (after_update id flag w)
     = (calls w ++ [SubscriptionsUpdate id flag;
                    FetchSendEmail (if flag then SubjCancellationRequest
                                    else SubjReactivated)])%list.
Proof.
  repeat split.
  - apply modify_status.
  - cbn. now rewrite <- app_assoc.
Qed.

(** C6.  A cancel request with [autoRefund] set, made more than seven days
    after the subscription was created, ends as the standard period-end
    cancellation: status 200 with [cancelAtPeriodEnd: true] and the current
    period end of the stored subscription, no refund created, no status
    changed, and the update and its notification as the only calls after
    the lookup. *)
Theorem auto_refund_outside_window_degrades env now req w subscription w1 :
  located env req w subscription w1 ->
  autoRefund req = true ->
  is_str (action req) "reactivate" = false ->
  (7 < daysSincePurchase subscription now)%Q ->
  faulty w (SubscriptionsUpdate (sub_id subscription) true) = false ->
  exists stored w',
    Cancel.handler env now req w = (inr (updated_response true stored), w')
    /\ In stored (subscriptions w)
    /\ sub_id stored = sub_id subscription
    /\ subscriptions w'
       = modify (sub_id subscription) (with_cancel_at_period_end true) (subscriptions w)
    /\ map sub_status (subscriptions w') = map sub_status (subscriptions w)
    /\ refunds w' = refunds w
    /\ calls w' = (calls w1 ++ [SubscriptionsUpdate (sub_id subscription) true;
                                FetchSendEmail SubjCancellationRequest])%list.
Proof.
  intros Hloc Hauto Hact Hlate Hok.
  pose proof Hloc as (_ & _ & _ & Hfind).
  apply find_subscription_found in Hfind. destruct Hfind as (Hst & Hin & _).
  apply store_fields in Hst. destruct Hst as (Hsubs & _ & _ & _ & Href & Hf).
  destruct (In_find_by_id _ _ Hin) as [stored Hstored].
  exists stored, (after_update (sub_id subscription) true w1).
  rewrite (cancel_handler_located _ now _ _ _ _ Hloc).
  assert (Hexp : withinRefundWindow subscription now = false).
  { unfold withinRefundWindow.
    destruct (Qle_bool (daysSincePurchase subscription now) 7) eqn:E; [|reflexivity].
    apply Qle_bool_iff in E. exfalso. exact (Qlt_not_le _ _ Hlate E). }
  unfold try_catch, bind at 1, Cancel.auto_refund.
  rewrite Hauto, Hact, Hexp. cbn.
  rewrite <- Hsubs in Hstored. rewrite <- Hf in Hok.
  pose proof (period_end_or_reactivate_runs req subscription w1 stored) as Hrun.
  rewrite Hact in Hrun. cbn in Hrun. rewrite (Hrun Hstored Hok).
  destruct (after_update_facts (sub_id subscription) true w1) as (R1 & R2 & R3).
  rewrite Hsubs in Hstored. apply find_by_id_In in Hstored.
  repeat split; try tauto.
  - now rewrite Hsubs.
  - now rewrite modify_status, Hsubs.
Qed.

(** ** cancel-subscription: the refund attempt *)

(** Case analysis on whether the provider serves the next call. *)
Ltac serve :=
  match goal with
  | |- context [request ?c ?m ?w] =>
      let F := fresh "F" in
      destruct (faulty w c) eqn:F;
      [rewrite (request_failed c m w F) | rewrite (request_served c m w F)];
      cbn in F
  end.

(** When the body of the [try] raises, no subscription has been written. *)
Lemma refund_and_cancel_raised s w e w2 :
  Cancel.refund_and_cancel s w = (inl e, w2) ->
  subscriptions w2 = subscriptions w /\ faulty w2 = faulty w.
Proof.
  unfold Cancel.refund_and_cancel, invoices_list, refunds_create,
    subscriptions_cancel, subscriptions_write, fetch_send_email.
  unfold bind at 1. serve; [intros H; now injection H as <- <-|].
  cbn.
  destruct (filter _ (invoices w)) as [|invoice rest]; cbn; [discriminate|].
  destruct (truthy (inv_charge invoice)); [|discriminate].
  unfold bind at 1. serve; [intros H; now injection H as <- <-|].
  cbn.
  destruct (find _ (charges w)) as [c|]; [|intros H; now injection H as <- <-].
  destruct (existsb _ (refunds w)); [intros H; now injection H as <- <-|].
  unfold bind at 1. serve; [intros H; now injection H as <- <-|].
  cbn.
  destruct (find _ (subscriptions w)) as [s'|]; [discriminate|].
  intros H; now injection H as <- <-.
Qed.

(** C5.  In a refund-eligible cancel request with [autoRefund] set, an
    error raised inside the refund attempt (listing the invoice, creating
    the refund, or the immediate cancellation after it) is caught: the
    handler goes on to the period-end update and answers 200 with
    [cancelAtPeriodEnd: true], not 500. *)
Theorem refund_failure_is_not_fatal env now req w subscription w1 e w2 :
  located env req w subscription w1 ->
  autoRefund req = true ->
  is_str (action req) "reactivate" = false ->
  (daysSincePurchase subscription now <= 7)%Q ->
  Cancel.refund_and_cancel subscription w1 = (inl e, w2) ->
  faulty w (SubscriptionsUpdate (sub_id subscription) true) = false ->
  exists stored,
    Cancel.handler env now req w
    = (inr (updated_response true stored), after_update (sub_id subscription) true w2)
    /\ In stored (subscriptions w)
    /\ sub_id stored = sub_id subscription
    /\ res_status (updated_response true stored) = 200
    /\ res_field "success" (updated_response true stored) = Some (JBool true)
    /\ res_field "cancelAtPeriodEnd" (updated_response true stored) = Some (JBool true).
Proof.
  intros Hloc Hauto Hact Hin7 Hraise Hok.
  pose proof Hloc as (_ & _ & _ & Hfind).
  apply find_subscription_found in Hfind. destruct Hfind as (Hst & Hin & _).
  apply store_fields in Hst. destruct Hst as (Hsubs & _ & _ & _ & _ & Hf).
  destruct (refund_and_cancel_raised _ _ _ _ Hraise) as (Hsubs2 & Hf2).
  destruct (In_find_by_id _ _ Hin) as [stored Hstored].
  exists stored.
  rewrite (cancel_handler_located _ now _ _ _ _ Hloc).
  apply Qle_bool_iff in Hin7. fold (withinRefundWindow subscription now) in Hin7.
  unfold try_catch at 1, bind at 1, Cancel.auto_refund.
  rewrite Hauto, Hact, Hin7. cbn.
  unfold try_catch. rewrite Hraise. cbn.
  pose proof (period_end_or_reactivate_runs req subscription w2 stored) as Hrun.
  rewrite Hact in Hrun. cbn in Hrun.
  rewrite Hrun by congruence.
  apply find_by_id_In in Hstored.
  repeat split; tauto.
Qed.

(** ** process-refund *)

Lemma refund_handler_located env now req w s w1 :
  located env req w s w1 ->
  ProcessRefund.handler env now req w =
  try_catch
    (ProcessRefund.refund_or_cancel s now)
    (fun error =>
       ret (json 500 [("error", JStr "Internal server error");
                      ("details", JStr (message error))])) w1.
Proof.
  intros (Hm & Hid & Hkey & Hfind).
  apply (find_subscription_message _ "No subscription found for this customer") in Hfind.
  unfold ProcessRefund.handler. rewrite destructured by now apply identified.
  rewrite Hm, Hkey. cbn.
  rewrite <- negb_orb, Hid. cbn.
  unfold try_catch, bind at 1. now rewrite Hfind.
Qed.

Lemma expired_after subscription now :
  (7 < daysSincePurchase subscription now)%Q ->
  refundWindowExpired subscription now = true.
Proof.
  intros H. unfold refundWindowExpired.
  destruct (Qle_bool (daysSincePurchase subscription now) 7) eqn:E; [|reflexivity].
  apply Qle_bool_iff in E. exfalso. exact (Qlt_not_le _ _ H E).
Qed.

(** C10.  The refund handler tests the window before the trial status: a
    refund request for a trialing subscription created more than seven
    days ago is answered 400 "Refund window expired", and the provider has
    only been read: the trial is not cancelled. *)
Theorem expired_trial_refund_is_rejected env now req w subscription w1 :
  located env req w subscription w1 ->
  sub_status subscription = "trialing" ->
  (7 < daysSincePurchase subscription now)%Q ->
  ProcessRefund.handler env now req w
  = (inr (json 400
       [("error", JStr "Refund window expired");
        ("details", JStr ("Refunds are only available within 7 days of purchase. "
                          ++ "Your subscription was created "
                          ++ ProcessRefund.floor_days subscription now ++ " days ago."))]),
     w1)
  /\ store w1 = store w
  /\ In subscription (subscriptions w1)
  /\ exists issued,
       calls w1 = (calls w ++ issued)%list
       /\ forallb is_read issued = true
       /\ existsb is_cancellation issued = false.
Proof.
  intros Hloc Htrial Hlate.
  rewrite (refund_handler_located _ now _ _ _ _ Hloc).
  destruct Hloc as (_ & _ & _ & Hfind).
  apply find_subscription_found in Hfind.
  destruct Hfind as (Hst & Hin & issued & Hcalls & Hreads).
  unfold try_catch, ProcessRefund.refund_or_cancel.
  rewrite (expired_after _ _ Hlate). cbn.
  repeat split; try assumption.
  - apply store_fields in Hst. destruct Hst as (-> & _). assumption.
  - exists issued. repeat split; try assumption.
    clear Hcalls. induction issued as [|c l IH]; [reflexivity|].
    cbn in Hreads |- *. apply andb_true_iff in Hreads. destruct Hreads as [Hc Hl].
    rewrite (IH Hl). destruct c; try discriminate; reflexivity.
Qed.

(** ** Trials within the window *)

(** C3, as stated, fails: a cancel request with [autoRefund] set, one day
    into a trial whose paid invoice carries no charge, leaves the
    subscription trialing, marks it to be cancelled at the end of the
    period, and never calls the immediate cancellation. *)
Lemma trial_auto_refund_cancels_at_period_end :
  let s := Sample.subscription "trialing" false in
  let w := Sample.world "trialing" false None Sample.reliable in
  let req := Sample.by_id None true in
  let run := Cancel.handler Sample.env (Sample.day 1) req w in
  sub_status s = "trialing"
  /\ withinRefundWindow s (Sample.day 1) = true
  /\ autoRefund req = true
  /\ fst run = inr (updated_response true s)
  /\ map sub_status (subscriptions (snd run)) = ["trialing"]
  /\ map sub_cancel_at_period_end (subscriptions (snd run)) = [true]
  /\ existsb is_cancellation (calls (snd run)) = true
  /\ In (SubscriptionsUpdate "sub_1" true) (calls (snd run))
  /\ ~ In (SubscriptionsCancel "sub_1") (calls (snd run)).
Proof.
  vm_compute. repeat split; try reflexivity.
  - now right; right; left.
  - intuition discriminate.
Qed.

Lemma within_before subscription now :
  (daysSincePurchase subscription now <= 7)%Q ->
  withinRefundWindow subscription now = true
  /\ refundWindowExpired subscription now = false.
Proof.
  intros H. apply Qle_bool_iff in H.
  unfold withinRefundWindow, refundWindowExpired. now rewrite H.
Qed.

(** C3, amended.  For a trialing subscription within the window:
    - a cancel request with [autoRefund] set whose latest paid invoice
      carries no charge creates no refund and changes no status; it sets
      [cancel_at_period_end] and answers with the period-end response;
    - a request to the refund handler, when the subscription has an
      invoice, cancels it at once, creates no refund, and answers
      [{success: true, cancelled: true}]. *)
Theorem trial_within_window env now req w subscription w1 :
  located env req w subscription w1 ->
  sub_status subscription = "trialing" ->
  (daysSincePurchase subscription now <= 7)%Q ->
  (autoRefund req = true ->
   is_str (action req) "reactivate" = false ->
   latest_paid_charge w (sub_id subscription) = None ->
   faulty w (SubscriptionsUpdate (sub_id subscription) true) = false ->
   exists stored w',
     Cancel.handler env now req w = (inr (updated_response true stored), w')
     /\ sub_id stored = sub_id subscription
     /\ refunds w' = refunds w
     /\ map sub_status (subscriptions w') = map sub_status (subscriptions w)
     /\ calls w' = (calls w1 ++ [InvoicesList (sub_id subscription) 1 (Some "paid");
                                 SubscriptionsUpdate (sub_id subscription) true;
                                 FetchSendEmail SubjCancellationRequest])%list)
  /\ (faulty w (InvoicesList (sub_id subscription) 1 None) = false ->
      filter (invoice_matches (sub_id subscription) None) (invoices w) <> [] ->
      faulty w (SubscriptionsCancel (sub_id subscription)) = false ->
      ProcessRefund.handler env now req w
      = (inr (json 200
           [("success", JBool true);
            ("message", JStr "Trial subscription cancelled");
            ("subscriptionId", JStr (sub_id subscription));
            ("cancelled", JBool true)]),
         after_trial_cancel (sub_id subscription) w1)
      /\ refunds (after_trial_cancel (sub_id subscription) w1) = refunds w
      /\ subscriptions (after_trial_cancel (sub_id subscription) w1)
         = modify (sub_id subscription) (with_status "canceled") (subscriptions w)).
Proof.
  intros Hloc Htrial Hin7.
  pose proof Hloc as (_ & _ & _ & Hfind).
  apply find_subscription_found in Hfind. destruct Hfind as (Hst & Hin & _).
  apply store_fields in Hst. destruct Hst as (Hsubs & _ & Hinv & _ & Href & Hf).
  destruct (within_before _ _ Hin7) as (Hwithin & Hnotexp).
  destruct (In_find_by_id _ _ Hin) as [stored Hstored].
  split.
  - intros Hauto Hact Hnone Hok.
    exists stored,
      (after_update (sub_id subscription) true
         (logged (InvoicesList (sub_id subscription) 1 (Some "paid")) w1)).
    rewrite (cancel_handler_located _ now _ _ _ _ Hloc).
    unfold try_catch at 1, bind at 1, Cancel.auto_refund.
    rewrite Hauto, Hact, Hwithin. cbn.
    assert (Hbody : exists r,
      Cancel.refund_and_cancel subscription w1
      = (r, logged (InvoicesList (sub_id subscription) 1 (Some "paid")) w1)
      /\ (r = inr None \/ exists e, r = inl e)).
    { unfold Cancel.refund_and_cancel, invoices_list, bind at 1.
      serve; [eexists; split; [reflexivity | right; eauto]|].
      cbn. rewrite Hinv. unfold latest_paid_charge in Hnone.
      destruct (filter _ (invoices w)) as [|invoice rest]; cbn.
      - eexists; split; [reflexivity | now left].
      - destruct (truthy (inv_charge invoice)) eqn:T.
        + rewrite Hnone in T. discriminate.
        + eexists; split; [reflexivity | now left]. }
    destruct Hbody as (r & Hbody & Hr).
    pose proof (period_end_or_reactivate_runs req subscription
      (logged (InvoicesList (sub_id subscription) 1 (Some "paid")) w1) stored) as Hrun.
    rewrite Hact in Hrun. cbn in Hrun.
    unfold try_catch. rewrite Hbody.
    assert (Hgo : Cancel.period_end_or_reactivate req subscription
                    (logged (InvoicesList (sub_id subscription) 1 (Some "paid")) w1)
                  = (inr (updated_response true stored),
                     after_update (sub_id subscription) true
                       (logged (InvoicesList (sub_id subscription) 1 (Some "paid")) w1)))
      by (apply Hrun; congruence).
    apply find_by_id_In in Hstored.
    destruct Hr as [-> | [e ->]]; cbn; rewrite Hgo;
      (repeat split; try tauto;
       [ cbn; now rewrite modify_status, Hsubs
       | cbn; now rewrite <- !app_assoc ]).
  - intros Hlist Hsome Hcancel.
    rewrite (refund_handler_located _ now _ _ _ _ Hloc).
    unfold try_catch, ProcessRefund.refund_or_cancel.
    rewrite Hnotexp.
    unfold invoices_list, bind at 1.
    rewrite request_served by congruence. cbn.
    rewrite Hinv.
    destruct (filter _ (invoices w)) as [|invoice rest]; [congruence|]. cbn.
    rewrite Htrial. cbn.
    unfold subscriptions_cancel, subscriptions_write, bind at 1.
    rewrite request_served by (cbn; congruence). cbn.
    rewrite Hsubs, Hstored. cbn.
    unfold after_trial_cancel. rewrite Hsubs.
    repeat split; assumption.
Qed.

(** ** Reactivation *)

Section Modify.

Variable f : Subscription -> Subscription.
Hypothesis f_id : forall s, sub_id (f s) = sub_id s.
Hypothesis f_customer : forall s, sub_customer (f s) = sub_customer s.
Hypothesis f_idem : forall s, f (f s) = f s.

(** An element is left alone or rewritten by [f]. *)
Let touched (a b : Subscription) : Prop := b = a \/ b = f a.

Lemma modify_touched id l : Forall2 touched l (modify id f l).
Proof.
  induction l as [|s l IH]; cbn; [constructor|].
  destruct (String.eqb (sub_id s) id).
  - constructor; [now right|].
    clear IH. induction l; constructor; [now left | assumption].
  - constructor; [now left | assumption].
Qed.

Lemma filter_touched p l l' :
  (forall s, p (f s) = p s) ->
  Forall2 touched l l' -> Forall2 touched (filter p l) (filter p l').
Proof.
  intros Hp H. induction H as [|a b l l' Hab _ IH]; cbn; [constructor|].
  assert (E : p b = p a) by (destruct Hab as [-> | ->]; [reflexivity | apply Hp]).
  rewrite E. destruct (p a); [constructor|]; assumption.
Qed.

Lemma find_touched p l l' a :
  (forall s, p (f s) = p s) ->
  Forall2 touched l l' -> find p l = Some a ->
  exists b, find p l' = Some b /\ touched a b.
Proof.
  intros Hp H. induction H as [|x y l l' Hxy _ IH]; cbn; [discriminate|].
  assert (E : p y = p x) by (destruct Hxy as [-> | ->]; [reflexivity | apply Hp]).
  rewrite E. destruct (p x).
  - intros [= <-]. now exists y.
  - assumption.
Qed.

Lemma find_modify id l stored :
  find (fun x => String.eqb (sub_id x) id) l = Some stored ->
  find (fun x => String.eqb (sub_id x) id) (modify id f l) = Some (f stored).
Proof.
  induction l as [|s l IH]; cbn; [discriminate|].
  destruct (String.eqb (sub_id s) id) eqn:E; cbn.
  - intros [= <-]. now rewrite f_id, E.
  - rewrite E. assumption.
Qed.

Lemma modify_idem id l : modify id f (modify id f l) = modify id f l.
Proof.
  induction l as [|s l IH]; cbn; [reflexivity|].
  destruct (String.eqb (sub_id s) id) eqn:E; cbn.
  - now rewrite f_id, E, f_idem.
  - now rewrite E, IH.
Qed.

(** A lookup that succeeded succeeds again once a subscription has been
    rewritten, and yields the same subscription up to that rewriting. *)
Lemma find_subscription_again msg req w s w1 id w' :
  find_subscription msg req w = (inr (inr s), w1) ->
  customers w' = customers w ->
  faulty w' = faulty w ->
  subscriptions w' = modify id f (subscriptions w) ->
  exists s2 w2,
    find_subscription msg req w' = (inr (inr s2), w2)
    /\ sub_id s2 = sub_id s
    /\ store w2 = store w'.
Proof.
  intros H Hc Hf Hs.
  assert (T : forall a b, touched a b -> sub_id b = sub_id a)
    by (intros a b [-> | ->]; [reflexivity | apply f_id]).
  revert H. unfold find_subscription.
  destruct (truthy (subscriptionId req)).
  - unfold try_catch, bind, subscriptions_retrieve.
    serve; [discriminate|]. cbn.
    rewrite request_served by congruence. cbn.
    destruct (find _ (subscriptions w)) as [a|] eqn:E; cbn; [|discriminate].
    intros [= -> <-].
    destruct (find_touched _ _ (subscriptions w') _
                (fun x => f_equal (fun i => String.eqb i _) (f_id x))
                (eq_ind_r (Forall2 touched (subscriptions w)) (modify_touched id _) Hs) E)
      as (b & -> & Hb).
    exists b, (logged (SubscriptionsRetrieve (str (subscriptionId req))) w').
    repeat split. now apply T.
  - unfold bind, customers_list, subscriptions_list.
    serve; [discriminate|]. cbn.
    rewrite request_served by congruence. cbn. rewrite Hc.
    destruct (filter _ (customers w)) as [|c cs]; cbn; [discriminate|].
    serve; [discriminate|]. cbn.
    rewrite request_served by (cbn; congruence). cbn.
    pose proof (filter_touched (fun x => String.eqb (sub_customer x) (cus_id c))
                  (subscriptions w) (subscriptions w')
                  (fun x => f_equal (fun i => String.eqb i _) (f_customer x))
                  (eq_ind_r (Forall2 touched (subscriptions w)) (modify_touched id _) Hs))
      as Hrel.
    destruct Hrel as [|a b l l' Hab _]; cbn; [discriminate|].
    intros [= -> <-].
    eexists b, _. repeat split. now apply T.
Qed.

End Modify.

Lemma updated_response_flag flag b s :
  updated_response flag (with_cancel_at_period_end b s) = updated_response flag s.
Proof. reflexivity. Qed.

(** C8.  A request with [action = reactivate] clears
    [cancel_at_period_end] on the stored subscription and answers 200
    "Subscription reactivated successfully" with [cancelAtPeriodEnd:
    false]; the answer does not depend on whether a cancellation was
    pending, and repeating the request on the resulting state gives the
    same answer and leaves the subscriptions as they are. *)
Theorem reactivation_is_idempotent env now req w subscription w1 :
  located env req w subscription w1 ->
  is_str (action req) "reactivate" = true ->
  faulty w (SubscriptionsUpdate (sub_id subscription) false) = false ->
  exists stored,
    In stored (subscriptions w)
    /\ sub_id stored = sub_id subscription
    /\ Cancel.handler env now req w
       = (inr (updated_response false stored),
          after_update (sub_id subscription) false w1)
    /\ (forall pending,
          updated_response false (with_cancel_at_period_end pending stored)
          = updated_response false stored)
    /\ find (fun x => String.eqb (sub_id x) (sub_id subscription))
         (subscriptions (after_update (sub_id subscription) false w1))
       = Some (with_cancel_at_period_end false stored)
    /\ forall now',
       exists w'',
         Cancel.handler env now' req (after_update (sub_id subscription) false w1)
         = (inr (updated_response false stored), w'')
         /\ subscriptions w''
            = subscriptions (after_update (sub_id subscription) false w1).
Proof.
  intros Hloc Hact Hok.
  pose proof Hloc as (Hm & Hid & Hkey & Hfind).
  pose proof (find_subscription_found _ _ _ _ _ Hfind) as (Hst & Hin & _).
  apply store_fields in Hst. destruct Hst as (Hsubs & Hcus & _ & _ & _ & Hf).
  destruct (In_find_by_id _ _ Hin) as [stored Hstored].
  assert (Hrun1 : forall s2 w2 st,
    sub_id s2 = sub_id subscription ->
    faulty w2 = faulty w ->
    find (fun x => String.eqb (sub_id x) (sub_id subscription)) (subscriptions w2) = Some st ->
    Cancel.period_end_or_reactivate req s2 w2
    = (inr (updated_response false st), after_update (sub_id subscription) false w2)).
  { intros s2 w2 st Hs2 Hf2 Hst2.
    pose proof (period_end_or_reactivate_runs req s2 w2 st) as Hrun.
    rewrite Hact, Hs2 in Hrun. cbn in Hrun. apply Hrun; congruence. }
  assert (Hskip : forall s2 t, Cancel.auto_refund req s2 t = ret None).
  { intros s2 t. unfold Cancel.auto_refund. rewrite Hact.
    now rewrite andb_false_r. }
  exists stored.
  pose proof (find_by_id_In _ _ _ Hstored) as (Hin' & Hids).
  repeat split; try assumption.
  - rewrite (cancel_handler_located _ now _ _ _ _ Hloc).
    unfold try_catch, bind at 1. rewrite Hskip. cbn.
    rewrite (Hrun1 subscription w1 stored); auto; congruence.
  - cbn. rewrite Hsubs. now apply find_modify.
  - intros now'.
    set (w' := after_update (sub_id subscription) false w1).
    destruct (find_subscription_again (with_cancel_at_period_end false)
                (fun _ => eq_refl) (fun _ => eq_refl)
                _ req w subscription w1 (sub_id subscription) w' Hfind)
      as (s2 & w2 & Hfind2 & Hs2 & Hst2).
    { assumption. }
    { cbn. congruence. }
    { cbn. now rewrite Hsubs. }
    apply store_fields in Hst2. destruct Hst2 as (Hsubs2 & _ & _ & _ & _ & Hf2).
    assert (Hloc2 : located env req w' s2 w2) by (repeat split; assumption).
    exists (after_update (sub_id subscription) false w2).
    rewrite (cancel_handler_located _ now' _ _ _ _ Hloc2).
    unfold try_catch, bind at 1. rewrite Hskip. cbn.
    rewrite (Hrun1 s2 w2 (with_cancel_at_period_end false stored)); auto.
    + split; [reflexivity|].
      cbn. rewrite Hsubs2. cbn. rewrite Hsubs.
      apply modify_idem; reflexivity.
    + cbn in Hf2. congruence.
    + rewrite Hsubs2. cbn. rewrite Hsubs. now apply find_modify.
Qed.

(** ** Order of the refund and the cancellation *)

Lemma refund_first_sound issued :
  refund_first issued = true -> refund_precedes_cancellation issued.
Proof.
  induction issued as [|a l IH]; intros H i j c r Hi Hc Hj Hr.
  - destruct i; discriminate.
  - cbn in H. destruct (is_cancellation a) eqn:E.
    + exfalso. apply negb_true_iff in H.
      destruct j as [|j]; cbn in Hj.
      * injection Hj as <-. destruct a; discriminate.
      * apply nth_error_In in Hj.
        assert (X : existsb is_refund l = true) by (apply existsb_exists; eauto).
        congruence.
    + destruct i as [|i]; cbn in Hi; [congruence|].
      destruct j as [|j]; [lia|]. cbn in Hj.
      apply -> Nat.succ_lt_mono. exact (IH H i j c r Hi Hc Hj Hr).
Qed.

Lemma refund_first_after_reads reads rest :
  forallb is_read reads = true -> refund_first (reads ++ rest) = refund_first rest.
Proof.
  induction reads as [|c l IH]; cbn; [reflexivity|].
  intros H. apply andb_true_iff in H. destruct H as [Hc Hl].
  rewrite (IH Hl). destruct c; try discriminate; reflexivity.
Qed.

(** Whatever its outcome, the lookup only reads. *)
Lemma find_subscription_reads msg req w :
  exists reads,
    calls (snd (find_subscription msg req w)) = (calls w ++ reads)%list
    /\ forallb is_read reads = true.
Proof.
  unfold find_subscription.
  destruct (truthy (subscriptionId req)).
  - unfold try_catch, bind, subscriptions_retrieve.
    exists [SubscriptionsRetrieve (str (subscriptionId req))].
    serve; cbn; [now split|].
    destruct (find _ (subscriptions w)); now split.
  - unfold bind, customers_list, subscriptions_list.
    serve; cbn; [now exists [CustomersList (str (email req)) 1]|].
    destruct (filter _ (customers w)) as [|c cs]; cbn;
      [now exists [CustomersList (str (email req)) 1]|].
    exists [CustomersList (str (email req)) 1; SubscriptionsList (cus_id c) 1].
    serve; cbn; [now rewrite <- app_assoc|].
    destruct (filter _ (subscriptions w)); cbn; now rewrite <- app_assoc.
Qed.

(** Runs a handler along each of its paths: the provider serving or
    failing each call, each lookup finding or missing its record. *)
Ltac explore :=
  cbn;
  first
    [ serve; explore
    | lazymatch goal with
      | |- context [match find ?p ?l with _ => _ end] => destruct (find p l); explore
      | |- context [match filter ?p ?l with _ => _ end] => destruct (filter p l); explore
      | |- context [if ?b then _ else _] => destruct b; explore
      | |- _ => idtac
      end ].

Ltac trace_shown :=
  first
    [ exists []; split; [ cbn; now rewrite app_nil_r | reflexivity ]
    | eexists; split;
      [ cbn; rewrite <- ?app_assoc; cbn; reflexivity | reflexivity ] ].

Lemma cancel_after_lookup_order req s now w1 :
  exists rest,
    calls (snd ((refunded <- Cancel.auto_refund req s now ;;
                 match refunded with
                 | Some response => ret response
                 | None => Cancel.period_end_or_reactivate req s
                 end) w1))
    = (calls w1 ++ rest)%list
    /\ refund_first rest = true.
Proof.
  unfold Cancel.auto_refund, Cancel.refund_and_cancel, Cancel.period_end_or_reactivate,
    invoices_list, refunds_create, subscriptions_cancel, subscriptions_update,
    subscriptions_write, fetch_send_email, try_catch, bind, ret, record.
  explore; trace_shown.
Qed.

Lemma refund_after_lookup_order s now w1 :
  exists rest,
    calls (snd (ProcessRefund.refund_or_cancel s now w1)) = (calls w1 ++ rest)%list
    /\ refund_first rest = true.
Proof.
  unfold ProcessRefund.refund_or_cancel,
    invoices_list, refunds_create, subscriptions_cancel,
    subscriptions_write, fetch_send_email, bind, ret, record.
  explore; trace_shown.
Qed.

(** C7.  Among the calls that one run of the cancel handler, or of the
    refund handler, issues, every refund creation comes strictly before
    every cancellation write (the immediate cancellation and the
    period-end update alike): no run cancels first and refunds after. *)
Theorem refund_before_cancellation env now req w :
  (exists issued,
     calls (snd (Cancel.handler env now req w)) = (calls w ++ issued)%list
     /\ refund_precedes_cancellation issued)
  /\ (exists issued,
        calls (snd (ProcessRefund.handler env now req w)) = (calls w ++ issued)%list
        /\ refund_precedes_cancellation issued).
Proof.
  assert (Hnil : exists issued : list Call,
             calls w = (calls w ++ issued)%list /\ refund_precedes_cancellation issued).
  { exists []. split; [now rewrite app_nil_r | now apply refund_first_sound]. }
  split.
  - unfold Cancel.handler.
    destruct (String.eqb (method req) "OPTIONS"); [exact Hnil|].
    destruct (negb (String.eqb (method req) "POST")); [exact Hnil|].
    destruct (body req) as [nothing|b] eqn:Hb.
    { unfold try_catch. now rewrite (not_destructured _ _ nothing). }
    rewrite destructured by now exists b.
    unfold try_catch at 1.
    destruct (negb (truthy (subscriptionId req)) && negb (truthy (email req)));
      [exact Hnil|].
    destruct (negb (truthy (stripeSecretKey env))); [exact Hnil|].
    unfold bind at 1.
    destruct (find_subscription_reads "No subscription found" req w)
      as (reads & Hreads & Hr).
    destruct (find_subscription "No subscription found" req w)
      as [[e|[response|s]] w1]; cbn in Hreads.
    + exists reads. split; [assumption|].
      apply refund_first_sound.
      rewrite <- (app_nil_r reads). now rewrite refund_first_after_reads.
    + exists reads. split; [assumption|].
      apply refund_first_sound.
      rewrite <- (app_nil_r reads). now rewrite refund_first_after_reads.
    + destruct (cancel_after_lookup_order req s now w1) as (rest & Hrest & Ho).
      exists (reads ++ rest)%list. split.
      * match goal with
        | |- calls (snd (let (_, _) := ?m in _)) = _ =>
            replace (calls w ++ reads ++ rest)%list with (calls (snd m));
            [ now destruct m as [[?|?] ?] | ]
        end.
        now rewrite Hrest, Hreads, app_assoc.
      * apply refund_first_sound. now rewrite refund_first_after_reads.
  - unfold ProcessRefund.handler.
    destruct (String.eqb (method req) "OPTIONS"); [exact Hnil|].
    destruct (negb (String.eqb (method req) "POST")); [exact Hnil|].
    destruct (body req) as [nothing|b] eqn:Hb.
    { unfold try_catch. now rewrite (not_destructured _ _ nothing). }
    rewrite destructured by now exists b.
    unfold try_catch at 1.
    destruct (negb (truthy (subscriptionId req)) && negb (truthy (email req)));
      [exact Hnil|].
    destruct (negb (truthy (stripeSecretKey env))); [exact Hnil|].
    unfold bind at 1.
    destruct (find_subscription_reads "No subscription found for this customer" req w)
      as (reads & Hreads & Hr).
    destruct (find_subscription "No subscription found for this customer" req w)
      as [[e|[response|s]] w1]; cbn in Hreads.
    + exists reads. split; [assumption|].
      apply refund_first_sound.
      rewrite <- (app_nil_r reads). now rewrite refund_first_after_reads.
    + exists reads. split; [assumption|].
      apply refund_first_sound.
      rewrite <- (app_nil_r reads). now rewrite refund_first_after_reads.
    + destruct (refund_after_lookup_order s now w1) as (rest & Hrest & Ho).
      exists (reads ++ rest)%list. split.
      * match goal with
        | |- calls (snd (let (_, _) := ?m in _)) = _ =>
            replace (calls w ++ reads ++ rest)%list with (calls (snd m));
            [ now destruct m as [[?|?] ?] | ]
        end.
        now rewrite Hrest, Hreads, app_assoc.
      * apply refund_first_sound. now rewrite refund_first_after_reads.
Qed.

(** A run that does both: the refund is created, then the subscription is
    cancelled. *)
Example refund_then_cancel_trace :
  calls (snd (Cancel.handler Sample.env (Sample.day 3) (Sample.by_id None true)
                (Sample.world "active" false (Some "ch_1") Sample.reliable)))
  = [SubscriptionsRetrieve "sub_1";
     InvoicesList "sub_1" 1 (Some "paid");
     RefundsCreate "ch_1" "requested_by_customer";
     SubscriptionsCancel "sub_1";
     FetchSendEmail (SubjCancelledAndRefunded (499 # 100))].
Proof. reflexivity. Qed.

(** ** stripe-webhook *)

(** C9.  A webhook request whose payload does not verify against the
    secret is rejected: the response is an error (400 with the
    verification error once method and configuration are in order), it
    carries no [received] acknowledgement, the provider's state is left
    as it was, and nothing is issued but error output: no subscription is
    retrieved and no event is dispatched. *)
Theorem invalid_signature_is_rejected
  (constructEvent : string -> option string -> string -> Error + Webhook.Event)
  env req w err :
  constructEvent (raw_body req) (stripe_signature req) (str (STRIPE_WEBHOOK_SECRET env))
  = inl err ->
  exists response issued w',
    Webhook.handler constructEvent env req w = (inr response, w')
    /\ 400 <= res_status response
    /\ res_field "received" response = None
    /\ store w' = store w
    /\ calls w' = (calls w ++ issued)%list
    /\ forallb is_console_error issued = true
    /\ (method req = "POST" ->
        truthy (STRIPE_SECRET_KEY env) = true ->
        truthy (STRIPE_WEBHOOK_SECRET env) = true ->
        response = json 400 [("error", JStr ("Webhook Error: " ++ message err))]
        /\ issued = [ConsoleError "Webhook signature verification failed:"]).
Proof.
  intros Hsig. unfold Webhook.handler.
  destruct (String.eqb (method req) "POST") eqn:Hm; cbn.
  - destruct (truthy (STRIPE_SECRET_KEY env)) eqn:Hk; cbn.
    + destruct (truthy (STRIPE_WEBHOOK_SECRET env)) eqn:Hs; cbn.
      * rewrite Hsig. cbn.
        eexists _, [ConsoleError "Webhook signature verification failed:"], _.
        repeat split; try reflexivity; try discriminate.
      * eexists _, [ConsoleError "Stripe configuration missing"], _.
        repeat split; try reflexivity; try discriminate.
    + eexists _, [ConsoleError "Stripe configuration missing"], _.
      repeat split; try reflexivity; try discriminate.
  - eexists _, [], w.
    assert (Hne : method req <> "POST")
      by (intros E; rewrite E in Hm; discriminate).
    repeat split; try reflexivity; try discriminate; try contradiction.
    now rewrite app_nil_r.
Qed.

(** With a signature that verifies, the same payload is dispatched and
    acknowledged. *)
Example verified_event_is_dispatched :
  let event := Webhook.mkEvent "checkout.session.completed"
                 (Webhook.mkEventObject "cs_1" "complete" (Some "subscription") (Some "sub_1")) in
  let run := Webhook.handler (fun _ _ _ => inr event) Sample.env
               (Sample.signed "t=1,v1=ab")
               (Sample.world "active" false (Some "ch_1") Sample.reliable) in
  fst run = inr (json 200 [("received", JBool true)])
  /\ calls (snd run) = [SubscriptionsRetrieve "sub_1"; ConsoleLog "Subscription created:"].
Proof. split; reflexivity. Qed.

(** ** verify-license *)

(** Building the response for a valid license raises before anything is
    sent. *)
Lemma valid_response_raises subscription w :
  VerifyLicense.valid_response subscription w
  = (inl (mkError "ReferenceError" "customerEmail is not defined"), w).
Proof. reflexivity. Qed.

(** C2 fails on the code.  A license check whose key resolves to an active
    or trialing subscription with its period end in the future does not
    answer [valid: true]: the response literal reads [customerEmail],
    which is declared nowhere, the ReferenceError is caught by the
    enclosing [catch (stripeError)], and the answer is 500
    "Error verifying license key". *)
Theorem valid_license_is_answered_500 toLowerCase trim env now req w subscription w1 :
  method req = "POST" ->
  truthy (licenseKey req) = true ->
  truthy (stripeSecretKey env) = true ->
  VerifyLicense.locate toLowerCase trim (str (licenseKey req)) w
  = (inr (Some subscription), w1) ->
  VerifyLicense.active_or_trialing subscription = true ->
  now <= sub_current_period_end subscription * 1000 ->
  VerifyLicense.handler toLowerCase trim env now req w
  = (inr (json 500 [("valid", JBool false);
                    ("error", JStr "Error verifying license key")]), w1).
Proof.
  intros Hm Hkey Hcfg Hloc Hact Hfuture.
  unfold VerifyLicense.handler. rewrite destructured by now apply keyed.
  rewrite Hm, Hkey, Hcfg. cbn.
  unfold try_catch, bind. rewrite Hloc.
  unfold VerifyLicense.active_or_trialing in Hact.
  apply orb_true_iff in Hact.
  assert (E : negb (String.eqb (sub_status subscription) "active")
              && negb (String.eqb (sub_status subscription) "trialing") = false).
  { destruct Hact as [-> | ->]; [reflexivity | now rewrite andb_false_r]. }
  rewrite E.
  assert (L : (sub_current_period_end subscription * 1000 <? now) = false)
    by (apply Z.ltb_ge; lia).
  rewrite L. reflexivity.
Qed.

(** ** Lookup by e-mail address *)

Lemma find_app {A} (p : A -> bool) l l' :
  find p (l ++ l') = match find p l with
                     | Some x => Some x
                     | None => find p l'
                     end.
Proof.
  induction l as [|a l IH]; cbn; [reflexivity|].
  destruct (p a); [reflexivity | exact IH].
Qed.

Lemma first_active_runs cs : forall w,
  (forall c, faulty w c = false) ->
  exists w1,
    VerifyLicense.first_active cs w
    = (inr (find VerifyLicense.active_or_trialing
              (flat_map (fun c => firstn 10 (subscriptions_of w (cus_id c))) cs)), w1)
    /\ store w1 = store w
    /\ exists issued, calls w1 = (calls w ++ issued)%list.
Proof.
  induction cs as [|c cs IH]; intros w Hw; cbn - [firstn].
  - exists w. repeat split. exists []. now rewrite app_nil_r.
  - unfold bind at 1, subscriptions_list.
    rewrite request_served by apply Hw. cbn - [firstn].
    rewrite find_app. fold (subscriptions_of w (cus_id c)).
    destruct (find _ (firstn 10 (subscriptions_of w (cus_id c)))) as [s|].
    + eexists. repeat split. now exists [SubscriptionsList (cus_id c) 10].
    + destruct (IH (logged (SubscriptionsList (cus_id c) 10) w) Hw)
        as (w1 & -> & Hst & issued & Hc).
      exists w1. repeat split; [exact Hst|].
      exists (SubscriptionsList (cus_id c) 10 :: issued).
      rewrite Hc. cbn. now rewrite <- app_assoc.
Qed.

(** C4, as stated, fails.  In the cancel handler the address is passed on
    as typed, so [" A@B.C "] finds no customer although the customer
    ["a@b.c"] holds an active subscription; and of a customer's
    subscriptions the first listed is taken, here a cancelled one, although
    an active one follows.  In the license check the customers, and the
    subscriptions of each, are listed with [limit: 10]: an active
    subscription listed eleventh, or held by the customer listed eleventh,
    is not looked at, and the key is answered as not found. *)
Lemma cancel_lookup_takes_first_listed :
  let w := Sample.world "active" false (Some "ch_1") Sample.reliable in
  find VerifyLicense.active_or_trialing
    (candidates Sample.toLowerCase Sample.trim w " A@B.C ")
  = Some (Sample.subscription "active" false)
  /\ fst (Cancel.handler Sample.env (Sample.day 1) (Sample.by_email " A@B.C ") w)
     = inr (json 404 [("error", JStr "Customer not found")])
  /\ find VerifyLicense.active_or_trialing
       (candidates Sample.toLowerCase Sample.trim Sample.resubscribed "a@b.c")
     = Some (mkSubscription "sub_new" "cus_1" "active" Sample.created
               (Sample.created + 30 * 86400) false None)
  /\ fst (find_subscription "No subscription found" (Sample.by_email "a@b.c")
            Sample.resubscribed)
     = inr (inr (mkSubscription "sub_old" "cus_1" "canceled" Sample.created
                   (Sample.created + 30 * 86400) false None))
  /\ find VerifyLicense.active_or_trialing (subscriptions_of Sample.renewed "cus_1")
     = Some (mkSubscription "sub_new" "cus_1" "active" Sample.created
               (Sample.created + 30 * 86400) false None)
  /\ fst (VerifyLicense.handler Sample.toLowerCase Sample.trim Sample.env (Sample.day 1)
            (Sample.license "a@b.c") Sample.renewed)
     = inr (json 404
              [("valid", JBool false);
               ("error", JStr "License key not found or subscription not active")])
  /\ find VerifyLicense.active_or_trialing
       (flat_map (fun c => subscriptions_of Sample.crowded (cus_id c))
          (customers_by_email Sample.crowded "a@b.c"))
     = Some (mkSubscription "sub_new" "cus_new" "active" Sample.created
               (Sample.created + 30 * 86400) false None)
  /\ fst (VerifyLicense.handler Sample.toLowerCase Sample.trim Sample.env (Sample.day 1)
            (Sample.license "a@b.c") Sample.crowded)
     = inr (json 404
              [("valid", JBool false);
               ("error", JStr "License key not found or subscription not active")]).
Proof. vm_compute. repeat split; reflexivity. Qed.

(** C4, amended.  While the provider serves its calls:
    - the license check, for a key that is not the identifier of a
      subscription, goes through the subscriptions of the customers whose
      address equals the key lowercased then trimmed (by the string methods
      of the language, whatever the characters of the key), the first ten
      such customers and the first ten subscriptions of each, returns the
      first that is active or trialing, and finds none only when none of
      them is;
    - the cancel and refund handlers, given an address only, take it as
      typed and return the first subscription of the first customer with
      that address, whatever its status. *)
Theorem lookup_by_email toLowerCase trim w :
  (forall c, faulty w c = false) ->
  (forall key,
     find (fun s => String.eqb (sub_id s) key) (subscriptions w) = None ->
     exists w1,
       VerifyLicense.locate toLowerCase trim key w
       = (inr (find VerifyLicense.active_or_trialing
                 (candidates toLowerCase trim w key)), w1)
       /\ store w1 = store w
       /\ (exists issued,
             calls w1
             = (calls w ++ SubscriptionsRetrieve key
                  :: CustomersList (trim (toLowerCase key)) 10 :: issued)%list)
       /\ (find VerifyLicense.active_or_trialing (candidates toLowerCase trim w key)
           = None
           <-> forall s, In s (candidates toLowerCase trim w key) ->
                         VerifyLicense.active_or_trialing s = false))
  /\ (forall msg req,
        truthy (subscriptionId req) = false ->
        exists w1,
          find_subscription msg req w = (inr (first_listed msg w (str (email req))), w1)
          /\ store w1 = store w).
Proof.
  intros Hw. split.
  - intros key Hkey.
    unfold VerifyLicense.locate, try_catch, bind at 1, subscriptions_retrieve.
    rewrite request_served by apply Hw. cbn - [firstn].
    rewrite Hkey.
    unfold bind at 1, customers_list.
    rewrite request_served by apply Hw. cbn - [firstn].
    destruct (first_active_runs
                (firstn 10 (filter (fun c => String.eqb (cus_email c)
                                      (trim (toLowerCase key)))
                              (customers w)))
                (logged (CustomersList (trim (toLowerCase key)) 10)
                   (logged (SubscriptionsRetrieve key) w)) Hw)
      as (w1 & Hrun & Hst & issued & Hc).
    exists w1. split; [exact Hrun|]. split; [exact Hst|].
    split.
    { exists issued. rewrite Hc. cbn. now rewrite <- !app_assoc. }
    split.
    + intros Hnone. now apply find_none.
    + intros Hall.
      destruct (find VerifyLicense.active_or_trialing (candidates toLowerCase trim w key))
        as [s|] eqn:E; [|reflexivity].
      apply find_some in E. destruct E as [Hin Hact].
      rewrite (Hall s Hin) in Hact. discriminate.
  - intros msg req Hid.
    unfold find_subscription. rewrite Hid.
    unfold bind at 1, customers_list, first_listed, customers_by_email.
    rewrite request_served by apply Hw. cbn.
    destruct (filter _ (customers w)) as [|c cs]; cbn.
    + now eexists.
    + unfold bind at 1, subscriptions_list, subscriptions_of.
      rewrite request_served by apply Hw. cbn.
      destruct (filter _ (subscriptions w)) as [|s ss]; cbn; now eexists.
Qed.

(** * The theorems at sample requests *)

(** A valid key, one day into the period: the answer is 500. *)
Lemma valid_license_is_answered_500_witness :
  VerifyLicense.handler Sample.toLowerCase Sample.trim Sample.env (Sample.day 1)
    (Sample.license "sub_1")
    (Sample.world "active" false (Some "ch_1") Sample.reliable)
  = (inr (json 500 [("valid", JBool false);
                    ("error", JStr "Error verifying license key")]),
     Sample.retrieved (Sample.world "active" false (Some "ch_1") Sample.reliable)).
Proof.
  apply (valid_license_is_answered_500 Sample.toLowerCase Sample.trim
           Sample.env (Sample.day 1) (Sample.license "sub_1")
           (Sample.world "active" false (Some "ch_1") Sample.reliable)
           (Sample.subscription "active" false)).
  - reflexivity.
  - reflexivity.
  - reflexivity.
  - reflexivity.
  - reflexivity.
  - vm_compute. discriminate.
Defined.

(** A trial, one day old, with an invoice that carries no charge. *)
Lemma trial_within_window_witness :
  let w := Sample.world "trialing" false None Sample.reliable in
  (exists stored w',
     Cancel.handler Sample.env (Sample.day 1) (Sample.by_id None true) w
     = (inr (updated_response true stored), w')
     /\ sub_id stored = "sub_1"
     /\ refunds w' = []
     /\ map sub_status (subscriptions w') = ["trialing"]
     /\ calls w' = [SubscriptionsRetrieve "sub_1";
                    InvoicesList "sub_1" 1 (Some "paid");
                    SubscriptionsUpdate "sub_1" true;
                    FetchSendEmail SubjCancellationRequest])
  /\ ProcessRefund.handler Sample.env (Sample.day 1) (Sample.by_id None true) w
     = (inr (json 200
          [("success", JBool true);
           ("message", JStr "Trial subscription cancelled");
           ("subscriptionId", JStr "sub_1");
           ("cancelled", JBool true)]),
        after_trial_cancel "sub_1" (Sample.retrieved w)).
Proof.
  intros w.
  destruct (trial_within_window Sample.env (Sample.day 1) (Sample.by_id None true) w
              (Sample.subscription "trialing" false) (Sample.retrieved w))
    as [Hcancel Hrefund].
  - unfold located. repeat split; reflexivity.
  - reflexivity.
  - vm_compute. discriminate.
  - split.
    + apply Hcancel; reflexivity.
    + apply Hrefund; [reflexivity | discriminate | reflexivity].
Defined.

(** An upper-case, padded address at the license check and at the cancel
    handler. *)
Lemma lookup_by_email_witness :
  let w := Sample.world "active" false (Some "ch_1") Sample.reliable in
  (exists w1,
     VerifyLicense.locate Sample.toLowerCase Sample.trim " A@B.C " w
     = (inr (Some (Sample.subscription "active" false)), w1)
     /\ store w1 = store w
     /\ exists issued,
          calls w1
          = SubscriptionsRetrieve " A@B.C " :: CustomersList "a@b.c" 10 :: issued)
  /\ (exists w1,
        find_subscription "No subscription found" (Sample.by_email " A@B.C ") w
        = (inr (inl (json 404 [("error", JStr "Customer not found")])), w1)
        /\ store w1 = store w).
Proof.
  intros w.
  destruct (lookup_by_email Sample.toLowerCase Sample.trim w (fun _ => eq_refl))
    as [Hlicense Hcancel].
  split.
  - destruct (Hlicense " A@B.C " eq_refl) as (w1 & H & Hst & (issued & Hc) & _).
    exists w1. split; [exact H|]. split; [exact Hst|].
    exists issued. exact Hc.
  - exact (Hcancel "No subscription found" (Sample.by_email " A@B.C ") eq_refl).
Defined.

(** The provider refuses the refund, three days after the purchase. *)
Lemma refund_failure_is_not_fatal_witness :
  let w := Sample.world "active" false (Some "ch_1") Sample.refunds_fail in
  exists stored,
    Cancel.handler Sample.env (Sample.day 3) (Sample.by_id None true) w
    = (inr (updated_response true stored),
       after_update "sub_1" true
         (logged (RefundsCreate "ch_1" "requested_by_customer")
            (logged (InvoicesList "sub_1" 1 (Some "paid")) (Sample.retrieved w))))
    /\ In stored (subscriptions w)
    /\ sub_id stored = "sub_1"
    /\ res_status (updated_response true stored) = 200
    /\ res_field "success" (updated_response true stored) = Some (JBool true)
    /\ res_field "cancelAtPeriodEnd" (updated_response true stored) = Some (JBool true).
Proof.
  intros w.
  apply (refund_failure_is_not_fatal Sample.env (Sample.day 3) (Sample.by_id None true) w
           (Sample.subscription "active" false) (Sample.retrieved w) connection_error).
  - unfold located. repeat split; reflexivity.
  - reflexivity.
  - reflexivity.
  - vm_compute. discriminate.
  - reflexivity.
  - reflexivity.
Defined.

(** Ten days after the purchase. *)
Lemma auto_refund_outside_window_degrades_witness :
  let w := Sample.world "active" false (Some "ch_1") Sample.reliable in
  exists stored w',
    Cancel.handler Sample.env (Sample.day 10) (Sample.by_id None true) w
    = (inr (updated_response true stored), w')
    /\ In stored (subscriptions w)
    /\ sub_id stored = "sub_1"
    /\ subscriptions w' = [Sample.subscription "active" true]
    /\ map sub_status (subscriptions w') = ["active"]
    /\ refunds w' = []
    /\ calls w' = [SubscriptionsRetrieve "sub_1";
                   SubscriptionsUpdate "sub_1" true;
                   FetchSendEmail SubjCancellationRequest].
Proof.
  intros w.
  apply (auto_refund_outside_window_degrades Sample.env (Sample.day 10)
           (Sample.by_id None true) w
           (Sample.subscription "active" false) (Sample.retrieved w)).
  - unfold located. repeat split; reflexivity.
  - reflexivity.
  - reflexivity.
  - reflexivity.
  - reflexivity.
Defined.

(** Reactivating a subscription with a pending cancellation. *)
Lemma reactivation_is_idempotent_witness :
  let w := Sample.world "active" true (Some "ch_1") Sample.reliable in
  let w' := after_update "sub_1" false (Sample.retrieved w) in
  exists stored,
    In stored (subscriptions w)
    /\ sub_id stored = "sub_1"
    /\ Cancel.handler Sample.env (Sample.day 3) (Sample.by_id (Some "reactivate") false) w
       = (inr (updated_response false stored), w')
    /\ (forall pending,
          updated_response false (with_cancel_at_period_end pending stored)
          = updated_response false stored)
    /\ find (fun x => String.eqb (sub_id x) "sub_1") (subscriptions w')
       = Some (with_cancel_at_period_end false stored)
    /\ forall now',
       exists w'',
         Cancel.handler Sample.env now' (Sample.by_id (Some "reactivate") false) w'
         = (inr (updated_response false stored), w'')
         /\ subscriptions w'' = subscriptions w'.
Proof.
  intros w w'.
  apply (reactivation_is_idempotent Sample.env (Sample.day 3)
           (Sample.by_id (Some "reactivate") false) w
           (Sample.subscription "active" true) (Sample.retrieved w)).
  - unfold located. repeat split; reflexivity.
  - reflexivity.
  - reflexivity.
Defined.

(** A payload whose signature does not verify. *)
Lemma invalid_signature_is_rejected_witness :
  let w := Sample.world "active" false (Some "ch_1") Sample.reliable in
  let req := Sample.signed "t=1,v1=00" in
  exists response issued w',
    Webhook.handler Sample.rejects Sample.env req w = (inr response, w')
    /\ 400 <= res_status response
    /\ res_field "received" response = None
    /\ store w' = store w
    /\ calls w' = (calls w ++ issued)%list
    /\ forallb is_console_error issued = true
    /\ (method req = "POST" ->
        truthy (STRIPE_SECRET_KEY Sample.env) = true ->
        truthy (STRIPE_WEBHOOK_SECRET Sample.env) = true ->
        response
        = json 400 [("error", JStr ("Webhook Error: "
             ++ "No signatures found matching the expected signature for payload."))]
        /\ issued = [ConsoleError "Webhook signature verification failed:"]).
Proof.
  intros w req.
  apply (invalid_signature_is_rejected Sample.rejects Sample.env req w
           (mkError "StripeSignatureVerificationError"
              "No signatures found matching the expected signature for payload.")).
  reflexivity.
Defined.

(** A trial, ten days old, at the refund handler. *)
Lemma expired_trial_refund_is_rejected_witness :
  let w := Sample.world "trialing" false None Sample.reliable in
  ProcessRefund.handler Sample.env (Sample.day 10) (Sample.by_id None false) w
  = (inr (json 400
       [("error", JStr "Refund window expired");
        ("details", JStr ("Refunds are only available within 7 days of purchase. "
                          ++ "Your subscription was created 10 days ago."))]),
     Sample.retrieved w)
  /\ store (Sample.retrieved w) = store w
  /\ In (Sample.subscription "trialing" false) (subscriptions (Sample.retrieved w))
  /\ exists issued,
       calls (Sample.retrieved w) = (calls w ++ issued)%list
       /\ forallb is_read issued = true
       /\ existsb is_cancellation issued = false.
Proof.
  intros w.
  apply (expired_trial_refund_is_rejected Sample.env (Sample.day 10)
           (Sample.by_id None false) w
           (Sample.subscription "trialing" false) (Sample.retrieved w)).
  - unfold located. repeat split; reflexivity.
  - reflexivity.
  - reflexivity.
Defined.

(** * Further properties of the handlers *)

(** ** Requests turned away before the provider is called *)

(** X1.  The cancel and refund handlers answer a preflight request with an
    empty 200, any other method than POST with 405, a POST whose body is
    [undefined] or [null] with 500 "Internal server error" (the
    destructuring raises inside the [try] block), a POST whose body holds
    neither subscription id nor e-mail with 400, and a POST that names one
    while the selected secret key is missing with 500 "Server configuration
    error"; in all five cases the provider has not been called. *)
Theorem rejected_before_any_call env now req w :
  (method req = "OPTIONS" ->
   Cancel.handler env now req w = (inr (mkResponse 200 None), w)
   /\ ProcessRefund.handler env now req w = (inr (mkResponse 200 None), w))
  /\ (method req <> "OPTIONS" -> method req <> "POST" ->
      Cancel.handler env now req w
      = (inr (json 405 [("error", JStr "Method not allowed")]), w)
      /\ ProcessRefund.handler env now req w
         = (inr (json 405 [("error", JStr "Method not allowed")]), w))
  /\ (forall nothing,
      method req = "POST" -> body req = inl nothing ->
      exists details,
        Cancel.handler env now req w
        = (inr (json 500 [("error", JStr "Internal server error");
                          ("details", JStr details)]), w)
        /\ ProcessRefund.handler env now req w
           = (inr (json 500 [("error", JStr "Internal server error");
                             ("details", JStr details)]), w))
  /\ (forall b,
      method req = "POST" -> body req = inr b ->
      truthy (subscriptionId req) = false -> truthy (email req) = false ->
      Cancel.handler env now req w
      = (inr (json 400 [("error", JStr "Subscription ID or email required")]), w)
      /\ ProcessRefund.handler env now req w
         = (inr (json 400 [("error", JStr "Subscription ID or email required")]), w))
  /\ (method req = "POST" ->
      truthy (subscriptionId req) || truthy (email req) = true ->
      truthy (stripeSecretKey env) = false ->
      Cancel.handler env now req w
      = (inr (json 500 [("error", JStr "Server configuration error")]), w)
      /\ ProcessRefund.handler env now req w
         = (inr (json 500 [("error", JStr "Server configuration error")]), w)).
Proof.
  unfold Cancel.handler, ProcessRefund.handler.
  split; [|split; [|split; [|split]]].
  - intros ->. split; reflexivity.
  - intros H1 H2. apply String.eqb_neq in H1, H2. rewrite H1, H2. split; reflexivity.
  - intros nothing -> Hb.
    exists (message (cannot_destructure "subscriptionId" nothing)).
    cbn. unfold try_catch. rewrite !(not_destructured _ _ nothing) by exact Hb.
    split; reflexivity.
  - intros b -> Hb -> ->.
    rewrite !destructured by now exists b. split; reflexivity.
  - intros -> H ->.
    rewrite !destructured by now apply identified.
    cbn. rewrite <- negb_orb, H. split; reflexivity.
Qed.

(** A POST that carries no body. *)
Lemma rejected_before_any_call_witness :
  let w := Sample.world "active" false (Some "ch_1") Sample.reliable in
  let req := mkRequest "POST" None "" (inl Undefined) in
  exists details,
    Cancel.handler Sample.env (Sample.day 1) req w
    = (inr (json 500 [("error", JStr "Internal server error");
                      ("details", JStr details)]), w)
    /\ ProcessRefund.handler Sample.env (Sample.day 1) req w
       = (inr (json 500 [("error", JStr "Internal server error");
                         ("details", JStr details)]), w).
Proof.
  intros w req.
  destruct (rejected_before_any_call Sample.env (Sample.day 1) req w) as (_ & _ & H & _).
  apply (H Undefined); reflexivity.
Defined.

(** ** A subscription id that cannot be retrieved *)

(** X2.  When a subscription id is given and its retrieval raises, for
    whatever reason (no such subscription, or the provider failing), the
    cancel and refund handlers answer 404 "Subscription not found"; the
    retrieval is the only call made. *)
Theorem unretrievable_subscription_is_404 env now req w e :
  method req = "POST" ->
  truthy (subscriptionId req) = true ->
  truthy (stripeSecretKey env) = true ->
  fst (subscriptions_retrieve (str (subscriptionId req)) w) = inl e ->
  Cancel.handler env now req w
  = (inr (json 404 [("error", JStr "Subscription not found")]),
     logged (SubscriptionsRetrieve (str (subscriptionId req))) w)
  /\ ProcessRefund.handler env now req w
     = (inr (json 404 [("error", JStr "Subscription not found")]),
        logged (SubscriptionsRetrieve (str (subscriptionId req))) w).
Proof.
  intros Hm Hid Hkey Hraise.
  assert (R : exists e', subscriptions_retrieve (str (subscriptionId req)) w
                         = (inl e', logged (SubscriptionsRetrieve (str (subscriptionId req))) w)).
  { revert Hraise. unfold subscriptions_retrieve.
    serve; [intros _; now eexists|].
    cbn. destruct (find _ (subscriptions w)); [discriminate | intros _; now eexists]. }
  destruct R as [e' R].
  unfold Cancel.handler, ProcessRefund.handler, find_subscription.
  rewrite !destructured by now apply identified_by_id.
  rewrite Hm, Hid, Hkey. cbn.
  unfold try_catch, bind. rewrite R. cbn.
  split; reflexivity.
Qed.

Lemma unretrievable_subscription_is_404_witness :
  let w := Sample.world "active" false (Some "ch_1") Sample.reliable in
  let req := mkRequest "POST" None ""
               (inr (mkBody (Some "not-an-id") None None None true None)) in
  Cancel.handler Sample.env (Sample.day 1) req w
  = (inr (json 404 [("error", JStr "Subscription not found")]),
     logged (SubscriptionsRetrieve "not-an-id") w)
  /\ ProcessRefund.handler Sample.env (Sample.day 1) req w
     = (inr (json 404 [("error", JStr "Subscription not found")]),
        logged (SubscriptionsRetrieve "not-an-id") w).
Proof.
  intros w req.
  apply (unretrievable_subscription_is_404 Sample.env (Sample.day 1) req w
           (no_such "subscription" "not-an-id")).
  - reflexivity.
  - reflexivity.
  - reflexivity.
  - reflexivity.
Defined.

(** ** The refund that is issued *)

Lemma latest_paid_charge_invoice w id ch :
  latest_paid_charge w id = Some ch ->
  exists invoice rest,
    filter (invoice_matches id (Some "paid")) (invoices w) = invoice :: rest
    /\ truthy (inv_charge invoice) = true
    /\ str (inv_charge invoice) = ch.
Proof.
  unfold latest_paid_charge.
  destruct (filter _ (invoices w)) as [|invoice rest]; [discriminate|].
  destruct (truthy (inv_charge invoice)) eqn:T; [|discriminate].
  intros H. exists invoice, rest. rewrite H. repeat split. now rewrite <- H.
Qed.

(** X3.  A cancel request with [autoRefund] set, within the window, for a
    subscription whose latest paid invoice carries a charge that has not
    been refunded yet: while the provider serves the calls, the charge is
    refunded in full, the subscription is cancelled at once, and the answer
    is 200 with [refunded: true] and the refunded amount in major units
    (minor units divided by 100). *)
Theorem eligible_refund_is_issued_then_cancelled env now req w subscription w1 ch c :
  located env req w subscription w1 ->
  autoRefund req = true ->
  is_str (action req) "reactivate" = false ->
  (daysSincePurchase subscription now <= 7)%Q ->
  latest_paid_charge w (sub_id subscription) = Some ch ->
  find (fun x => String.eqb (ch_id x) ch) (charges w) = Some c ->
  existsb (fun r => String.eqb (re_charge r) ch) (refunds w) = false ->
  faulty w (InvoicesList (sub_id subscription) 1 (Some "paid")) = false ->
  faulty w (RefundsCreate ch "requested_by_customer") = false ->
  faulty w (SubscriptionsCancel (sub_id subscription)) = false ->
  exists w',
    Cancel.handler env now req w
    = (inr (json 200
         [("success", JBool true);
          ("refunded", JBool true);
          ("refundAmount", JNum (inject_Z (ch_amount c) / 100));
          ("message", JStr "Subscription cancelled and refunded successfully");
          ("subscriptionId", JStr (sub_id subscription))]), w')
    /\ refunds w' = (refunds w ++ [refund_of c])%list
    /\ subscriptions w'
       = modify (sub_id subscription) (with_status "canceled") (subscriptions w)
    /\ calls w'
       = (calls w1 ++ [InvoicesList (sub_id subscription) 1 (Some "paid");
                       RefundsCreate ch "requested_by_customer";
                       SubscriptionsCancel (sub_id subscription);
                       FetchSendEmail
                         (SubjCancelledAndRefunded (inject_Z (ch_amount c) / 100))])%list.
Proof.
  intros Hloc Hauto Hact Hin7 Hcharge Hc Hfresh Flist Frefund Fcancel.
  pose proof Hloc as (_ & _ & _ & Hfind).
  apply find_subscription_found in Hfind. destruct Hfind as (Hst & Hin & _).
  apply store_fields in Hst.
  destruct Hst as (Hsubs & _ & Hinv & Hch & Href & Hf).
  destruct (within_before _ _ Hin7) as (Hwithin & _).
  destruct (In_find_by_id _ _ Hin) as [stored Hstored].
  destruct (latest_paid_charge_invoice _ _ _ Hcharge) as (invoice & rest & Hl & Ht & Hs).
  assert (Hid : ch_id c = ch) by (apply find_some in Hc; now apply String.eqb_eq).
  eexists.
  rewrite (cancel_handler_located _ now _ _ _ _ Hloc).
  unfold try_catch at 1, bind at 1, Cancel.auto_refund.
  rewrite Hauto, Hact, Hwithin. cbn.
  unfold try_catch, Cancel.refund_and_cancel, invoices_list, bind at 1.
  rewrite request_served by congruence. cbn.
  rewrite Hinv, Hl. cbn. rewrite Ht, Hs.
  unfold refunds_create, bind at 1.
  rewrite request_served by (cbn; congruence). cbn.
  rewrite Hch, Hc, Href, Hfresh. cbn.
  unfold subscriptions_cancel, subscriptions_write, bind at 1.
  rewrite request_served by (cbn; congruence). cbn.
  rewrite Hsubs, Hstored. cbn.
  unfold refund_of. rewrite Hid.
  split; [reflexivity|]. cbn.
  repeat split. now rewrite <- !app_assoc.
Qed.

Lemma eligible_refund_is_issued_then_cancelled_witness :
  let w := Sample.world "active" false (Some "ch_1") Sample.reliable in
  exists w',
    Cancel.handler Sample.env (Sample.day 3) (Sample.by_id None true) w
    = (inr (json 200
         [("success", JBool true);
          ("refunded", JBool true);
          ("refundAmount", JNum (inject_Z 499 / 100));
          ("message", JStr "Subscription cancelled and refunded successfully");
          ("subscriptionId", JStr "sub_1")]), w')
    /\ refunds w' = [mkRefund "re_ch_1" "ch_1" 499 "gbp" "requested_by_customer"]
    /\ subscriptions w' = [Sample.subscription "canceled" false]
    /\ calls w'
       = [SubscriptionsRetrieve "sub_1";
          InvoicesList "sub_1" 1 (Some "paid");
          RefundsCreate "ch_1" "requested_by_customer";
          SubscriptionsCancel "sub_1";
          FetchSendEmail (SubjCancelledAndRefunded (inject_Z 499 / 100))].
Proof.
  intros w.
  apply (eligible_refund_is_issued_then_cancelled Sample.env (Sample.day 3)
           (Sample.by_id None true) w (Sample.subscription "active" false)
           (Sample.retrieved w) "ch_1" (mkCharge "ch_1" 499 "gbp")).
  - unfold located. repeat split; reflexivity.
  - reflexivity.
  - reflexivity.
  - vm_compute. discriminate.
  - reflexivity.
  - reflexivity.
  - reflexivity.
  - reflexivity.
  - reflexivity.
  - reflexivity.
Defined.

(** ** The shape of a run *)

Lemma find_subscription_store msg req w :
  store (snd (find_subscription msg req w)) = store w.
Proof.
  unfold find_subscription, try_catch, bind, subscriptions_retrieve,
    customers_list, subscriptions_list, ret.
  explore; reflexivity.
Qed.

Lemma reads_exclude (p : Call -> bool) reads rest :
  (forall c, is_read c = true -> p c = false) ->
  forallb is_read reads = true ->
  existsb p (reads ++ rest) = existsb p rest.
Proof.
  intros Hp. induction reads as [|c l IH]; cbn; [reflexivity|].
  intros H. apply andb_true_iff in H. destruct H as [Hc Hl].
  now rewrite (Hp c Hc), (IH Hl).
Qed.

Lemma try_catch_answer {A} (m : M A) (f : Error -> A) w :
  snd (try_catch m (fun e => ret (f e)) w) = snd (m w)
  /\ fst (try_catch m (fun e => ret (f e)) w)
     = inr match fst (m w) with
           | inr a => a
           | inl e => f e
           end.
Proof.
  unfold try_catch. destruct (m w) as [[e|a] w']; split; reflexivity.
Qed.

(** A run of the cancel handler stops at one of its checks, or at a lookup
    that does not yield a subscription, or goes on with the subscription
    found. *)
Lemma cancel_handler_cases env now req w :
  (exists r, Cancel.handler env now req w = (inr r, w)
             /\ In (res_status r) [200; 405; 400; 500])
  \/ (exists r, Cancel.handler env now req w
                = (inr r, snd (find_subscription "No subscription found" req w))
                /\ In (res_status r) [404; 500])
  \/ (exists s w1,
        find_subscription "No subscription found" req w = (inr (inr s), w1)
        /\ Cancel.handler env now req w
           = try_catch
               (refunded <- Cancel.auto_refund req s now ;;
                match refunded with
                | Some response => ret response
                | None => Cancel.period_end_or_reactivate req s
                end)
               (fun error =>
                  ret (json 500 [("error", JStr "Internal server error");
                                 ("details", JStr (message error))])) w1).
Proof.
  unfold Cancel.handler.
  destruct (String.eqb (method req) "OPTIONS");
    [left; eexists; split; [reflexivity | cbn; tauto]|].
  destruct (negb (String.eqb (method req) "POST"));
    [left; eexists; split; [reflexivity | cbn; tauto]|].
  destruct (body req) as [nothing|b] eqn:Hb.
  { left. eexists; split;
      [ unfold try_catch; rewrite (not_destructured _ _ nothing) by exact Hb;
        reflexivity
      | cbn; tauto ]. }
  rewrite destructured by now exists b.
  destruct (negb (truthy (subscriptionId req)) && negb (truthy (email req)));
    [left; eexists; split; [reflexivity | cbn; tauto]|].
  destruct (negb (truthy (stripeSecretKey env)));
    [left; eexists; split; [reflexivity | cbn; tauto]|].
  right.
  destruct (find_subscription "No subscription found" req w) as [[e|[r|s]] w1] eqn:E.
  - left. eexists; split;
      [unfold try_catch, bind; rewrite E; reflexivity | cbn; tauto].
  - left. pose proof E as E'. unfold find_subscription in E.
    assert (S : res_status r = 404).
    { destruct (truthy (subscriptionId req)).
      - unfold try_catch, bind in E.
        destruct (subscriptions_retrieve _ w) as [[?|?] ?]; cbn in E;
          try discriminate. now injection E as <- _.
      - unfold bind in E.
        destruct (customers_list _ _ w) as [[?|[|c cs]] w2]; cbn in E;
          try discriminate; [now injection E as <- _|].
        destruct (subscriptions_list _ _ w2) as [[?|[|x xs]] w3]; cbn in E;
          try discriminate. now injection E as <- _. }
    exists r. split;
      [unfold try_catch, bind; rewrite E'; reflexivity | cbn; rewrite S; tauto].
  - right. exists s, w1. split; [reflexivity|].
    unfold try_catch, bind. rewrite E. reflexivity.
Qed.

Lemma refund_handler_cases env now req w :
  (exists r, ProcessRefund.handler env now req w = (inr r, w)
             /\ In (res_status r) [200; 405; 400; 500])
  \/ (exists r, ProcessRefund.handler env now req w
                = (inr r, snd (find_subscription
                                 "No subscription found for this customer" req w))
                /\ In (res_status r) [404; 500])
  \/ (exists s w1,
        find_subscription "No subscription found for this customer" req w
        = (inr (inr s), w1)
        /\ ProcessRefund.handler env now req w
           = try_catch
               (ProcessRefund.refund_or_cancel s now)
               (fun error =>
                  ret (json 500 [("error", JStr "Internal server error");
                                 ("details", JStr (message error))])) w1).
Proof.
  unfold ProcessRefund.handler.
  destruct (String.eqb (method req) "OPTIONS");
    [left; eexists; split; [reflexivity | cbn; tauto]|].
  destruct (negb (String.eqb (method req) "POST"));
    [left; eexists; split; [reflexivity | cbn; tauto]|].
  destruct (body req) as [nothing|b] eqn:Hb.
  { left. eexists; split;
      [ unfold try_catch; rewrite (not_destructured _ _ nothing) by exact Hb;
        reflexivity
      | cbn; tauto ]. }
  rewrite destructured by now exists b.
  destruct (negb (truthy (subscriptionId req)) && negb (truthy (email req)));
    [left; eexists; split; [reflexivity | cbn; tauto]|].
  destruct (negb (truthy (stripeSecretKey env)));
    [left; eexists; split; [reflexivity | cbn; tauto]|].
  right.
  destruct (find_subscription "No subscription found for this customer" req w)
    as [[e|[r|s]] w1] eqn:E.
  - left. eexists; split;
      [unfold try_catch, bind; rewrite E; reflexivity | cbn; tauto].
  - left. pose proof E as E'. unfold find_subscription in E.
    assert (S : res_status r = 404).
    { destruct (truthy (subscriptionId req)).
      - unfold try_catch, bind in E.
        destruct (subscriptions_retrieve _ w) as [[?|?] ?]; cbn in E;
          try discriminate. now injection E as <- _.
      - unfold bind in E.
        destruct (customers_list _ _ w) as [[?|[|c cs]] w2]; cbn in E;
          try discriminate; [now injection E as <- _|].
        destruct (subscriptions_list _ _ w2) as [[?|[|x xs]] w3]; cbn in E;
          try discriminate. now injection E as <- _. }
    exists r. split;
      [unfold try_catch, bind; rewrite E'; reflexivity | cbn; rewrite S; tauto].
  - right. exists s, w1. split; [reflexivity|].
    unfold try_catch, bind. rewrite E. reflexivity.
Qed.

(** ** Refunds per request *)

Lemma cancel_after_lookup_refunds req s now w1 :
  at_most_one_more_refund w1
    (snd ((refunded <- Cancel.auto_refund req s now ;;
           match refunded with
           | Some response => ret response
           | None => Cancel.period_end_or_reactivate req s
           end) w1)).
Proof.
  unfold at_most_one_more_refund,
    Cancel.auto_refund, Cancel.refund_and_cancel, Cancel.period_end_or_reactivate,
    invoices_list, refunds_create, subscriptions_cancel, subscriptions_update,
    subscriptions_write, fetch_send_email, try_catch, bind, ret, record.
  explore; first [now left | right; now eexists].
Qed.

Lemma refund_after_lookup_refunds s now w1 :
  at_most_one_more_refund w1 (snd (ProcessRefund.refund_or_cancel s now w1)).
Proof.
  unfold at_most_one_more_refund, ProcessRefund.refund_or_cancel,
    invoices_list, refunds_create, subscriptions_cancel,
    subscriptions_write, fetch_send_email, bind, ret, record.
  explore; first [now left | right; now eexists].
Qed.

(** X5.  One request to the cancel handler, or to the refund handler,
    records at most one refund, whatever the request, the provider's state
    and the provider's failures. *)
Theorem at_most_one_refund_per_request env now req w :
  at_most_one_more_refund w (snd (Cancel.handler env now req w))
  /\ at_most_one_more_refund w (snd (ProcessRefund.handler env now req w)).
Proof.
  split.
  - destruct (cancel_handler_cases env now req w)
      as [(r & -> & _) | [(r & -> & _) | (s & w1 & Hfind & ->)]].
    + now left.
    + left. cbn. exact (f_equal refunds (find_subscription_store _ req w)).
    + destruct (try_catch_answer
                  (refunded <- Cancel.auto_refund req s now ;;
                   match refunded with
                   | Some response => ret response
                   | None => Cancel.period_end_or_reactivate req s
                   end)
                  (fun error => json 500 [("error", JStr "Internal server error");
                                          ("details", JStr (message error))]) w1)
        as [-> _].
      apply find_subscription_found in Hfind. destruct Hfind as (Hst & _).
      pose proof (f_equal refunds Hst) as Hr. cbn in Hr.
      pose proof (cancel_after_lookup_refunds req s now w1) as H.
      unfold at_most_one_more_refund in *. now rewrite <- Hr.
  - destruct (refund_handler_cases env now req w)
      as [(r & -> & _) | [(r & -> & _) | (s & w1 & Hfind & ->)]].
    + now left.
    + left. cbn. exact (f_equal refunds (find_subscription_store _ req w)).
    + destruct (try_catch_answer (ProcessRefund.refund_or_cancel s now)
                  (fun error => json 500 [("error", JStr "Internal server error");
                                          ("details", JStr (message error))]) w1)
        as [-> _].
      apply find_subscription_found in Hfind. destruct Hfind as (Hst & _).
      pose proof (f_equal refunds Hst) as Hr. cbn in Hr.
      pose proof (refund_after_lookup_refunds s now w1) as H.
      unfold at_most_one_more_refund in *. now rewrite <- Hr.
Qed.

(** ** Cancelling without a refund *)

Lemma neither_refl w : neither_refunded_nor_cancelled w w.
Proof.
  repeat split. exists []. now rewrite app_nil_r.
Qed.

Lemma neither_after_reads w w1 w2 reads :
  store w1 = store w ->
  calls w1 = (calls w ++ reads)%list ->
  forallb is_read reads = true ->
  neither_refunded_nor_cancelled w1 w2 ->
  neither_refunded_nor_cancelled w w2.
Proof.
  intros Hst Hcalls Hreads (Hr & Hs & issued & Hi & H1 & H2).
  apply store_fields in Hst. destruct Hst as (Hsubs & _ & _ & _ & Href & _).
  repeat split; try congruence.
  exists (reads ++ issued)%list. repeat split.
  - now rewrite Hi, Hcalls, app_assoc.
  - rewrite reads_exclude; [assumption | | assumption].
    intros c; destruct c; discriminate || reflexivity.
  - rewrite reads_exclude; [assumption | | assumption].
    intros c; destruct c; discriminate || reflexivity.
Qed.

Lemma period_end_or_reactivate_neither req s w1 :
  neither_refunded_nor_cancelled w1 (snd (Cancel.period_end_or_reactivate req s w1)).
Proof.
  unfold neither_refunded_nor_cancelled, Cancel.period_end_or_reactivate,
    subscriptions_update, subscriptions_write, fetch_send_email, bind, ret, record.
  explore; rewrite ?modify_status;
    (repeat split; eexists; split;
     [ cbn; rewrite <- ?app_assoc; cbn; reflexivity | split; reflexivity ]).
Qed.

(** X4.  A cancel request without [autoRefund], and any reactivation
    request, never refunds and never cancels at once: whatever the
    provider's state and failures, no refund is recorded, no subscription
    changes status, and neither [refunds.create] nor
    [subscriptions.cancel] is called. *)
Theorem plain_cancel_never_refunds env now req w :
  autoRefund req = false \/ is_str (action req) "reactivate" = true ->
  neither_refunded_nor_cancelled w (snd (Cancel.handler env now req w)).
Proof.
  intros Hplain.
  destruct (cancel_handler_cases env now req w)
    as [(r & -> & _) | [(r & -> & _) | (s & w1 & Hfind & ->)]].
  - apply neither_refl.
  - cbn.
    destruct (find_subscription_reads "No subscription found" req w)
      as (reads & Hcalls & Hreads).
    apply (neither_after_reads w _ _ reads
             (find_subscription_store _ req w) Hcalls Hreads).
    apply neither_refl.
  - destruct (try_catch_answer
                (refunded <- Cancel.auto_refund req s now ;;
                 match refunded with
                 | Some response => ret response
                 | None => Cancel.period_end_or_reactivate req s
                 end)
                (fun error => json 500 [("error", JStr "Internal server error");
                                        ("details", JStr (message error))]) w1)
      as [-> _].
    assert (Hskip : Cancel.auto_refund req s now = ret None).
    { unfold Cancel.auto_refund.
      destruct Hplain as [-> | ->]; [reflexivity | now rewrite andb_false_r]. }
    unfold bind. rewrite Hskip. cbn.
    destruct (find_subscription_found _ _ _ _ _ Hfind) as (Hst & _ & reads & Hcalls & Hreads).
    apply (neither_after_reads w w1 _ reads Hst Hcalls Hreads).
    apply period_end_or_reactivate_neither.
Qed.

Lemma plain_cancel_never_refunds_witness :
  let w := Sample.world "active" false (Some "ch_1") Sample.reliable in
  neither_refunded_nor_cancelled w
    (snd (Cancel.handler Sample.env (Sample.day 3) (Sample.by_id None false) w)).
Proof.
  intros w.
  apply (plain_cancel_never_refunds Sample.env (Sample.day 3) (Sample.by_id None false) w).
  left. reflexivity.
Defined.

(** ** Every run ends with a response *)

Lemma cancel_after_lookup_status req s now w1 :
  match fst ((refunded <- Cancel.auto_refund req s now ;;
              match refunded with
              | Some response => ret response
              | None => Cancel.period_end_or_reactivate req s
              end) w1) with
  | inr r => res_status r = 200
  | inl _ => True
  end.
Proof.
  unfold Cancel.auto_refund, Cancel.refund_and_cancel, Cancel.period_end_or_reactivate,
    invoices_list, refunds_create, subscriptions_cancel, subscriptions_update,
    subscriptions_write, fetch_send_email, try_catch, bind, ret, record.
  explore; exact I || reflexivity.
Qed.

Lemma refund_after_lookup_status s now w1 :
  match fst (ProcessRefund.refund_or_cancel s now w1) with
  | inr r => In (res_status r) [200; 400; 404]
  | inl _ => True
  end.
Proof.
  unfold ProcessRefund.refund_or_cancel,
    invoices_list, refunds_create, subscriptions_cancel,
    subscriptions_write, fetch_send_email, bind, ret, record.
  explore; exact I || (cbn; tauto).
Qed.

Lemma dispatch_returns event w :
  fst (Webhook.dispatch event w) = inr tt
  /\ store (snd (Webhook.dispatch event w)) = store w.
Proof.
  unfold Webhook.dispatch, subscriptions_retrieve, try_catch, bind, ret, record.
  explore; split; reflexivity.
Qed.

(** X6.  No run of the cancel, refund, license or webhook handler ends in
    an uncaught error: whatever the request, the configuration, the
    provider's state and the provider's failures, the handler answers, with
    status 200, 400, 404, 405 or 500 (the webhook handler never with
    404). *)
Theorem handlers_always_answer toLowerCase trim env now req w :
  answers [200; 400; 404; 405; 500] (Cancel.handler env now req w)
  /\ answers [200; 400; 404; 405; 500] (ProcessRefund.handler env now req w)
  /\ answers [200; 400; 404; 405; 500]
       (VerifyLicense.handler toLowerCase trim env now req w)
  /\ forall constructEvent,
       answers [200; 400; 405; 500] (Webhook.handler constructEvent env req w).
Proof.
  unfold answers. split; [|split; [|split]].
  - destruct (cancel_handler_cases env now req w)
      as [(r & -> & Hr) | [(r & -> & Hr) | (s & w1 & Hfind & ->)]].
    + exists r. split; [reflexivity | cbn in *; tauto].
    + exists r. split; [reflexivity | cbn in *; tauto].
    + match goal with
      | |- context [try_catch ?m (fun error => ret (@?f error)) w1] =>
          destruct (try_catch_answer m f w1) as [_ ->];
          pose proof (cancel_after_lookup_status req s now w1) as H;
          destruct (fst (m w1)) as [e|r]
      end.
      * eexists; split; [reflexivity | cbn; tauto].
      * exists r. split; [reflexivity | rewrite H; cbn; tauto].
  - destruct (refund_handler_cases env now req w)
      as [(r & -> & Hr) | [(r & -> & Hr) | (s & w1 & Hfind & ->)]].
    + exists r. split; [reflexivity | cbn in *; tauto].
    + exists r. split; [reflexivity | cbn in *; tauto].
    + match goal with
      | |- context [try_catch ?m (fun error => ret (@?f error)) w1] =>
          destruct (try_catch_answer m f w1) as [_ ->];
          pose proof (refund_after_lookup_status s now w1) as H;
          destruct (fst (m w1)) as [e|r]
      end.
      * eexists; split; [reflexivity | cbn; tauto].
      * exists r. split; [reflexivity | cbn in *; tauto].
  - unfold VerifyLicense.handler.
    destruct (negb (String.eqb (method req) "POST"));
      [eexists; split; [reflexivity | cbn; tauto]|].
    destruct (body req) as [nothing|b] eqn:Hb.
    { unfold try_catch. rewrite (not_destructured _ _ nothing) by exact Hb.
      eexists; split; [reflexivity | cbn; tauto]. }
    rewrite destructured by now exists b.
    unfold try_catch, bind.
    destruct (negb (truthy (licenseKey req)));
      [eexists; split; [reflexivity | cbn; tauto]|].
    destruct (negb (truthy (stripeSecretKey env)));
      [eexists; split; [reflexivity | cbn; tauto]|].
    destruct (VerifyLicense.locate toLowerCase trim (str (licenseKey req)) w)
      as [[e|[s|]] w1];
      try (eexists; split; [reflexivity | cbn; tauto]).
    destruct (negb (String.eqb (sub_status s) "active")
              && negb (String.eqb (sub_status s) "trialing"));
      [eexists; split; [reflexivity | cbn; tauto]|].
    destruct (sub_current_period_end s * 1000 <? now);
      eexists; split; reflexivity || (cbn; tauto).
  - intros constructEvent. unfold Webhook.handler.
    destruct (negb (String.eqb (method req) "POST"));
      [eexists; split; [reflexivity | cbn; tauto]|].
    destruct (negb (truthy (STRIPE_SECRET_KEY env))
              || negb (truthy (STRIPE_WEBHOOK_SECRET env)));
      [eexists; split; [reflexivity | cbn; tauto]|].
    destruct (constructEvent _ _ _) as [err|event];
      [eexists; split; [reflexivity | cbn; tauto]|].
    unfold bind.
    destruct (dispatch_returns event w) as [H _].
    destruct (Webhook.dispatch event w) as [[e|[]] w1]; cbn in H; [discriminate|].
    eexists; split; [reflexivity | cbn; tauto].
Qed.

(** ** The refund handler within the window *)

Lemma latest_invoice_listed w id invoice :
  latest_invoice w id = Some invoice ->
  exists rest, filter (invoice_matches id None) (invoices w) = invoice :: rest.
Proof.
  unfold latest_invoice.
  destruct (filter _ (invoices w)) as [|i rest]; [discriminate|].
  intros [= ->]. now exists rest.
Qed.

(** X7.  A refund request within the window for a subscription that is
    not trialing and whose latest invoice carries a charge not refunded
    yet: while the provider serves the calls, the charge is refunded in
    full, the subscription is cancelled at once, and the answer is 200 with
    the refund id, the amount in major units and the currency code in upper
    case. *)
Theorem refund_request_is_refunded_then_cancelled
  env now req w subscription w1 invoice c :
  located env req w subscription w1 ->
  (daysSincePurchase subscription now <= 7)%Q ->
  String.eqb (sub_status subscription) "trialing" = false ->
  latest_invoice w (sub_id subscription) = Some invoice ->
  truthy (inv_charge invoice) = true ->
  find (fun x => String.eqb (ch_id x) (str (inv_charge invoice))) (charges w) = Some c ->
  existsb (fun r => String.eqb (re_charge r) (str (inv_charge invoice))) (refunds w) = false ->
  faulty w (InvoicesList (sub_id subscription) 1 None) = false ->
  faulty w (RefundsCreate (str (inv_charge invoice)) "requested_by_customer") = false ->
  faulty w (SubscriptionsCancel (sub_id subscription)) = false ->
  exists w',
    ProcessRefund.handler env now req w
    = (inr (json 200
         [("success", JBool true);
          ("message", JStr "Refund processed successfully");
          ("refundId", JStr (re_id (refund_of c)));
          ("subscriptionId", JStr (sub_id subscription));
          ("amount", JNum (inject_Z (ch_amount c) / 100));
          ("currency", JStr (ProcessRefund.toUpperCase (ch_currency c)))]), w')
    /\ refunds w' = (refunds w ++ [refund_of c])%list
    /\ subscriptions w'
       = modify (sub_id subscription) (with_status "canceled") (subscriptions w)
    /\ calls w'
       = (calls w1 ++ [InvoicesList (sub_id subscription) 1 None;
                       RefundsCreate (ch_id c) "requested_by_customer";
                       SubscriptionsCancel (sub_id subscription);
                       FetchSendEmail
                         (SubjRefundRequest (inject_Z (ch_amount c) / 100))])%list.
Proof.
  intros Hloc Hin7 Hpaid Hinvoice Ht Hc Hfresh Flist Frefund Fcancel.
  pose proof Hloc as (_ & _ & _ & Hfind).
  apply find_subscription_found in Hfind. destruct Hfind as (Hst & Hin & _).
  apply store_fields in Hst.
  destruct Hst as (Hsubs & _ & Hinv & Hch & Href & Hf).
  destruct (within_before _ _ Hin7) as (_ & Hnotexp).
  destruct (In_find_by_id _ _ Hin) as [stored Hstored].
  destruct (latest_invoice_listed _ _ _ Hinvoice) as (rest & Hl).
  assert (Hid : ch_id c = str (inv_charge invoice))
    by (apply find_some in Hc; now apply String.eqb_eq).
  eexists.
  rewrite (refund_handler_located _ now _ _ _ _ Hloc).
  unfold try_catch, ProcessRefund.refund_or_cancel.
  rewrite Hnotexp.
  unfold invoices_list, bind at 1.
  rewrite request_served by congruence. cbn.
  rewrite Hinv, Hl. cbn. rewrite Hpaid, Ht. cbn.
  unfold refunds_create, bind at 1.
  rewrite request_served by (cbn; congruence). cbn.
  rewrite Hch, Hc, Href, Hfresh. cbn.
  unfold subscriptions_cancel, subscriptions_write, bind at 1.
  rewrite request_served by (cbn; congruence). cbn.
  rewrite Hsubs, Hstored. cbn.
  unfold refund_of. rewrite Hid.
  split; [reflexivity|]. cbn.
  repeat split. now rewrite <- !app_assoc.
Qed.

Lemma refund_request_is_refunded_then_cancelled_witness :
  let w := Sample.world "active" false (Some "ch_1") Sample.reliable in
  exists w',
    ProcessRefund.handler Sample.env (Sample.day 7) (Sample.by_id None false) w
    = (inr (json 200
         [("success", JBool true);
          ("message", JStr "Refund processed successfully");
          ("refundId", JStr "re_ch_1");
          ("subscriptionId", JStr "sub_1");
          ("amount", JNum (inject_Z 499 / 100));
          ("currency", JStr "GBP")]), w')
    /\ refunds w' = [mkRefund "re_ch_1" "ch_1" 499 "gbp" "requested_by_customer"]
    /\ subscriptions w' = [Sample.subscription "canceled" false]
    /\ calls w'
       = [SubscriptionsRetrieve "sub_1";
          InvoicesList "sub_1" 1 None;
          RefundsCreate "ch_1" "requested_by_customer";
          SubscriptionsCancel "sub_1";
          FetchSendEmail (SubjRefundRequest (inject_Z 499 / 100))].
Proof.
  intros w.
  apply (refund_request_is_refunded_then_cancelled Sample.env (Sample.day 7)
           (Sample.by_id None false) w (Sample.subscription "active" false)
           (Sample.retrieved w) (mkInvoice "sub_1" "paid" (Some "ch_1"))
           (mkCharge "ch_1" 499 "gbp")).
  - unfold located. repeat split; reflexivity.
  - vm_compute. discriminate.
  - reflexivity.
  - reflexivity.
  - reflexivity.
  - reflexivity.
  - reflexivity.
  - reflexivity.
  - reflexivity.
  - reflexivity.
Defined.

(** X8.  Within the window, a refund request for a subscription without
    any invoice is answered 404 "No payment found for this subscription",
    whatever its status (a trial without invoice is not cancelled); one for
    a subscription that is not trialing and whose latest invoice carries no
    charge is answered 404 "No charge found to refund".  In both cases the
    invoice listing is the only call after the lookup: nothing is refunded
    or cancelled. *)
Theorem refund_request_without_payment_is_404 env now req w subscription w1 :
  located env req w subscription w1 ->
  (daysSincePurchase subscription now <= 7)%Q ->
  faulty w (InvoicesList (sub_id subscription) 1 None) = false ->
  (latest_invoice w (sub_id subscription) = None ->
   ProcessRefund.handler env now req w
   = (inr (json 404 [("error", JStr "No payment found for this subscription")]),
      logged (InvoicesList (sub_id subscription) 1 None) w1))
  /\ (forall invoice,
        latest_invoice w (sub_id subscription) = Some invoice ->
        String.eqb (sub_status subscription) "trialing" = false ->
        truthy (inv_charge invoice) = false ->
        ProcessRefund.handler env now req w
        = (inr (json 404 [("error", JStr "No charge found to refund")]),
           logged (InvoicesList (sub_id subscription) 1 None) w1)).
Proof.
  intros Hloc Hin7 Flist.
  pose proof Hloc as (_ & _ & _ & Hfind).
  apply find_subscription_found in Hfind. destruct Hfind as (Hst & _ & _).
  apply store_fields in Hst. destruct Hst as (_ & _ & Hinv & _ & _ & Hf).
  destruct (within_before _ _ Hin7) as (_ & Hnotexp).
  rewrite (refund_handler_located _ now _ _ _ _ Hloc).
  unfold try_catch, ProcessRefund.refund_or_cancel.
  rewrite Hnotexp.
  unfold invoices_list, bind.
  rewrite request_served by congruence. cbn.
  rewrite Hinv. unfold latest_invoice.
  destruct (filter _ (invoices w)) as [|i rest]; cbn.
  - split; [reflexivity | discriminate].
  - split; [discriminate|].
    intros invoice [= ->] -> ->. reflexivity.
Qed.

Lemma refund_request_without_payment_is_404_witness :
  let w := Sample.world "active" false None Sample.reliable in
  ProcessRefund.handler Sample.env (Sample.day 2) (Sample.by_id None false) w
  = (inr (json 404 [("error", JStr "No charge found to refund")]),
     logged (InvoicesList "sub_1" 1 None) (Sample.retrieved w)).
Proof.
  intros w.
  destruct (refund_request_without_payment_is_404 Sample.env (Sample.day 2)
              (Sample.by_id None false) w (Sample.subscription "active" false)
              (Sample.retrieved w)) as [_ H].
  - unfold located. repeat split; reflexivity.
  - vm_compute. discriminate.
  - reflexivity.
  - apply (H (mkInvoice "sub_1" "paid" None)); reflexivity.
Defined.

(** ** A cancellation that fails after the refund *)

(** X9.  In the cancel handler, when the refund has been created and the
    immediate cancellation that follows it fails, the error is caught with
    the others of the refund attempt: the refund stays recorded, the
    subscription keeps its status and is marked to be cancelled at the end
    of the period, and the answer is the period-end one, without a
    [refunded] property. *)
Theorem refund_kept_when_cancel_fails env now req w subscription w1 ch c :
  located env req w subscription w1 ->
  autoRefund req = true ->
  is_str (action req) "reactivate" = false ->
  (daysSincePurchase subscription now <= 7)%Q ->
  latest_paid_charge w (sub_id subscription) = Some ch ->
  find (fun x => String.eqb (ch_id x) ch) (charges w) = Some c ->
  existsb (fun r => String.eqb (re_charge r) ch) (refunds w) = false ->
  faulty w (InvoicesList (sub_id subscription) 1 (Some "paid")) = false ->
  faulty w (RefundsCreate ch "requested_by_customer") = false ->
  faulty w (SubscriptionsCancel (sub_id subscription)) = true ->
  faulty w (SubscriptionsUpdate (sub_id subscription) true) = false ->
  exists stored w',
    Cancel.handler env now req w = (inr (updated_response true stored), w')
    /\ sub_id stored = sub_id subscription
    /\ res_field "refunded" (updated_response true stored) = None
    /\ refunds w' = (refunds w ++ [refund_of c])%list
    /\ map sub_status (subscriptions w') = map sub_status (subscriptions w)
    /\ subscriptions w'
       = modify (sub_id subscription) (with_cancel_at_period_end true) (subscriptions w).
Proof.
  intros Hloc Hauto Hact Hin7 Hcharge Hc Hfresh Flist Frefund Fcancel Fupdate.
  pose proof Hloc as (_ & _ & _ & Hfind).
  apply find_subscription_found in Hfind. destruct Hfind as (Hst & Hin & _).
  apply store_fields in Hst.
  destruct Hst as (Hsubs & _ & Hinv & Hch & Href & Hf).
  destruct (within_before _ _ Hin7) as (Hwithin & _).
  destruct (In_find_by_id _ _ Hin) as [stored Hstored].
  destruct (latest_paid_charge_invoice _ _ _ Hcharge) as (invoice & rest & Hl & Ht & Hs).
  assert (Hid : ch_id c = ch) by (apply find_some in Hc; now apply String.eqb_eq).
  exists stored. eexists.
  rewrite (cancel_handler_located _ now _ _ _ _ Hloc).
  unfold try_catch at 1, bind at 1, Cancel.auto_refund.
  rewrite Hauto, Hact, Hwithin. cbn.
  unfold try_catch, Cancel.refund_and_cancel, invoices_list, bind at 1.
  rewrite request_served by congruence. cbn.
  rewrite Hinv, Hl. cbn. rewrite Ht, Hs.
  unfold refunds_create, bind at 1.
  rewrite request_served by (cbn; congruence). cbn.
  rewrite Hch, Hc, Href, Hfresh. cbn.
  unfold subscriptions_cancel, subscriptions_write, bind at 1.
  rewrite request_failed by (cbn; congruence). cbn.
  match goal with
  | |- (let (_, _) := Cancel.period_end_or_reactivate req subscription ?w2 in _) = _ /\ _ =>
      pose proof (period_end_or_reactivate_runs req subscription w2 stored) as Hrun
  end.
  rewrite Hact in Hrun. cbn in Hrun.
  rewrite Hrun by (cbn; congruence).
  apply find_by_id_In in Hstored.
  unfold refund_of. rewrite Hid.
  split; [reflexivity|]. cbn.
  repeat split; try tauto.
  - now rewrite modify_status, Hsubs.
  - now rewrite Hsubs.
Qed.

Lemma refund_kept_when_cancel_fails_witness :
  let w := Sample.world "active" false (Some "ch_1")
             (fun c => match c with SubscriptionsCancel _ => true | _ => false end) in
  exists stored w',
    Cancel.handler Sample.env (Sample.day 3) (Sample.by_id None true) w
    = (inr (updated_response true stored), w')
    /\ sub_id stored = "sub_1"
    /\ res_field "refunded" (updated_response true stored) = None
    /\ refunds w' = [mkRefund "re_ch_1" "ch_1" 499 "gbp" "requested_by_customer"]
    /\ map sub_status (subscriptions w') = ["active"]
    /\ subscriptions w' = [Sample.subscription "active" true].
Proof.
  intros w.
  apply (refund_kept_when_cancel_fails Sample.env (Sample.day 3)
           (Sample.by_id None true) w (Sample.subscription "active" false)
           (Sample.retrieved w) "ch_1" (mkCharge "ch_1" 499 "gbp")).
  - unfold located. repeat split; reflexivity.
  - reflexivity.
  - reflexivity.
  - vm_compute. discriminate.
  - reflexivity.
  - reflexivity.
  - reflexivity.
  - reflexivity.
  - reflexivity.
  - reflexivity.
  - reflexivity.
Defined.

(** X10.  In the refund handler, when the refund has been created and the
    cancellation that follows it fails, the request ends with 500 and the
    provider's message; the refund stays recorded and the subscription is
    left as it was. *)
Theorem refund_handler_cancel_failure_is_500
  env now req w subscription w1 invoice c :
  located env req w subscription w1 ->
  (daysSincePurchase subscription now <= 7)%Q ->
  String.eqb (sub_status subscription) "trialing" = false ->
  latest_invoice w (sub_id subscription) = Some invoice ->
  truthy (inv_charge invoice) = true ->
  find (fun x => String.eqb (ch_id x) (str (inv_charge invoice))) (charges w) = Some c ->
  existsb (fun r => String.eqb (re_charge r) (str (inv_charge invoice))) (refunds w) = false ->
  faulty w (InvoicesList (sub_id subscription) 1 None) = false ->
  faulty w (RefundsCreate (str (inv_charge invoice)) "requested_by_customer") = false ->
  faulty w (SubscriptionsCancel (sub_id subscription)) = true ->
  exists w',
    ProcessRefund.handler env now req w
    = (inr (json 500 [("error", JStr "Internal server error");
                      ("details", JStr (message connection_error))]), w')
    /\ refunds w' = (refunds w ++ [refund_of c])%list
    /\ subscriptions w' = subscriptions w.
Proof.
  intros Hloc Hin7 Hpaid Hinvoice Ht Hc Hfresh Flist Frefund Fcancel.
  pose proof Hloc as (_ & _ & _ & Hfind).
  apply find_subscription_found in Hfind. destruct Hfind as (Hst & Hin & _).
  apply store_fields in Hst.
  destruct Hst as (Hsubs & _ & Hinv & Hch & Href & Hf).
  destruct (within_before _ _ Hin7) as (_ & Hnotexp).
  destruct (latest_invoice_listed _ _ _ Hinvoice) as (rest & Hl).
  assert (Hid : ch_id c = str (inv_charge invoice))
    by (apply find_some in Hc; now apply String.eqb_eq).
  eexists.
  rewrite (refund_handler_located _ now _ _ _ _ Hloc).
  unfold try_catch, ProcessRefund.refund_or_cancel.
  rewrite Hnotexp.
  unfold invoices_list, bind at 1.
  rewrite request_served by congruence. cbn.
  rewrite Hinv, Hl. cbn. rewrite Hpaid, Ht. cbn.
  unfold refunds_create, bind at 1.
  rewrite request_served by (cbn; congruence). cbn.
  rewrite Hch, Hc, Href, Hfresh. cbn.
  unfold subscriptions_cancel, subscriptions_write, bind at 1.
  rewrite request_failed by (cbn; congruence). cbn.
  unfold refund_of. rewrite Hid.
  split; [reflexivity|]. cbn.
  split; [reflexivity | assumption].
Qed.

Lemma refund_handler_cancel_failure_is_500_witness :
  let w := Sample.world "active" false (Some "ch_1")
             (fun c => match c with SubscriptionsCancel _ => true | _ => false end) in
  exists w',
    ProcessRefund.handler Sample.env (Sample.day 3) (Sample.by_id None false) w
    = (inr (json 500 [("error", JStr "Internal server error");
                      ("details", JStr "An error occurred with our connection to Stripe")]),
       w')
    /\ refunds w' = [mkRefund "re_ch_1" "ch_1" 499 "gbp" "requested_by_customer"]
    /\ subscriptions w' = [Sample.subscription "active" false].
Proof.
  intros w.
  apply (refund_handler_cancel_failure_is_500 Sample.env (Sample.day 3)
           (Sample.by_id None false) w (Sample.subscription "active" false)
           (Sample.retrieved w) (mkInvoice "sub_1" "paid" (Some "ch_1"))
           (mkCharge "ch_1" 499 "gbp")).
  - unfold located. repeat split; reflexivity.
  - vm_compute. discriminate.
  - reflexivity.
  - reflexivity.
  - reflexivity.
  - reflexivity.
  - reflexivity.
  - reflexivity.
  - reflexivity.
  - reflexivity.
Defined.

(** ** The license check *)

(** X11.  A license check that passes the method, key and configuration
    checks answers 404 with [valid: false] when no subscription is found,
    200 with [valid: false] and the status when the subscription is
    neither active nor trialing, 200 with [valid: false] and the expiry date
    when its period ended before [now], and 500 with [valid: false] when the
    lookup raises. *)
Theorem license_without_valid_subscription toLowerCase trim env now req w w1 :
  method req = "POST" ->
  truthy (licenseKey req) = true ->
  truthy (stripeSecretKey env) = true ->
  snd (VerifyLicense.locate toLowerCase trim (str (licenseKey req)) w) = w1 ->
  (fst (VerifyLicense.locate toLowerCase trim (str (licenseKey req)) w) = inr None ->
   VerifyLicense.handler toLowerCase trim env now req w
   = (inr (json 404
        [("valid", JBool false);
         ("error", JStr "License key not found or subscription not active")]), w1))
  /\ (forall s,
        fst (VerifyLicense.locate toLowerCase trim (str (licenseKey req)) w) = inr (Some s) ->
        VerifyLicense.active_or_trialing s = false ->
        VerifyLicense.handler toLowerCase trim env now req w
        = (inr (json 200
             [("valid", JBool false);
              ("error", JStr "Subscription is not active");
              ("status", JStr (sub_status s))]), w1))
  /\ (forall s,
        fst (VerifyLicense.locate toLowerCase trim (str (licenseKey req)) w) = inr (Some s) ->
        VerifyLicense.active_or_trialing s = true ->
        sub_current_period_end s * 1000 < now ->
        VerifyLicense.handler toLowerCase trim env now req w
        = (inr (json 200
             [("valid", JBool false);
              ("error", JStr "Subscription has expired");
              ("expiryDate", JIsoDate (sub_current_period_end s * 1000))]), w1))
  /\ (forall e,
        fst (VerifyLicense.locate toLowerCase trim (str (licenseKey req)) w) = inl e ->
        VerifyLicense.handler toLowerCase trim env now req w
        = (inr (json 500
             [("valid", JBool false);
              ("error", JStr "Error verifying license key")]), w1)).
Proof.
  intros Hm Hkey Hcfg Hw1.
  unfold VerifyLicense.handler. rewrite destructured by now apply keyed.
  rewrite Hm, Hkey, Hcfg. cbn.
  unfold try_catch, bind.
  destruct (VerifyLicense.locate toLowerCase trim (str (licenseKey req)) w)
    as [[e|[s|]] w2];
    cbn in Hw1 |- *; subst w2.
  - split; [|split; [|split]]; intros; try discriminate. reflexivity.
  - split; [|split; [|split]]; try discriminate.
    + intros s' [= <-] Hact.
      unfold VerifyLicense.active_or_trialing in Hact.
      apply orb_false_iff in Hact. destruct Hact as [-> ->]. reflexivity.
    + intros s' [= <-] Hact Hexp.
      unfold VerifyLicense.active_or_trialing in Hact.
      assert (E : negb (String.eqb (sub_status s) "active")
                  && negb (String.eqb (sub_status s) "trialing") = false).
      { apply orb_true_iff in Hact.
        destruct Hact as [-> | ->]; [reflexivity | now rewrite andb_false_r]. }
      rewrite E. apply Z.ltb_lt in Hexp. now rewrite Hexp.
  - split; [|split; [|split]]; intros; try discriminate. reflexivity.
Qed.

Lemma license_without_valid_subscription_witness :
  let w := Sample.world "canceled" false (Some "ch_1") Sample.reliable in
  VerifyLicense.handler Sample.toLowerCase Sample.trim Sample.env (Sample.day 1)
    (Sample.license "sub_1") w
  = (inr (json 200
       [("valid", JBool false);
        ("error", JStr "Subscription is not active");
        ("status", JStr "canceled")]), Sample.retrieved w).
Proof.
  intros w.
  destruct (license_without_valid_subscription Sample.toLowerCase Sample.trim
              Sample.env (Sample.day 1)
              (Sample.license "sub_1") w (Sample.retrieved w))
    as (_ & H & _).
  - reflexivity.
  - reflexivity.
  - reflexivity.
  - reflexivity.
  - apply (H (Sample.subscription "canceled" false)); reflexivity.
Defined.

Lemma only_read_logged c w : is_read c = true -> only_read w (logged c w).
Proof.
  intros H. split; [reflexivity|]. exists [c]. cbn. now rewrite H.
Qed.

Lemma only_read_trans w w1 w2 : only_read w w1 -> only_read w1 w2 -> only_read w w2.
Proof.
  intros (S1 & l1 & C1 & R1) (S2 & l2 & C2 & R2).
  split; [congruence|].
  exists (l1 ++ l2)%list. split.
  - now rewrite C2, C1, app_assoc.
  - rewrite forallb_app. now rewrite R1, R2.
Qed.

Lemma only_read_refl w : only_read w w.
Proof.
  split; [reflexivity|]. exists []. now rewrite app_nil_r.
Qed.

Lemma first_active_reads cs : forall w,
  only_read w (snd (VerifyLicense.first_active cs w)).
Proof.
  induction cs as [|c cs IH]; intros w; cbn - [firstn].
  - apply only_read_refl.
  - unfold bind at 1, subscriptions_list.
    serve.
    + now apply only_read_logged.
    + cbn - [firstn].
      destruct (find _ _).
      * now apply only_read_logged.
      * apply (only_read_trans w (logged (SubscriptionsList (cus_id c) 10) w)).
        -- now apply only_read_logged.
        -- apply IH.
Qed.

Lemma locate_reads toLowerCase trim key w :
  only_read w (snd (VerifyLicense.locate toLowerCase trim key w)).
Proof.
  unfold VerifyLicense.locate, try_catch, bind at 1, subscriptions_retrieve.
  assert (Hemail : forall w0,
    only_read w w0 ->
    only_read w
      (snd ((customers <- customers_list
                (trim (toLowerCase key)) 10 ;;
             VerifyLicense.first_active customers) w0))).
  { intros w0 H0. unfold bind, customers_list.
    serve.
    - apply (only_read_trans w w0); [assumption | now apply only_read_logged].
    - cbn - [firstn].
      apply (only_read_trans w w0); [assumption|].
      eapply only_read_trans; [|apply first_active_reads].
      now apply only_read_logged. }
  serve.
  - apply Hemail. now apply only_read_logged.
  - cbn. destruct (find _ (subscriptions w)).
    + now apply only_read_logged.
    + apply Hemail. now apply only_read_logged.
Qed.

(** X12.  The license check only reads: whatever the request, the
    configuration, the provider's state and its failures, the handler
    leaves customers, subscriptions, invoices, charges and refunds as they
    were, and calls nothing but [subscriptions.retrieve],
    [customers.list] and [subscriptions.list]. *)
Theorem license_check_only_reads toLowerCase trim env now req w :
  only_read w (snd (VerifyLicense.handler toLowerCase trim env now req w)).
Proof.
  unfold VerifyLicense.handler.
  destruct (negb (String.eqb (method req) "POST")); [apply only_read_refl|].
  destruct (body req) as [nothing|b] eqn:Hb.
  { unfold try_catch. rewrite (not_destructured _ _ nothing) by exact Hb.
    apply only_read_refl. }
  rewrite destructured by now exists b.
  unfold try_catch at 1.
  destruct (negb (truthy (licenseKey req))); [apply only_read_refl|].
  destruct (negb (truthy (stripeSecretKey env))); [apply only_read_refl|].
  unfold try_catch, bind.
  pose proof (locate_reads toLowerCase trim (str (licenseKey req)) w) as H.
  destruct (VerifyLicense.locate toLowerCase trim (str (licenseKey req)) w)
    as [[e|[s|]] w1];
    cbn in H |- *; try exact H.
  destruct (negb (String.eqb (sub_status s) "active")
            && negb (String.eqb (sub_status s) "trialing")); [exact H|].
  destruct (sub_current_period_end s * 1000 <? now); exact H.
Qed.

(** ** Webhook events that verify *)

(** X13.  Once the signature verifies, the webhook handler acknowledges
    with 200 [{received: true}] whatever the event and whatever the
    provider does, and writes nothing to the provider.  An event of a type
    it does not handle is only logged as unhandled; a subscription update
    or deletion is only logged: neither calls the provider. *)
Theorem verified_event_is_acknowledged
  (constructEvent : string -> option string -> string -> Error + Webhook.Event)
  env req w event :
  method req = "POST" ->
  truthy (STRIPE_SECRET_KEY env) = true ->
  truthy (STRIPE_WEBHOOK_SECRET env) = true ->
  constructEvent (raw_body req) (stripe_signature req) (str (STRIPE_WEBHOOK_SECRET env))
  = inr event ->
  fst (Webhook.handler constructEvent env req w) = inr (json 200 [("received", JBool true)])
  /\ store (snd (Webhook.handler constructEvent env req w)) = store w
  /\ (Webhook.ev_type event = "customer.subscription.updated"
      \/ Webhook.ev_type event = "customer.subscription.deleted" ->
      calls (snd (Webhook.handler constructEvent env req w))
      = (calls w ++ [ConsoleLog "Subscription updated/deleted:"])%list)
  /\ (Webhook.ev_type event <> "checkout.session.completed" ->
      Webhook.ev_type event <> "customer.subscription.updated" ->
      Webhook.ev_type event <> "customer.subscription.deleted" ->
      calls (snd (Webhook.handler constructEvent env req w))
      = (calls w ++ [ConsoleLog ("Unhandled event type " ++ Webhook.ev_type event)])%list).
Proof.
  intros Hm Hk Hs Hsig.
  unfold Webhook.handler. rewrite Hm, Hk, Hs, Hsig. cbn.
  unfold bind.
  destruct (dispatch_returns event w) as [Hfst Hstore].
  assert (Hsnd : forall (r : Response),
    snd (let (s, w') := Webhook.dispatch event w in
         match s with
         | inl e => (inl e, w')
         | inr _ => ret r w'
         end) = snd (Webhook.dispatch event w)).
  { intros r. destruct (Webhook.dispatch event w) as [[e|[]] w1]; reflexivity. }
  rewrite Hsnd.
  split; [|split; [|split]].
  - destruct (Webhook.dispatch event w) as [[e|[]] w1]; cbn in Hfst;
      [discriminate | reflexivity].
  - exact Hstore.
  - unfold Webhook.dispatch.
    intros [H | H]; rewrite H; reflexivity.
  - intros H1 H2 H3. unfold Webhook.dispatch.
    apply String.eqb_neq in H1, H2, H3. now rewrite H1, H2, H3.
Qed.

Lemma verified_event_is_acknowledged_witness :
  let w := Sample.world "active" false (Some "ch_1")
             (fun c => match c with SubscriptionsRetrieve _ => true | _ => false end) in
  let req := Sample.signed "t=1,v1=ab" in
  let event := Webhook.mkEvent "checkout.session.completed"
                 (Webhook.mkEventObject "cs_1" "complete" (Some "subscription") (Some "sub_1")) in
  fst (Webhook.handler (fun _ _ _ => inr event) Sample.env req w)
  = inr (json 200 [("received", JBool true)])
  /\ store (snd (Webhook.handler (fun _ _ _ => inr event) Sample.env req w)) = store w.
Proof.
  intros w req event.
  destruct (verified_event_is_acknowledged (fun _ _ _ => inr event) Sample.env req w event)
    as (H1 & H2 & _).
  - reflexivity.
  - reflexivity.
  - reflexivity.
  - reflexivity.
  - split; [exact H1 | exact H2].
Defined.

(** ** confirm-subscription *)

Lemma retrieve_outcome id w :
  subscriptions_retrieve id w
  = (match find (fun s => String.eqb (sub_id s) id) (subscriptions w) with
     | Some s => if faulty w (SubscriptionsRetrieve id) then inl connection_error else inr s
     | None => if faulty w (SubscriptionsRetrieve id) then inl connection_error
               else inl (no_such "subscription" id)
     end,
     logged (SubscriptionsRetrieve id) w).
Proof.
  unfold subscriptions_retrieve.
  serve; cbn; destruct (find _ (subscriptions w)); reflexivity.
Qed.

(** X14.  The confirmation handler answers [valid: true] only for a stored
    subscription that is active or trialing: in every run that ends with
    [valid: true], the id of the request is that of a stored subscription
    whose status is active or trialing, the response carries its id,
    customer, status and period end, and the retrieval was the only call. *)
Theorem confirmation_is_valid_only_if_active env req w r w' :
  ConfirmSubscription.handler env req w = (inr r, w') ->
  res_field "valid" r = Some (JBool true) ->
  exists s,
    find (fun x => String.eqb (sub_id x) (str (subscriptionId req))) (subscriptions w)
    = Some s
    /\ VerifyLicense.active_or_trialing s = true
    /\ r = json 200
         [("valid", JBool true);
          ("subscriptionId", JStr (sub_id s));
          ("customerId", JStr (sub_customer s));
          ("status", JStr (sub_status s));
          ("expiryDate", JIsoDate (sub_current_period_end s * 1000));
          ("currentPeriodEnd", num (sub_current_period_end s))]
    /\ w' = logged (SubscriptionsRetrieve (str (subscriptionId req))) w.
Proof.
  unfold ConfirmSubscription.handler.
  destruct (negb (String.eqb (method req) "POST")); [now intros [= <- _]|].
  destruct (body req) as [nothing|b] eqn:Hb.
  { unfold try_catch. rewrite (not_destructured _ _ nothing) by exact Hb.
    now intros [= <- _]. }
  rewrite destructured by now exists b.
  unfold try_catch, bind.
  destruct (negb (truthy (subscriptionId req))); [now intros [= <- _]|].
  destruct (negb (truthy (STRIPE_SECRET_KEY env))); [now intros [= <- _]|].
  rewrite retrieve_outcome.
  destruct (find _ (subscriptions w)) as [s|];
    destruct (faulty w _); cbn; try now intros [= <- _].
  unfold VerifyLicense.active_or_trialing.
  destruct (String.eqb (sub_status s) "active") eqn:A;
    destruct (String.eqb (sub_status s) "trialing") eqn:T; cbn;
    try (now intros [= <- _]);
    intros [= <- <-] _; exists s; rewrite A, T; repeat split.
Qed.

Lemma confirmation_is_valid_only_if_active_witness :
  let w := Sample.world "trialing" false None Sample.reliable in
  exists s,
    find (fun x => String.eqb (sub_id x) "sub_1") (subscriptions w) = Some s
    /\ VerifyLicense.active_or_trialing s = true
    /\ json 200
         [("valid", JBool true);
          ("subscriptionId", JStr "sub_1");
          ("customerId", JStr "cus_1");
          ("status", JStr "trialing");
          ("expiryDate", JIsoDate 1702592000000);
          ("currentPeriodEnd", num 1702592000)]
       = json 200
         [("valid", JBool true);
          ("subscriptionId", JStr (sub_id s));
          ("customerId", JStr (sub_customer s));
          ("status", JStr (sub_status s));
          ("expiryDate", JIsoDate (sub_current_period_end s * 1000));
          ("currentPeriodEnd", num (sub_current_period_end s))]
    /\ Sample.retrieved w = logged (SubscriptionsRetrieve "sub_1") w.
Proof.
  intros w.
  apply (confirmation_is_valid_only_if_active Sample.env (Sample.by_id None false) w).
  - reflexivity.
  - reflexivity.
Defined.

(** X15.  For a POST with a subscription id and the live key set, the
    confirmation handler reports a subscription that is active or trialing
    as valid without looking at its period end, any other status as
    [valid: false] with the status, and a retrieval that raises (an unknown
    id included) as 500 "Internal server error". *)
Theorem confirmation_verdict env req w :
  method req = "POST" ->
  truthy (subscriptionId req) = true ->
  truthy (STRIPE_SECRET_KEY env) = true ->
  (forall s,
     fst (subscriptions_retrieve (str (subscriptionId req)) w) = inr s ->
     fst (ConfirmSubscription.handler env req w)
     = inr (if VerifyLicense.active_or_trialing s
            then json 200
                   [("valid", JBool true);
                    ("subscriptionId", JStr (sub_id s));
                    ("customerId", JStr (sub_customer s));
                    ("status", JStr (sub_status s));
                    ("expiryDate", JIsoDate (sub_current_period_end s * 1000));
                    ("currentPeriodEnd", num (sub_current_period_end s))]
            else json 200
                   [("valid", JBool false);
                    ("error", JStr "Subscription is not active");
                    ("status", JStr (sub_status s))]))
  /\ (forall e,
        fst (subscriptions_retrieve (str (subscriptionId req)) w) = inl e ->
        fst (ConfirmSubscription.handler env req w)
        = inr (json 500 [("error", JStr "Internal server error")])).
Proof.
  intros Hm Hid Hkey.
  unfold ConfirmSubscription.handler.
  rewrite destructured by now apply identified_by_id.
  rewrite Hm, Hid, Hkey. cbn.
  unfold try_catch, bind.
  destruct (subscriptions_retrieve (str (subscriptionId req)) w) as [[e|s] w1]; cbn.
  - split; [discriminate | reflexivity].
  - split; [|discriminate].
    intros s' [= <-]. unfold VerifyLicense.active_or_trialing.
    destruct (String.eqb (sub_status s) "active");
      destruct (String.eqb (sub_status s) "trialing"); reflexivity.
Qed.

Lemma confirmation_verdict_witness :
  let w := Sample.world "active" false None Sample.reliable in
  fst (ConfirmSubscription.handler Sample.env
         (mkRequest "POST" None "" (inr (mkBody (Some "sub_9") None None None false None))) w)
  = inr (json 500 [("error", JStr "Internal server error")]).
Proof.
  intros w.
  destruct (confirmation_verdict Sample.env
              (mkRequest "POST" None "" (inr (mkBody (Some "sub_9") None None None false None))) w)
    as [_ H].
  - reflexivity.
  - reflexivity.
  - reflexivity.
  - apply (H (no_such "subscription" "sub_9")). reflexivity.
Defined.

(** ** retrieve-session *)

Lemma verdict_valid session s :
  res_field "valid" (RetrieveSession.verdict session s) = Some (JBool true) ->
  VerifyLicense.active_or_trialing s = true.
Proof.
  unfold RetrieveSession.verdict, VerifyLicense.active_or_trialing.
  destruct (String.eqb (sub_status s) "active");
    destruct (String.eqb (sub_status s) "trialing"); cbn; congruence.
Qed.

(** X16.  For a session that the provider returns, the session handler
    decides on the session's subscription: when the session carries the
    expanded subscription, the verdict is computed from it and the provider
    is not called again; when it carries an id, that subscription is
    retrieved once, and a retrieval that raises is reported as 500 with the
    error's message; when it carries none, the answer is 400 "No
    subscription found in session". *)
Theorem session_verdict
  (sessions_retrieve : string -> Error + RetrieveSession.Session)
  env req sessionId w session :
  method req = "POST" ->
  truthy sessionId = true ->
  truthy (testFirstSecretKey env) = true ->
  sessions_retrieve (str sessionId) = inr session ->
  (forall s,
     RetrieveSession.ses_subscription session = Some (inr s) ->
     RetrieveSession.handler sessions_retrieve env req sessionId w
     = (inr (RetrieveSession.verdict session s), w))
  /\ (RetrieveSession.ses_subscription session = None ->
      RetrieveSession.handler sessions_retrieve env req sessionId w
      = (inr (json 400 [("error", JStr "No subscription found in session")]), w))
  /\ (forall id,
        RetrieveSession.ses_subscription session = Some (inl id) ->
        id <> "" ->
        RetrieveSession.handler sessions_retrieve env req sessionId w
        = (inr match fst (subscriptions_retrieve id w) with
               | inr s => RetrieveSession.verdict session s
               | inl error =>
                   json 500 [("error", JStr "Internal server error");
                             ("details", JStr (message error))]
               end,
           logged (SubscriptionsRetrieve id) w)).
Proof.
  intros Hm Hid Hkey Hses.
  unfold RetrieveSession.handler. rewrite Hm, Hid, Hkey, Hses. cbn.
  unfold try_catch, bind.
  split; [|split].
  - intros s ->. reflexivity.
  - intros ->. reflexivity.
  - intros id -> Hne. apply String.eqb_neq in Hne. rewrite Hne.
    rewrite retrieve_outcome.
    destruct (find _ (subscriptions w)); destruct (faulty w _); reflexivity.
Qed.

Lemma session_verdict_witness :
  let w := Sample.world "active" false None Sample.reliable in
  let s := Sample.subscription "past_due" false in
  let session := RetrieveSession.mkSession (Some (inr s)) None (Some (Some "a@b.c")) in
  RetrieveSession.handler (fun _ => inr session) Sample.env
    (Sample.by_id None false) (Some "cs_1") w
  = (inr (json 200
       [("valid", JBool false);
        ("error", JStr "Subscription is not active. Status: past_due");
        ("subscriptionId", JStr "sub_1");
        ("status", JStr "past_due")]), w).
Proof.
  intros w s session.
  destruct (session_verdict (fun _ => inr session) Sample.env
              (Sample.by_id None false) (Some "cs_1") w session) as (H & _).
  - reflexivity.
  - reflexivity.
  - reflexivity.
  - reflexivity.
  - apply (H s). reflexivity.
Defined.

(** X17.  The session handler answers [valid: true] only for a
    subscription that is active or trialing: in every run that ends with
    [valid: true], the provider returned a session whose subscription, as
    expanded in the session or as stored under the id the session carries,
    is active or trialing, and the response is the verdict on it. *)
Theorem session_is_valid_only_if_active
  (sessions_retrieve : string -> Error + RetrieveSession.Session)
  env req sessionId w r w' :
  RetrieveSession.handler sessions_retrieve env req sessionId w = (inr r, w') ->
  res_field "valid" r = Some (JBool true) ->
  exists session s,
    sessions_retrieve (str sessionId) = inr session
    /\ VerifyLicense.active_or_trialing s = true
    /\ r = RetrieveSession.verdict session s
    /\ (RetrieveSession.ses_subscription session = Some (inr s)
        \/ exists id,
             RetrieveSession.ses_subscription session = Some (inl id)
             /\ find (fun x => String.eqb (sub_id x) id) (subscriptions w) = Some s).
Proof.
  unfold RetrieveSession.handler.
  destruct (String.eqb (method req) "OPTIONS"); [now intros [= <- _]|].
  destruct (negb (String.eqb (method req) "POST")); [now intros [= <- _]|].
  unfold try_catch, bind.
  destruct (negb (truthy sessionId)); [now intros [= <- _]|].
  destruct (negb (truthy (testFirstSecretKey env))); [now intros [= <- _]|].
  destruct (sessions_retrieve (str sessionId)) as [e|session]; [now intros [= <- _]|].
  destruct (RetrieveSession.ses_subscription session) as [[id|s]|] eqn:E;
    [| |now intros [= <- _]].
  - destruct (String.eqb id ""); [now intros [= <- _]|].
    rewrite retrieve_outcome.
    destruct (find _ (subscriptions w)) as [s|] eqn:F;
      destruct (faulty w _); cbn; try now intros [= <- _].
    intros [= <- _] Hv. exists session, s.
    repeat split; [now apply (verdict_valid session) | right; now exists id].
  - cbn. intros [= <- _] Hv. exists session, s.
    repeat split; [now apply (verdict_valid session) | now left].
Qed.

Lemma session_is_valid_only_if_active_witness :
  let w := Sample.world "trialing" false None Sample.reliable in
  let session := RetrieveSession.mkSession (Some (inl "sub_1")) (Some "a@b.c") None in
  exists session' s,
    (fun _ : string => @inr Error _ session) (str (Some "cs_1")) = inr session'
    /\ VerifyLicense.active_or_trialing s = true
    /\ json 200
         [("valid", JBool true);
          ("subscriptionId", JStr "sub_1");
          ("customerId", JStr "cus_1");
          ("status", JStr "trialing");
          ("expiryDate", JIsoDate 1702592000000);
          ("currentPeriodEnd", num 1702592000);
          ("email", JStr "a@b.c")]
       = RetrieveSession.verdict session' s
    /\ (RetrieveSession.ses_subscription session' = Some (inr s)
        \/ exists id,
             RetrieveSession.ses_subscription session' = Some (inl id)
             /\ find (fun x => String.eqb (sub_id x) id) (subscriptions w) = Some s).
Proof.
  intros w session.
  apply (session_is_valid_only_if_active (fun _ => inr session) Sample.env
           (Sample.by_id None false) (Some "cs_1") w _ (Sample.retrieved w)).
  - reflexivity.
  - reflexivity.
Defined.

(** ** The two refund handlers *)




(** ** send-email: stripping tags *)

Lemma has_gt_strip inside s :
  SendEmail.has_gt s = false -> SendEmail.has_gt (SendEmail.strip inside s) = false.
Proof.
  revert inside. induction s as [|c r IH]; intros inside; cbn; [reflexivity|].
  intros H. apply orb_false_iff in H. destruct H as [Hc Hr].
  rewrite Hc. destruct inside; [now apply IH|].
  rewrite Hr, andb_false_r. cbn. rewrite Hc. now apply IH.
Qed.

Lemma strip_untagged inside s : tagged (SendEmail.strip inside s) = false.
Proof.
  revert inside. induction s as [|c r IH]; intros inside; cbn; [reflexivity|].
  destruct inside.
  - destruct (Ascii.eqb c ">"); apply IH.
  - destruct (Ascii.eqb c "<" && SendEmail.has_gt r) eqn:E; [apply IH|].
    cbn. rewrite IH, orb_false_r.
    apply andb_false_iff in E. destruct E as [E | E]; [now rewrite E|].
    now rewrite (has_gt_strip false r E), andb_false_r.
Qed.

Lemma strip_fixes_untagged s : tagged s = false -> SendEmail.strip false s = s.
Proof.
  induction s as [|c r IH]; cbn; [reflexivity|].
  intros H. apply orb_false_iff in H. destruct H as [Hc Hr].
  now rewrite Hc, (IH Hr).
Qed.

(** X19.  Stripping tags leaves no tag behind: in the result no ["<"] is
    followed by a [">"]; stripping again changes nothing; and a string
    without a tag, a lone ["<"] or [">"] included, is returned as it is. *)
Theorem stripped_text_has_no_tag (s : string) :
  tagged (SendEmail.strip_tags s) = false
  /\ SendEmail.strip_tags (SendEmail.strip_tags s) = SendEmail.strip_tags s
  /\ (tagged s = false -> SendEmail.strip_tags s = s).
Proof.
  unfold SendEmail.strip_tags. split; [|split].
  - apply strip_untagged.
  - apply strip_fixes_untagged, strip_untagged.
  - apply strip_fixes_untagged.
Qed.

Lemma has_gt_app s s' :
  SendEmail.has_gt (s ++ s') = SendEmail.has_gt s || SendEmail.has_gt s'.
Proof.
  induction s as [|c r IH]; cbn; [reflexivity|].
  now rewrite IH, orb_assoc.
Qed.

Lemma strip_inside_tag t b :
  SendEmail.has_gt t = false ->
  SendEmail.strip true (t ++ String ">" b) = SendEmail.strip false b.
Proof.
  induction t as [|c r IH]; cbn; [reflexivity|].
  intros H. apply orb_false_iff in H. destruct H as [-> Hr]. now apply IH.
Qed.

(** X20.  Stripping removes a tag and keeps the text before it: for text
    [a] without ["<"] and tag content [t] without [">"], the string
    [a <t> b] is stripped to [a] followed by [b] stripped. *)
Theorem strip_tags_removes_tag (a t b : string) :
  has_lt a = false ->
  SendEmail.has_gt t = false ->
  SendEmail.strip_tags (a ++ String "<" (t ++ String ">" b))
  = a ++ SendEmail.strip_tags b.
Proof.
  unfold SendEmail.strip_tags. intros Ha Ht.
  induction a as [|c r IH]; cbn.
  - rewrite has_gt_app. cbn. rewrite orb_true_r.
    now apply strip_inside_tag.
  - cbn in Ha. apply orb_false_iff in Ha. destruct Ha as [-> Hr].
    cbn. now rewrite (IH Hr).
Qed.

Lemma strip_tags_removes_tag_witness :
  SendEmail.strip_tags ("2 > 1, " ++ String "<" ("a href='x'" ++ String ">" "see</a>"))
  = "2 > 1, " ++ SendEmail.strip_tags "see</a>".
Proof.
  apply (strip_tags_removes_tag "2 > 1, " "a href='x'" "see</a>").
  - reflexivity.
  - reflexivity.
Defined.

(** ** send-email: the handler *)

(** X21.  The mail handler answers a POST whose body is [undefined] or
    [null] with 500 "Internal server error" (the destructuring raises
    inside the [try] block), a POST whose body lacks [to] or [subject] with
    400, and, when the API key is not configured, a complete POST with 200
    and [success: true] ("Email logged"); in the three cases the answer is
    the same whatever the mail service would do: the service is not
    contacted. *)
Theorem email_without_key_is_not_sent resendApiKey req :
  SendEmail.em_method req = "POST" ->
  (forall nothing,
     SendEmail.em_body req = inl nothing ->
     exists details,
       forall fetch,
         SendEmail.handler fetch resendApiKey req
         = json 500 [("error", JStr "Internal server error");
                     ("details", JStr details)])
  /\ (forall b,
        SendEmail.em_body req = inr b ->
        truthy (SendEmail.to req) && truthy (SendEmail.subject req) = false ->
        forall fetch,
          SendEmail.handler fetch resendApiKey req
          = json 400 [("error", JStr "To and subject required")])
  /\ (truthy (SendEmail.to req) && truthy (SendEmail.subject req) = true ->
      truthy resendApiKey = false ->
      forall fetch,
        SendEmail.handler fetch resendApiKey req
        = json 200
            [("success", JBool true);
             ("message",
              JStr "Email logged (RESEND_API_KEY not configured - add to Vercel env vars)")]).
Proof.
  intros Hm. unfold SendEmail.handler, SendEmail.attempt. rewrite Hm. cbn.
  split; [|split].
  - intros nothing Hb.
    exists (message (cannot_destructure "to" nothing)).
    intros fetch. now rewrite Hb.
  - intros b Hb H fetch. now rewrite Hb, <- negb_andb, H.
  - intros H Hkey fetch. rewrite <- negb_andb, H, Hkey.
    destruct (SendEmail.em_body req) as [nothing|b] eqn:Hb; [|reflexivity].
    unfold SendEmail.to in H. rewrite Hb in H. discriminate.
Qed.

Lemma email_without_key_is_not_sent_witness :
  let complete := SendEmail.mkEmailRequest "POST"
                    (inr (SendEmail.mkEmailBody (Some "a@b.c") (Some "Hello")
                            (Some "<p>Hi</p>") None)) in
  (exists details,
     forall fetch,
       SendEmail.handler fetch None (SendEmail.mkEmailRequest "POST" (inl Undefined))
       = json 500 [("error", JStr "Internal server error");
                   ("details", JStr details)])
  /\ (forall fetch,
        SendEmail.handler fetch None complete
        = json 200
            [("success", JBool true);
             ("message",
              JStr "Email logged (RESEND_API_KEY not configured - add to Vercel env vars)")]).
Proof.
  intros complete. split.
  - destruct (email_without_key_is_not_sent None
                (SendEmail.mkEmailRequest "POST" (inl Undefined))) as [H _].
    + reflexivity.
    + apply (H Undefined). reflexivity.
  - destruct (email_without_key_is_not_sent None complete) as (_ & _ & H).
    + reflexivity.
    + apply H; reflexivity.
Defined.

(** X22.  With the key configured and [to] and [subject] given, the mail
    handler posts the payload once and reports the outcome: a request that
    fails is answered 500 with the error's message, a response that is not
    ok 500 with "Resend API error: " and the status, and an ok response
    whose body is an object 200 with [success: true] and the [id] of the
    body as [emailId]. *)
Theorem mail_service_outcome
  (fetch : string -> SendEmail.Payload -> Error + SendEmail.FetchResponse)
  resendApiKey req :
  SendEmail.em_method req = "POST" ->
  truthy (SendEmail.to req) = true ->
  truthy (SendEmail.subject req) = true ->
  truthy resendApiKey = true ->
  (forall error,
     fetch (str resendApiKey) (SendEmail.payload req) = inl error ->
     SendEmail.handler fetch resendApiKey req
     = json 500 [("error", JStr "Internal server error");
                 ("details", JStr (message error))])
  /\ (forall response errorData,
        fetch (str resendApiKey) (SendEmail.payload req) = inr response ->
        SendEmail.ok response = false ->
        SendEmail.text_body response = inr errorData ->
        SendEmail.handler fetch resendApiKey req
        = json 500 [("error", JStr "Internal server error");
                    ("details", JStr ("Resend API error: "
                       ++ SendEmail.string_of_Z (SendEmail.status response)))])
  /\ (forall response fields id,
        fetch (str resendApiKey) (SendEmail.payload req) = inr response ->
        SendEmail.ok response = true ->
        SendEmail.json_body response = inr (JObj fields) ->
        field "id" fields = Some id ->
        SendEmail.handler fetch resendApiKey req
        = json 200 [("success", JBool true);
                    ("message", JStr "Email sent successfully");
                    ("emailId", id)]).
Proof.
  intros Hm Hto Hsub Hkey.
  assert (Hb : exists b, SendEmail.em_body req = inr b).
  { unfold SendEmail.to in Hto.
    destruct (SendEmail.em_body req) as [n|b]; [discriminate | now exists b]. }
  destruct Hb as [b Hb].
  unfold SendEmail.handler, SendEmail.attempt, SendEmail.send.
  rewrite Hb, Hm, Hto, Hsub, Hkey. cbn.
  split; [|split].
  - intros error ->. reflexivity.
  - intros response errorData -> -> ->. reflexivity.
  - intros response fields id -> -> -> ->. reflexivity.
Qed.

Lemma mail_service_outcome_witness :
  let req := SendEmail.mkEmailRequest "POST"
               (inr (SendEmail.mkEmailBody (Some "a@b.c") (Some "Hello")
                       (Some "<p>Hi</p>") None)) in
  let fetch := fun (_ : string) (_ : SendEmail.Payload) =>
    @inr Error _ (SendEmail.mkFetchResponse false 422 (inr "{}") (inr (JObj []))) in
  SendEmail.handler fetch (Some "re_key") req
  = json 500 [("error", JStr "Internal server error");
              ("details", JStr "Resend API error: 422")].
Proof.
  intros req fetch.
  destruct (mail_service_outcome fetch (Some "re_key") req) as (_ & H & _).
  - reflexivity.
  - reflexivity.
  - reflexivity.
  - reflexivity.
  - apply (H (SendEmail.mkFetchResponse false 422 (inr "{}") (inr (JObj []))) "{}");
      reflexivity.
Defined.

(** ** verify-license, earlier revision *)

Lemma earlier_locate_stored key w s w1 :
  VerifyLicenseEarlier.locate key w = (inr (Some s), w1) ->
  In s (subscriptions w).
Proof.
  unfold VerifyLicenseEarlier.locate, try_catch, bind at 1.
  rewrite retrieve_outcome.
  assert (Hemail : forall w0,
    subscriptions w0 = subscriptions w ->
    (customers <- customers_list key 1 ;;
     match customers with
     | customer :: _ =>
         subscriptions <- VerifyLicenseEarlier.subscriptions_list_active (cus_id customer) 1 ;;
         match subscriptions with
         | subscription :: _ => ret (Some subscription)
         | [] => ret None
         end
     | [] => ret None
     end) w0 = (inr (Some s), w1) ->
    In s (subscriptions w)).
  { intros w0 H0. unfold bind, customers_list, VerifyLicenseEarlier.subscriptions_list_active.
    serve; [discriminate|]. cbn.
    destruct (filter _ (customers w0)) as [|c cs]; cbn; [discriminate|].
    serve; [discriminate|]. cbn. rewrite H0.
    destruct (filter _ (subscriptions w)) as [|x xs] eqn:E; cbn; [discriminate|].
    intros [= <- _].
    assert (I : In x (x :: xs)) by now left.
    rewrite <- E in I. now apply filter_In in I. }
  destruct (find _ (subscriptions w)) as [x|] eqn:E;
    destruct (faulty w (SubscriptionsRetrieve key)); cbn;
    try (apply Hemail; reflexivity).
  intros [= <- _]. now apply find_by_id_In in E.
Qed.

(** X23.  The earlier license check answers [valid: true] only for a
    stored subscription that is active or trialing and whose period has not
    ended: in every run that ends with [valid: true], such a subscription
    exists and the response carries its id, customer, status and period
    end. *)
Theorem earlier_license_is_valid_only_if_current env now req w r w' :
  VerifyLicenseEarlier.handler env now req w = (inr r, w') ->
  res_field "valid" r = Some (JBool true) ->
  exists s,
    In s (subscriptions w)
    /\ VerifyLicense.active_or_trialing s = true
    /\ now <= sub_current_period_end s * 1000
    /\ r = json 200
         [("valid", JBool true);
          ("subscriptionId", JStr (sub_id s));
          ("customerId", JStr (sub_customer s));
          ("status", JStr (sub_status s));
          ("expiryDate", JIsoDate (sub_current_period_end s * 1000));
          ("currentPeriodEnd", num (sub_current_period_end s))].
Proof.
  unfold VerifyLicenseEarlier.handler.
  destruct (negb (String.eqb (method req) "POST")); [now intros [= <- _]|].
  destruct (body req) as [nothing|b] eqn:Hb.
  { unfold try_catch. rewrite (not_destructured _ _ nothing) by exact Hb.
    now intros [= <- _]. }
  rewrite destructured by now exists b.
  unfold try_catch at 1 2, bind at 1.
  destruct (negb (truthy (licenseKey req))); [now intros [= <- _]|].
  destruct (negb (truthy (STRIPE_SECRET_KEY env))); [now intros [= <- _]|].
  destruct (VerifyLicenseEarlier.locate (str (licenseKey req)) w) as [[e|[s|]] w1] eqn:L;
    cbn; try now intros [= <- _].
  apply earlier_locate_stored in L.
  unfold VerifyLicense.active_or_trialing.
  destruct (String.eqb (sub_status s) "active") eqn:A;
    destruct (String.eqb (sub_status s) "trialing") eqn:T; cbn;
    try (now intros [= <- _]);
    (destruct (sub_current_period_end s * 1000 <? now) eqn:X; cbn;
     [now intros [= <- _]|];
     intros [= <- _] _; exists s; rewrite A, T;
     apply Z.ltb_ge in X; repeat split; assumption).
Qed.

Lemma earlier_license_is_valid_only_if_current_witness :
  let w := Sample.world "active" false (Some "ch_1") Sample.reliable in
  exists s,
    In s (subscriptions w)
    /\ VerifyLicense.active_or_trialing s = true
    /\ Sample.day 1 <= sub_current_period_end s * 1000
    /\ json 200
         [("valid", JBool true);
          ("subscriptionId", JStr "sub_1");
          ("customerId", JStr "cus_1");
          ("status", JStr "active");
          ("expiryDate", JIsoDate 1702592000000);
          ("currentPeriodEnd", num 1702592000)]
       = json 200
         [("valid", JBool true);
          ("subscriptionId", JStr (sub_id s));
          ("customerId", JStr (sub_customer s));
          ("status", JStr (sub_status s));
          ("expiryDate", JIsoDate (sub_current_period_end s * 1000));
          ("currentPeriodEnd", num (sub_current_period_end s))].
Proof.
  intros w.
  apply (earlier_license_is_valid_only_if_current Sample.env (Sample.day 1)
           (Sample.license "a@b.c") w _
           (logged (SubscriptionsList "cus_1" 1)
              (logged (CustomersList "a@b.c" 1)
                 (logged (SubscriptionsRetrieve "a@b.c") w)))).
  - reflexivity.
  - reflexivity.
Defined.

(** X24.  In the earlier license check, a key that is the id of a stored
    subscription, active or trialing, with its period end not before
    [now], is answered 200 with [valid: true] and the subscription's id,
    customer, status, expiry date and period end, after the one retrieval. *)
Theorem earlier_license_by_id_is_valid env now req w s :
  method req = "POST" ->
  truthy (licenseKey req) = true ->
  truthy (STRIPE_SECRET_KEY env) = true ->
  faulty w (SubscriptionsRetrieve (str (licenseKey req))) = false ->
  find (fun x => String.eqb (sub_id x) (str (licenseKey req))) (subscriptions w) = Some s ->
  VerifyLicense.active_or_trialing s = true ->
  now <= sub_current_period_end s * 1000 ->
  VerifyLicenseEarlier.handler env now req w
  = (inr (json 200
       [("valid", JBool true);
        ("subscriptionId", JStr (sub_id s));
        ("customerId", JStr (sub_customer s));
        ("status", JStr (sub_status s));
        ("expiryDate", JIsoDate (sub_current_period_end s * 1000));
        ("currentPeriodEnd", num (sub_current_period_end s))]),
     logged (SubscriptionsRetrieve (str (licenseKey req))) w).
Proof.
  intros Hm Hkey Hcfg Hok Hs Hact Hnow.
  unfold VerifyLicenseEarlier.handler, VerifyLicenseEarlier.locate.
  rewrite destructured by now apply keyed.
  rewrite Hm, Hkey, Hcfg. cbn.
  unfold try_catch, bind. rewrite retrieve_outcome, Hs, Hok. cbn.
  unfold VerifyLicense.active_or_trialing in Hact.
  assert (E : negb (String.eqb (sub_status s) "active")
              && negb (String.eqb (sub_status s) "trialing") = false).
  { apply orb_true_iff in Hact.
    destruct Hact as [-> | ->]; [reflexivity | now rewrite andb_false_r]. }
  rewrite E.
  assert (L : (sub_current_period_end s * 1000 <? now) = false) by (apply Z.ltb_ge; lia).
  now rewrite L.
Qed.

Lemma earlier_license_by_id_is_valid_witness :
  let w := Sample.world "trialing" false None Sample.reliable in
  VerifyLicenseEarlier.handler Sample.env (Sample.day 1) (Sample.license "sub_1") w
  = (inr (json 200
       [("valid", JBool true);
        ("subscriptionId", JStr "sub_1");
        ("customerId", JStr "cus_1");
        ("status", JStr "trialing");
        ("expiryDate", JIsoDate ((Sample.created + 30 * 86400) * 1000));
        ("currentPeriodEnd", num (Sample.created + 30 * 86400))]),
     Sample.retrieved w).
Proof.
  intros w.
  apply (earlier_license_by_id_is_valid Sample.env (Sample.day 1)
           (Sample.license "sub_1") w (Sample.subscription "trialing" false)).
  - reflexivity.
  - reflexivity.
  - reflexivity.
  - reflexivity.
  - reflexivity.
  - reflexivity.
  - vm_compute. discriminate.
Defined.

(** ** The chat-completion proxy *)

(** X25.  When the upstream service answers a completion request with an
    error, the proxy passes its status on: whatever the status and the
    body (unless the body is JSON [null]), the response has the upstream
    status, with "Invalid API key" for 401, "Rate limit exceeded" for 429,
    and for the others the upstream [error.message] when the body has a
    truthy one.  A successful upstream answer is relayed as it is, with
    status 200. *)
Theorem upstream_outcome_is_passed_on
  (fetch : string -> Chat.Completion -> Error + Chat.Upstream)
  apiKey req ms up :
  Chat.chat_method req = "POST" ->
  truthy apiKey = true ->
  Chat.messages req = Some ms ->
  fetch (str apiKey) (Chat.completion req ms) = inr up ->
  (Chat.up_ok up = false ->
   Chat.up_json up <> inr JNull ->
   res_status (Chat.handler fetch apiKey req) = Chat.up_status up
   /\ (Chat.up_status up = 401 ->
       Chat.handler fetch apiKey req = json 401 [("error", JStr "Invalid API key")])
   /\ (Chat.up_status up = 429 ->
       Chat.handler fetch apiKey req = json 429 [("error", JStr "Rate limit exceeded")])
   /\ (forall fields error m,
         Chat.up_status up <> 401 -> Chat.up_status up <> 429 ->
         Chat.up_json up = inr (JObj fields) ->
         field "error" fields = Some (JObj error) ->
         field "message" error = Some m ->
         VerifyLicense.json_truthy m = true ->
         Chat.handler fetch apiKey req = json (Chat.up_status up) [("error", m)]))
  /\ (forall data,
        Chat.up_ok up = true ->
        Chat.up_json up = inr data ->
        Chat.handler fetch apiKey req = mkResponse 200 (Some data)).
Proof.
  intros Hm Hkey Hms Hfetch.
  unfold Chat.handler. rewrite Hm, Hkey, Hms, Hfetch. cbn.
  split.
  - intros -> Hnull. cbn.
    split; [|split; [|split]].
    + destruct (Chat.up_status up =? 401) eqn:E1;
        [apply Z.eqb_eq in E1; now rewrite E1|].
      destruct (Chat.up_status up =? 429) eqn:E2;
        [apply Z.eqb_eq in E2; now rewrite E2|].
      destruct (Chat.up_json up) as [e|[| | | | |fields]]; cbn; try reflexivity.
      * now contradiction Hnull.
      * destruct (field "error" fields) as [[| | | | |error]|]; try reflexivity.
        destruct (field "message" error) as [m|]; reflexivity.
    + intros ->. reflexivity.
    + intros ->. reflexivity.
    + intros fields error m H1 H2 -> Herr Hmsg Ht.
      apply Z.eqb_neq in H1, H2. rewrite H1, H2. cbn.
      now rewrite Herr, Hmsg, Ht.
  - intros data -> ->. reflexivity.
Qed.

Lemma upstream_outcome_is_passed_on_witness :
  let req := Chat.mkChatRequest "POST" (Some [JObj [("role", JStr "user")]]) None None in
  let up := Chat.mkUpstream false 503
              (inr (JObj [("error", JObj [("message", JStr "overloaded")])])) in
  res_status (Chat.handler (fun _ _ => inr up) (Some "sk-1") req) = 503
  /\ Chat.handler (fun _ _ => inr up) (Some "sk-1") req
     = json 503 [("error", JStr "overloaded")].
Proof.
  intros req up.
  destruct (upstream_outcome_is_passed_on (fun _ _ => inr up) (Some "sk-1") req
              [JObj [("role", JStr "user")]] up) as [H _].
  - reflexivity.
  - reflexivity.
  - reflexivity.
  - reflexivity.
  - destruct H as (H1 & _ & _ & H4); [reflexivity | discriminate |].
    split; [exact H1|].
    apply (H4 [("error", JObj [("message", JStr "overloaded")])]
              [("message", JStr "overloaded")] (JStr "overloaded"));
      reflexivity || discriminate.
Defined.

(** ** create-checkout *)

Ltac in_log :=
  repeat match goal with
         | H : In _ [] |- _ => destruct H
         | H : In _ (_ :: _) |- _ => destruct H as [H|H]
         | H : _ \/ _ |- _ => destruct H as [H|H]
         | H : False |- _ => destruct H
         end.

(** X26.  The checkout handler creates a customer only for an e-mail
    address under which the provider lists none: without an address it
    neither lists nor creates customers and the session names no customer;
    when the provider lists a customer for the address, none is created and
    the session is created for the first one listed. *)
Theorem checkout_customer_is_found_or_created
  (api : Purchase.Api) keys method returnUrl email :
  let log := snd (Purchase.CreateCheckout.handler api keys method returnUrl email) in
  (existsb creates_customer log = true ->
   truthy email = true /\ Purchase.list_customers api (str email) = inr [])
  /\ (truthy email = false ->
      existsb lists_customers log = false
      /\ forall cfg, In (Purchase.CreateSession cfg) log ->
           Purchase.cfg_customer cfg = None /\ Purchase.cfg_customer_email cfg = None)
  /\ (forall c rest,
        truthy email = true ->
        Purchase.list_customers api (str email) = inr (c :: rest) ->
        cus_id c <> "" ->
        forall cfg, In (Purchase.CreateSession cfg) log ->
          Purchase.cfg_customer cfg = Some (cus_id c)
          /\ Purchase.cfg_customer_email cfg = None).
Proof.
  unfold Purchase.CreateCheckout.handler, Purchase.caught, Purchase.bind,
    Purchase.CreateCheckout.customer_for, Purchase.bind, Purchase.call, Purchase.ret.
  cbn zeta.
  destruct (String.eqb method "OPTIONS");
    [cbn; repeat split; (discriminate || contradiction)|].
  destruct (negb (String.eqb method "POST"));
    [cbn; repeat split; (discriminate || contradiction)|].
  destruct (negb (truthy (if truthy (Purchase.TEST_SECRET_KEY keys)
                          then Purchase.TEST_SECRET_KEY keys
                          else Purchase.SECRET_KEY keys))
            || negb (truthy (if truthy (Purchase.TEST_SECRET_KEY keys)
                             then Purchase.TEST_PUBLISHABLE_KEY keys
                             else Purchase.PUBLISHABLE_KEY keys)));
    [cbn; repeat split; (discriminate || contradiction)|].
  destruct (truthy email) eqn:He.
  - destruct (Purchase.list_customers api (str email)) as [e|[|c cs]] eqn:Hl; cbn.
    + repeat split; intros; in_log; discriminate.
    + destruct (Purchase.create_customer api email true) as [e|c']; cbn;
        [|destruct (Purchase.create_session api _) as [err|ses]; cbn];
        repeat split; intros; in_log; discriminate.
    + destruct (Purchase.create_session api _) as [err|ses]; cbn;
        (split; [discriminate|]; split; [discriminate|];
         intros c1 rest _ [= <- _] Hne cfg Hin; in_log; try discriminate;
         match goal with H : Purchase.CreateSession _ = _ |- _ => injection H as <- end;
         unfold Purchase.CreateCheckout.sessionConfig; cbn;
         apply String.eqb_neq in Hne; rewrite Hne; cbn; now split).
  - cbn. destruct (Purchase.create_session api _) as [err|ses]; cbn;
      (split; [discriminate|]; split; [|discriminate];
       intros _; split; [reflexivity|];
       intros cfg Hin; in_log;
       match goal with H : Purchase.CreateSession _ = _ |- _ => injection H as <- end;
       unfold Purchase.CreateCheckout.sessionConfig; cbn; rewrite He; now split).
Qed.

(** A first purchase: the customer is listed, created, and named in the
    session. *)
Example checkout_creates_the_customer :
  snd (Purchase.CreateCheckout.handler fresh_provider live_keys "POST" None (Some "a@b.c"))
  = [Purchase.ListCustomers "a@b.c";
     Purchase.CreateCustomer (Some "a@b.c") true;
     Purchase.CreateSession
       (Purchase.CreateCheckout.sessionConfig None (Some "a@b.c") (Some "cus_new"))]
  /\ fst (Purchase.CreateCheckout.handler fresh_provider live_keys "POST" None (Some "a@b.c"))
     = json 200
         [("sessionId", JStr "cs_new");
          ("url", JStr "https://checkout.stripe.com/c/cs_new");
          ("publishableKey", JStr "pk_live_1")].
Proof. split; reflexivity. Qed.

Lemma session_config_one_customer returnUrl email customerId :
  Purchase.cfg_customer (Purchase.CreateCheckout.sessionConfig returnUrl email customerId)
  = None
  \/ Purchase.cfg_customer_email
       (Purchase.CreateCheckout.sessionConfig returnUrl email customerId) = None.
Proof.
  unfold Purchase.CreateCheckout.sessionConfig. cbn.
  destruct (truthy customerId); [now right | now left].
Qed.

(** X27.  Whatever the request, the keys and the provider's answers, the
    checkout handler asks for one checkout session at most, and a session
    it asks for never names both a customer and a customer e-mail; it is a
    yearly subscription of 499 pence with a trial of three days. *)
Theorem checkout_session_names_one_customer
  (api : Purchase.Api) keys method returnUrl email :
  let log := snd (Purchase.CreateCheckout.handler api keys method returnUrl email) in
  (List.length (filter creates_session log) <= 1)%nat
  /\ forall cfg, In (Purchase.CreateSession cfg) log ->
       (Purchase.cfg_customer cfg = None \/ Purchase.cfg_customer_email cfg = None)
       /\ Purchase.cfg_mode cfg = "subscription"
       /\ Purchase.cfg_unit_amount cfg = 499
       /\ Purchase.cfg_currency cfg = "gbp"
       /\ Purchase.cfg_interval cfg = "year"
       /\ Purchase.cfg_trial_period_days cfg = 3.
Proof.
  unfold Purchase.CreateCheckout.handler, Purchase.caught, Purchase.bind,
    Purchase.CreateCheckout.customer_for, Purchase.bind, Purchase.call, Purchase.ret.
  cbn zeta.
  assert (Hcfg : forall cid cfg,
    Purchase.CreateSession (Purchase.CreateCheckout.sessionConfig returnUrl email cid)
    = Purchase.CreateSession cfg ->
    (Purchase.cfg_customer cfg = None \/ Purchase.cfg_customer_email cfg = None)
    /\ Purchase.cfg_mode cfg = "subscription"
    /\ Purchase.cfg_unit_amount cfg = 499
    /\ Purchase.cfg_currency cfg = "gbp"
    /\ Purchase.cfg_interval cfg = "year"
    /\ Purchase.cfg_trial_period_days cfg = 3).
  { intros cid cfg [= <-]. split; [apply session_config_one_customer | now repeat split]. }
  destruct (String.eqb method "OPTIONS"); [cbn; split; [lia | contradiction]|].
  destruct (negb (String.eqb method "POST")); [cbn; split; [lia | contradiction]|].
  destruct (negb (truthy (if truthy (Purchase.TEST_SECRET_KEY keys)
                          then Purchase.TEST_SECRET_KEY keys
                          else Purchase.SECRET_KEY keys))
            || negb (truthy (if truthy (Purchase.TEST_SECRET_KEY keys)
                             then Purchase.TEST_PUBLISHABLE_KEY keys
                             else Purchase.PUBLISHABLE_KEY keys)));
    [cbn; split; [lia | contradiction]|].
  destruct (truthy email).
  - destruct (Purchase.list_customers api (str email)) as [e|[|c cs]]; cbn.
    + split; [lia|]. intros cfg Hin. in_log. discriminate.
    + destruct (Purchase.create_customer api email true) as [e|c']; cbn;
        [|destruct (Purchase.create_session api _) as [err|ses]; cbn];
        (split; [lia|]; intros cfg Hin; in_log; try discriminate; eapply Hcfg; eassumption).
    + destruct (Purchase.create_session api _) as [err|ses]; cbn;
        (split; [lia|]; intros cfg Hin; in_log; try discriminate; eapply Hcfg; eassumption).
  - cbn. destruct (Purchase.create_session api _) as [err|ses]; cbn;
      (split; [lia|]; intros cfg Hin; in_log; try discriminate; eapply Hcfg; eassumption).
Qed.

(** X28.  The checkout handler takes both keys from one mode: with a test
    secret key set it answers with the test publishable key, and a missing
    test publishable key is a configuration error, reported before any call
    to the provider, even when both live keys are set; without a test
    secret key both live keys are required. *)
Theorem checkout_keys_of_one_mode
  (api : Purchase.Api) keys returnUrl email :
  let run := Purchase.CreateCheckout.handler api keys "POST" returnUrl email in
  (truthy (Purchase.TEST_SECRET_KEY keys) = true ->
   truthy (Purchase.TEST_PUBLISHABLE_KEY keys) = false ->
   run = (json 500
            [("error", JStr "Server configuration error");
             ("details", JStr "TEST_STRIPE_SECRET_KEY or TEST_STRIPE_PUBLISHABLE_KEY not set in Vercel environment variables")],
          []))
  /\ (truthy (Purchase.TEST_SECRET_KEY keys) = false ->
      truthy (Purchase.SECRET_KEY keys) && truthy (Purchase.PUBLISHABLE_KEY keys) = false ->
      run = (json 500
               [("error", JStr "Server configuration error");
                ("details", JStr "STRIPE_SECRET_KEY or STRIPE_PUBLISHABLE_KEY not set in Vercel environment variables")],
             []))
  /\ (res_status (fst run) = 200 ->
      res_field "publishableKey" (fst run)
      = Some (JStr (str (if truthy (Purchase.TEST_SECRET_KEY keys)
                         then Purchase.TEST_PUBLISHABLE_KEY keys
                         else Purchase.PUBLISHABLE_KEY keys)))).
Proof.
  unfold Purchase.CreateCheckout.handler, Purchase.caught, Purchase.bind,
    Purchase.CreateCheckout.customer_for, Purchase.bind, Purchase.call, Purchase.ret.
  cbn.
  split; [|split].
  - intros Ht Hp. rewrite Ht, Ht, Hp. now rewrite orb_true_r.
  - intros Ht Hl. rewrite Ht. rewrite <- negb_andb, Hl. reflexivity.
  - destruct (negb _ || negb _); [discriminate|].
    destruct (truthy email).
    + destruct (Purchase.list_customers api (str email)) as [e|[|c cs]]; cbn;
        [discriminate | |].
      * destruct (Purchase.create_customer api email true) as [e|c']; cbn;
          [discriminate|].
        destruct (Purchase.create_session api _) as [err|ses]; cbn;
          [discriminate | reflexivity].
      * destruct (Purchase.create_session api _) as [err|ses]; cbn;
          [discriminate | reflexivity].
    + cbn. destruct (Purchase.create_session api _) as [err|ses]; cbn;
        [discriminate | reflexivity].
Qed.

(** ** create-payment-intent *)

(** X29.  The payment-intent handler creates only what is missing: it
    creates a customer only when no e-mail address is given or the provider
    lists no customer for it, creates a price only when no price id is
    configured, and, when the provider lists a customer for the address,
    creates the subscription for the first one listed. *)
Theorem payment_intent_creates_what_is_missing
  (api : Purchase.Api) keys method email :
  let log := snd (Purchase.CreatePaymentIntent.handler api keys method email) in
  (existsb creates_customer log = true ->
   truthy email = false \/ Purchase.list_customers api (str email) = inr [])
  /\ (existsb creates_price log = true -> truthy (Purchase.PRICE_ID keys) = false)
  /\ (forall id, In (Purchase.RetrievePrice id) log ->
        truthy (Purchase.PRICE_ID keys) = true /\ id = str (Purchase.PRICE_ID keys))
  /\ (forall c rest customer price,
        truthy email = true ->
        Purchase.list_customers api (str email) = inr (c :: rest) ->
        In (Purchase.CreateSubscription customer price) log ->
        customer = cus_id c).
Proof.
  unfold Purchase.CreatePaymentIntent.handler, Purchase.caught,
    Purchase.CreatePaymentIntent.customer_for, Purchase.CreatePaymentIntent.price_for,
    Purchase.bind, Purchase.call, Purchase.ret, Purchase.throw.
  cbn zeta.
  destruct (negb (String.eqb method "POST"));
    [cbn; repeat split; intros; in_log; discriminate|].
  destruct (negb (truthy (Purchase.SECRET_KEY keys))
            || negb (truthy (Purchase.PUBLISHABLE_KEY keys)));
    [cbn; repeat split; intros; in_log; discriminate|].
  destruct (truthy email) eqn:He;
    [destruct (Purchase.list_customers api (str email)) as [e|[|c cs]] eqn:Hl; cbn;
     [ | destruct (Purchase.create_customer api email false) as [e|c] | ]
    | cbn; destruct (Purchase.create_customer api None false) as [e|c] ];
    cbn;
    try (destruct (truthy (Purchase.PRICE_ID keys)) eqn:Hp;
         [ destruct (Purchase.retrieve_price api _) as [e'|p]
         | destruct (Purchase.create_price api) as [e'|p] ];
         cbn;
         try (destruct (Purchase.create_subscription api _ _) as [e''|[sid [[secret|]|]]];
              cbn));
    (split; [|split; [|split]];
     [ intros H; try discriminate; (now left) || (now right)
     | intros H; try discriminate; reflexivity
     | intros id Hin; in_log; try discriminate;
       match goal with H : Purchase.RetrievePrice _ = _ |- _ => injection H as <- end;
       now split
     | intros c1 rest customer price Hyes Hc Hin; in_log; try discriminate; try congruence;
       match goal with H : Purchase.CreateSubscription _ _ = _ |- _ => injection H as <- _ end;
       congruence ]).
Qed.

(** A purchase with a configured price, by a customer the provider knows. *)
Example payment_intent_reuses_customer_and_price :
  let api := Purchase.mkApi
               (fun _ => inr [mkCustomer "cus_1" "a@b.c"])
               (Purchase.create_customer fresh_provider)
               (Purchase.retrieve_price fresh_provider)
               (Purchase.create_price fresh_provider)
               (Purchase.create_subscription fresh_provider)
               (Purchase.create_session fresh_provider) in
  let keys := Purchase.mkKeys (Some "sk_live_1") (Some "pk_live_1") None None
                (Some "price_1") in
  Purchase.CreatePaymentIntent.handler api keys "POST" (Some "a@b.c")
  = (json 200
       [("clientSecret", JStr "pi_secret");
        ("subscriptionId", JStr "sub_new");
        ("customerId", JStr "cus_1");
        ("publishableKey", JStr "pk_live_1");
        ("priceId", JStr "price_1")],
     [Purchase.ListCustomers "a@b.c";
      Purchase.RetrievePrice "price_1";
      Purchase.CreateSubscription "cus_1" "price_1"]).
Proof. reflexivity. Qed.

(** X30.  When the subscription the payment-intent handler has created
    comes without an invoice or without a payment intent, reading the
    client secret raises: the answer is 500 with the error's message,
    although the subscription has been created at the provider. *)
Theorem payment_intent_without_secret_is_500
  (api : Purchase.Api) keys email customer price subscription :
  truthy (Purchase.SECRET_KEY keys) = true ->
  truthy (Purchase.PUBLISHABLE_KEY keys) = true ->
  fst (Purchase.CreatePaymentIntent.customer_for api email) = inr customer ->
  fst (Purchase.CreatePaymentIntent.price_for api (Purchase.PRICE_ID keys)) = inr price ->
  Purchase.create_subscription api (cus_id customer) price = inr subscription ->
  Purchase.created_client_secret subscription = None
  \/ Purchase.created_client_secret subscription = Some None ->
  res_status (fst (Purchase.CreatePaymentIntent.handler api keys "POST" email)) = 500
  /\ res_field "error" (fst (Purchase.CreatePaymentIntent.handler api keys "POST" email))
     = Some (JStr "Internal server error")
  /\ In (Purchase.CreateSubscription (cus_id customer) price)
       (snd (Purchase.CreatePaymentIntent.handler api keys "POST" email)).
Proof.
  intros Hs Hp Hc Hprice Hsub Hnull.
  unfold Purchase.CreatePaymentIntent.handler, Purchase.caught.
  rewrite Hs, Hp. cbn.
  unfold Purchase.bind.
  destruct (Purchase.CreatePaymentIntent.customer_for api email) as [[e|c] l]; cbn in Hc;
    [discriminate|]. injection Hc as ->.
  destruct (Purchase.CreatePaymentIntent.price_for api (Purchase.PRICE_ID keys))
    as [[e|p] l']; cbn in Hprice; [discriminate|]. injection Hprice as ->.
  unfold Purchase.call. rewrite Hsub.
  destruct Hnull as [-> | ->]; cbn;
    (repeat split; repeat (apply in_or_app; right); now left).
Qed.

Lemma payment_intent_without_secret_is_500_witness :
  let api := Purchase.mkApi
               (Purchase.list_customers fresh_provider)
               (Purchase.create_customer fresh_provider)
               (Purchase.retrieve_price fresh_provider)
               (Purchase.create_price fresh_provider)
               (fun _ _ => inr (Purchase.mkCreatedSubscription "sub_new" (Some None)))
               (Purchase.create_session fresh_provider) in
  res_status (fst (Purchase.CreatePaymentIntent.handler api live_keys "POST" None)) = 500
  /\ res_field "error" (fst (Purchase.CreatePaymentIntent.handler api live_keys "POST" None))
     = Some (JStr "Internal server error")
  /\ In (Purchase.CreateSubscription "cus_new" "price_new")
       (snd (Purchase.CreatePaymentIntent.handler api live_keys "POST" None)).
Proof.
  intros api.
  apply (payment_intent_without_secret_is_500 api live_keys None
           (mkCustomer "cus_new" "") "price_new"
           (Purchase.mkCreatedSubscription "sub_new" (Some None))).
  - reflexivity.
  - reflexivity.
  - reflexivity.
  - reflexivity.
  - reflexivity.
  - now right.
Defined.
